(** * Spaced-repetition scheduler: a shallow embedding of the TypeScript code

    The development follows the two source files that carry the logic of
    the application:

    - the scheduler ([SpacedRepetitionAlgorithm], [StudyUtils]), which is
      typed code over [Flashcard] and [UserProgress] records and which
      reads the wall clock, [Math.random] and the typed collections of
      [CardStorage] and [ProgressStorage];
    - the storage layer ([Storage], [BackupStorage]), which is untyped
      code over JSON text kept in [localStorage].

    Modelling conventions.
    - A JavaScript [number] is an exact rational ([Q]) where the code
      computes with fractions (ease factor, response times, accuracy) and
      an integer ([Z]) where the code only counts; floating-point
      rounding, [NaN] and the infinities are not modelled.
    - A [Date] is its time value, the number of milliseconds since the
      epoch, in [Z]. [setMinutes] and [setDate] work on local time: the
      world carries the time zone of the browser, and a step of a minute
      or of a day is taken on the local time value and read back through
      the zone. A [Date] whose time value leaves the range of
      8.64e15 ms around the epoch is an Invalid Date in the code; the typed
      records hold time values only, and what is proved of a date that was
      set is proved for time values in that range.
    - The [date] key of a [DailyStats] entry (a "YYYY-MM-DD" string) is the
      number of the day since the epoch; [formatDate] maps a time value to
      its day and [localeCompare] on such keys is the order of [Z].
    - Every [new Date()], [Date.now()] and [Math.random()] reads the next
      value of a stream carried by the world, so that two reads in one
      function are not assumed to agree.
    - The scheduler works on the typed views of the two [localStorage]
      entries it uses: what [CardStorage.save] and [ProgressStorage.save]
      store is what the next [getAll] and [get] return. In the code the
      store holds JSON text, and a card that is read back keeps its id, its
      numbers and its dates, while a text field of the shape of a date
      comes back as a [Date]: what is stated of a card that was written and
      read back is stated of those fields ([readsBackAs]). What
      [JSON.stringify], [JSON.parse] and [reviveDates] do to the stored text
      is the subject of the second part, where the store holds text and
      the values are untyped.
    - [localStorage.getItem] and [setItem] are taken not to throw. *)

From Stdlib Require Import ZArith QArith Qround Qminmax Lqa Lia Bool List String Ascii.
From Stdlib Require Import Sorted Permutation.
From stdpp Require Import gmap strings list.
Import ListNotations.

Local Open Scope string_scope.
Local Open Scope list_scope.
Local Open Scope Z_scope.

(** ** Data model ([app/types]) *)

Inductive Difficulty := AGAIN | HARD | GOOD | EASY.

Definition Difficulty_eqb (a b : Difficulty) : bool :=
  match a, b with
  | AGAIN, AGAIN | HARD, HARD | GOOD, GOOD | EASY, EASY => true
  | _, _ => false
  end.

Record Flashcard := {
  id : string;
  front : string;
  back : string;
  category : option string;
  tags : list string;
  createdAt : Z;
  updatedAt : Z;
  (* spaced repetition fields *)
  easeFactor : Q;
  interval : Z;
  repetitions : Z;
  nextReviewDate : Z;
  (* statistics *)
  totalReviews : Z;
  correctReviews : Z;
  streak : Z;
  averageResponseTime : option Q
}.

(** The argument of [CardStorage.add]:
    [Omit<Flashcard, 'id' | 'createdAt' | 'updatedAt'>]. *)
Module NewCard.
Record t := {
  front : string;
  back : string;
  category : option string;
  tags : list string;
  easeFactor : Q;
  interval : Z;
  repetitions : Z;
  nextReviewDate : Z;
  totalReviews : Z;
  correctReviews : Z;
  streak : Z;
  averageResponseTime : option Q
}.
End NewCard.

Record DailyStats := {
  date : Z;
  cardsStudied : Z;
  correctAnswers : Z;
  studyTime : Q;
  newCards : Z
}.

Module LifetimeStats.
Record t := {
  totalReviews : Z;
  correctReviews : Z;
  accuracy : Q;
  longestStreak : Z;
  totalCardsCreated : Z
}.
End LifetimeStats.

Record UserProgress := {
  totalCards : Z;
  cardsLearned : Z;
  cardsDue : Z;
  streakDays : Z;
  totalStudyTime : Q;
  lastStudyDate : option Z;
  dailyStats : list DailyStats;
  lifetimeStats : LifetimeStats.t
}.

(** ** Local time

    The methods [getMinutes], [setMinutes], [getDate] and [setDate] of a
    [Date] work on local time. A time zone gives the offset of local time
    from UTC, in milliseconds: [offsetAt t] at the instant [t]
    ([LocalTZA(t, true)] of ECMAScript) and [offsetOfLocal t] for the local
    time value [t] ([LocalTZA(t, false)]: a local time that occurs twice,
    or not at all, at a change of offset is read with the offset that was
    in force before the change). *)

Record TimeZone := {
  offsetAt : Z -> Z;
  offsetOfLocal : Z -> Z
}.

Definition LocalTime (tz : TimeZone) (t : Z) : Z := t + offsetAt tz t.
Definition UTC (tz : TimeZone) (t : Z) : Z := t - offsetOfLocal tz t.

(** The largest time value of a valid [Date]; [TimeClip] turns what lies
    beyond into an Invalid Date. *)
Definition maxTime : Z := 8640000000000000.
Definition validTime (t : Z) : Prop := - maxTime <= t <= maxTime.

(** ** The world of the typed code

    [cardsItem] and [progressItem] are the typed views of the two
    [localStorage] entries the scheduler uses ([None]: the key is absent).
    [hasWindow] is [typeof window !== 'undefined'], [timeZone] the zone the
    browser runs in. *)

Record World := {
  hasWindow : bool;
  cardsItem : option (list Flashcard);
  progressItem : option UserProgress;
  clock : nat -> Z;
  ticks : nat;
  random : nat -> Q;
  draws : nat;
  timeZone : TimeZone
}.

Definition M (A : Type) : Type := World -> A * World.

Definition ret {A} (a : A) : M A := fun w => (a, w).

Definition bind {A B} (m : M A) (k : A -> M B) : M B :=
  fun w => let (a, w') := m w in k a w'.

Declare Scope js_scope.
Delimit Scope js_scope with js.
Notation "'do' x <- m ; k" := (bind m (fun x => k))
  (at level 10, x name, m at level 100, k at level 200) : js_scope.
Notation "'run' m ; k" := (bind m (fun _ => k))
  (at level 10, m at level 100, k at level 200) : js_scope.
Local Open Scope js_scope.

Definition set_ticks (n : nat) (w : World) : World :=
  {| hasWindow := hasWindow w; cardsItem := cardsItem w;
     progressItem := progressItem w; clock := clock w; ticks := n;
     random := random w; draws := draws w; timeZone := timeZone w |}.

Definition set_draws (n : nat) (w : World) : World :=
  {| hasWindow := hasWindow w; cardsItem := cardsItem w;
     progressItem := progressItem w; clock := clock w; ticks := ticks w;
     random := random w; draws := n; timeZone := timeZone w |}.

Definition set_cardsItem (cs : option (list Flashcard)) (w : World) : World :=
  {| hasWindow := hasWindow w; cardsItem := cs;
     progressItem := progressItem w; clock := clock w; ticks := ticks w;
     random := random w; draws := draws w; timeZone := timeZone w |}.

Definition set_progressItem (p : option UserProgress) (w : World) : World :=
  {| hasWindow := hasWindow w; cardsItem := cardsItem w;
     progressItem := p; clock := clock w; ticks := ticks w;
     random := random w; draws := draws w; timeZone := timeZone w |}.

(** [new Date()] and [Date.now()]: read the clock once. *)
Definition newDate : M Z := fun w =>
  (clock w (ticks w), set_ticks (S (ticks w)) w).

(** [Math.random()]: draw once. *)
Definition Math_random : M Q := fun w =>
  (random w (draws w), set_draws (S (draws w)) w).

Definition Math_round (x : Q) : Z := Qfloor (x + (1 # 2)).
Definition Math_floor (x : Q) : Z := Qfloor x.

Definition msPerSecond : Z := 1000.
Definition msPerMinute : Z := 60000.
Definition msPerHour : Z := 3600000.
Definition msPerDay : Z := 86400000.

(** The zone the code runs in. *)
Definition localZone : M TimeZone := fun w => (timeZone w, w).

(** The parts of a time value and their inverse, as ECMAScript defines
    them. *)
Definition Day (t : Z) : Z := t / msPerDay.
Definition TimeWithinDay (t : Z) : Z := t mod msPerDay.
Definition HourFromTime (t : Z) : Z := (t / msPerHour) mod 24.
Definition MinFromTime (t : Z) : Z := (t / msPerMinute) mod 60.
Definition SecFromTime (t : Z) : Z := (t / msPerSecond) mod 60.
Definition msFromTime (t : Z) : Z := t mod msPerSecond.

Definition MakeTime (hour min sec ms : Z) : Z :=
  hour * msPerHour + min * msPerMinute + sec * msPerSecond + ms.
Definition MakeDate (day time : Z) : Z := day * msPerDay + time.

(** [d.setMinutes(d.getMinutes() + n)] on the date with time value [t]:
    the minutes of the local time are replaced and the result is read as a
    local time. *)
Definition setMinutes_plus (tz : TimeZone) (t n : Z) : Z :=
  let local := LocalTime tz t in
  UTC tz (MakeDate (Day local)
            (MakeTime (HourFromTime local) (MinFromTime local + n)
               (SecFromTime local) (msFromTime local))).

(** [d.setDate(d.getDate() + n)]: [MakeDay(year, month, date)] is the day
    on which the month starts plus [date - 1], and [getDate()] is the day
    of the local time minus the day on which the month starts plus 1, so
    the new day is the day of the local time plus [n]; the time within the
    day is kept. *)
Definition setDate_plus (tz : TimeZone) (t n : Z) : Z :=
  let local := LocalTime tz t in
  UTC tz (MakeDate (Day local + n) (TimeWithinDay local)).

(** [formatDate]: [date.toISOString().split('T')[0]], as a day number. *)
Definition formatDate (d : Z) : Z := d / msPerDay.

Definition getTodayString : M Z := do now <- newDate; ret (formatDate now).

(** A number used as a condition: [0] is falsy. *)
Definition truthyQ (x : Q) : bool := negb (Qeq_bool x 0).
Definition truthyZ (x : Z) : bool := negb (x =? 0).

(** [array.findIndex(pred)]; [None] stands for [-1]. *)
Fixpoint findIndex {A} (pred : A -> bool) (l : list A) : option nat :=
  match l with
  | [] => None
  | x :: l' => if pred x then Some O else option_map S (findIndex pred l')
  end.

(** [array.slice(0, n)] for an integer [n]; a negative [n] counts from the
    end. *)
Definition slice0 {A} (l : list A) (n : Z) : list A :=
  if n <? 0 then firstn (Z.to_nat (Z.of_nat (length l) + n)) l
  else firstn (Z.to_nat n) l.

Module AlgorithmResult.
Record t := {
  easeFactor : Q;
  interval : Z;
  repetitions : Z;
  nextReviewDate : Z
}.
End AlgorithmResult.

(** ** The typed code: [CardStorage], [ProgressStorage] and the scheduler *)

Section Scheduler.

(** [Number.prototype.toString(36)], a built-in the code only uses to make
    identifiers. *)
Variable toString36 : Q -> string.

(** *** [CardStorage] and [ProgressStorage] ([app/lib/storage.ts]) *)

(** [Storage.get<Flashcard[]>(StorageKeys.CARDS) || []], on the typed view
    of the stored collection. *)
Definition CardStorage_getAll : M (list Flashcard) := fun w =>
  (if hasWindow w then
     match cardsItem w with Some cards => cards | None => [] end
   else [], w).

Definition CardStorage_save (cards : list Flashcard) : M unit := fun w =>
  (tt, if hasWindow w then set_cardsItem (Some cards) w else w).

(** [str.substr(2)]. *)
Definition substr2 (s : string) : string :=
  String.substring 2 (String.length s - 2) s.

Definition generateId : M string :=
  do t <- newDate;
  do r <- Math_random;
  ret (String.append (toString36 (inject_Z t)) (substr2 (toString36 r))).

Definition CardStorage_add (card : NewCard.t) : M Flashcard :=
  do cards <- CardStorage_getAll;
  do newId <- generateId;
  do created <- newDate;
  do updated <- newDate;
  do next <- newDate;
  let newCard :=
    {| id := newId;
       front := NewCard.front card;
       back := NewCard.back card;
       category := NewCard.category card;
       tags := NewCard.tags card;
       createdAt := created;
       updatedAt := updated;
       easeFactor := 25 # 10;
       interval := 1;
       repetitions := 0;
       nextReviewDate := next;
       totalReviews := 0;
       correctReviews := 0;
       streak := 0;
       averageResponseTime := NewCard.averageResponseTime card |} in
  run CardStorage_save (cards ++ [newCard]);
  ret newCard.

(** [{...base, ...updates, updatedAt: now}] for an [updates] that has every
    required field of a card: a key of [updates] wins, and an optional key
    that [updates] lacks keeps the value of [base]. *)
Definition spread_update (base updates : Flashcard) (now : Z) : Flashcard :=
  {| id := id updates;
     front := front updates;
     back := back updates;
     category := match category updates with
                 | Some c => Some c
                 | None => category base
                 end;
     tags := tags updates;
     createdAt := createdAt updates;
     updatedAt := now;
     easeFactor := easeFactor updates;
     interval := interval updates;
     repetitions := repetitions updates;
     nextReviewDate := nextReviewDate updates;
     totalReviews := totalReviews updates;
     correctReviews := correctReviews updates;
     streak := streak updates;
     averageResponseTime := match averageResponseTime updates with
                            | Some a => Some a
                            | None => averageResponseTime base
                            end |}.

Definition CardStorage_update (cardId : string) (updates : Flashcard)
  : M (option Flashcard) :=
  do cards <- CardStorage_getAll;
  match findIndex (fun card => String.eqb (id card) cardId) cards with
  | None => ret None
  | Some index =>
      match cards !! index with
      | None => ret None
      | Some old =>
          do now <- newDate;
          let card' := spread_update old updates now in
          run CardStorage_save (<[index := card']> cards);
          ret (Some card')
      end
  end.

Definition CardStorage_getDueCards : M (list Flashcard) :=
  do cards <- CardStorage_getAll;
  do now <- newDate;
  ret (List.filter (fun card => nextReviewDate card <=? now) cards).

Definition CardStorage_getNewCards : M (list Flashcard) :=
  do cards <- CardStorage_getAll;
  ret (List.filter (fun card => repetitions card =? 0) cards).

Definition defaultProgress : UserProgress :=
  {| totalCards := 0;
     cardsLearned := 0;
     cardsDue := 0;
     streakDays := 0;
     totalStudyTime := 0;
     lastStudyDate := None;
     dailyStats := [];
     lifetimeStats :=
       {| LifetimeStats.totalReviews := 0;
          LifetimeStats.correctReviews := 0;
          LifetimeStats.accuracy := 0;
          LifetimeStats.longestStreak := 0;
          LifetimeStats.totalCardsCreated := 0 |} |}.

(** [Storage.get<UserProgress>(StorageKeys.USER_PROGRESS) || defaultProgress]. *)
Definition ProgressStorage_get : M UserProgress := fun w =>
  (if hasWindow w then
     match progressItem w with Some p => p | None => defaultProgress end
   else defaultProgress, w).

Definition ProgressStorage_save (progress : UserProgress) : M unit := fun w =>
  (tt, if hasWindow w then set_progressItem (Some progress) w else w).

(** *** [SpacedRepetitionAlgorithm] *)

(** The product that gives the interval is taken and rounded as an exact
    rational. The next review date is set in local time; its time value
    makes a valid [Date] when it lies within [maxTime] of the epoch, which
    is what the properties of that date assume. *)
Definition calculateNext (card : Flashcard) (difficulty : Difficulty)
  : M AlgorithmResult.t :=
  do tz <- localZone;
  do now <- newDate;
  let '(easeFactor', interval', repetitions') :=
    match difficulty with
    | AGAIN => (easeFactor card, 0, 0)
    | HARD =>
        let ef := Qmax (13 # 10) (easeFactor card - (15 # 100)) in
        if repetitions card =? 0 then (ef, 1, 1)
        else if repetitions card =? 1 then (ef, 2, 2)
        else (ef,
              Z.max 1 (Math_round (inject_Z (interval card) * ef * (8 # 10))),
              repetitions card + 1)
    | GOOD =>
        if repetitions card =? 0 then (easeFactor card, 1, 1)
        else if repetitions card =? 1 then (easeFactor card, 6, 2)
        else (easeFactor card,
              Math_round (inject_Z (interval card) * easeFactor card),
              repetitions card + 1)
    | EASY =>
        let ef := Qmin (25 # 10) (easeFactor card + (1 # 10)) in
        if repetitions card =? 0 then (ef, 4, 1)
        else if repetitions card =? 1 then (ef, 8, 2)
        else (ef,
              Math_round (inject_Z (interval card) * ef * (13 # 10)),
              repetitions card + 1)
    end in
  let nextReviewDate' :=
    if Difficulty_eqb difficulty AGAIN then setMinutes_plus tz now 1
    else setDate_plus tz now interval' in
  ret {| AlgorithmResult.easeFactor := easeFactor';
         AlgorithmResult.interval := interval';
         AlgorithmResult.repetitions := repetitions';
         AlgorithmResult.nextReviewDate := nextReviewDate' |}.

(** [existingStats.cardsStudied += 1; ...] on the first entry of the day,
    which [find] returns and the code mutates in place; [None] when no
    entry has that date. *)
Fixpoint bumpExisting (today : Z) (correct : bool) (responseTime : Q)
    (stats : list DailyStats) : option (list DailyStats) :=
  match stats with
  | [] => None
  | s :: rest =>
      if date s =? today then
        Some ({| date := date s;
                 cardsStudied := cardsStudied s + 1;
                 correctAnswers :=
                   if correct then correctAnswers s + 1 else correctAnswers s;
                 studyTime := (studyTime s + responseTime)%Q;
                 newCards := newCards s |} :: rest)
      else option_map (cons s) (bumpExisting today correct responseTime rest)
  end.

Definition updateDailyStats (correct : bool) (responseTime : Q) : M unit :=
  do today <- getTodayString;
  do progress <- ProgressStorage_get;
  let dailyStats' :=
    match bumpExisting today correct responseTime (dailyStats progress) with
    | Some stats => stats
    | None =>
        dailyStats progress ++
        [{| date := today;
            cardsStudied := 1;
            correctAnswers := if correct then 1 else 0;
            studyTime := responseTime;
            newCards := 0 |}]
    end in
  let life := lifetimeStats progress in
  let total := LifetimeStats.totalReviews life + 1 in
  let correctCount :=
    if correct then LifetimeStats.correctReviews life + 1
    else LifetimeStats.correctReviews life in
  let accuracy' :=
    if 0 <? total then ((inject_Z correctCount / inject_Z total) * 100)%Q
    else 0%Q in
  ProgressStorage_save
    {| totalCards := totalCards progress;
       cardsLearned := cardsLearned progress;
       cardsDue := cardsDue progress;
       streakDays := streakDays progress;
       totalStudyTime := totalStudyTime progress;
       lastStudyDate := lastStudyDate progress;
       dailyStats := dailyStats';
       lifetimeStats :=
         {| LifetimeStats.totalReviews := total;
            LifetimeStats.correctReviews := correctCount;
            LifetimeStats.accuracy := accuracy';
            LifetimeStats.longestStreak := LifetimeStats.longestStreak life;
            LifetimeStats.totalCardsCreated :=
              LifetimeStats.totalCardsCreated life |} |}.

Definition processReview (card : Flashcard) (difficulty : Difficulty)
    (responseTime : Q) : M Flashcard :=
  do result <- calculateNext card difficulty;
  let totalReviews' := totalReviews card + 1 in
  let correctReviews' :=
    if negb (Difficulty_eqb difficulty AGAIN) then correctReviews card + 1
    else correctReviews card in
  let streak' :=
    if negb (Difficulty_eqb difficulty AGAIN) then streak card + 1 else 0 in
  let averageResponseTime' :=
    match averageResponseTime card with
    | Some avg =>
        if truthyQ avg then
          ((avg * inject_Z (totalReviews card) + responseTime)
           / inject_Z totalReviews')%Q
        else responseTime
    | None => responseTime
    end in
  do now <- newDate;
  let updatedCard :=
    {| id := id card;
       front := front card;
       back := back card;
       category := category card;
       tags := tags card;
       createdAt := createdAt card;
       updatedAt := now;
       easeFactor := AlgorithmResult.easeFactor result;
       interval := AlgorithmResult.interval result;
       repetitions := AlgorithmResult.repetitions result;
       nextReviewDate := AlgorithmResult.nextReviewDate result;
       totalReviews := totalReviews';
       correctReviews := correctReviews';
       streak := streak';
       averageResponseTime := Some averageResponseTime' |} in
  run CardStorage_update (id card) updatedCard;
  run updateDailyStats (negb (Difficulty_eqb difficulty AGAIN)) responseTime;
  ret updatedCard.

(** [[shuffled[i], shuffled[j]] = [shuffled[j], shuffled[i]]]. Both indices
    are in range when the draw is in [[0, 1)]; an index out of range (which
    [Math.random] cannot produce) leaves the list as it is. *)
Definition swap {A} (l : list A) (i j : nat) : list A :=
  match l !! i, l !! j with
  | Some a, Some b => <[j := a]> (<[i := b]> l)
  | _, _ => l
  end.

(** The loop [for (let i = shuffled.length - 1; i > 0; i--)] of
    [shuffleArray], entered at index [i]. *)
Fixpoint shuffleFrom {A} (i : nat) (shuffled : list A) : M (list A) :=
  match i with
  | O => ret shuffled
  | S i' =>
      do r <- Math_random;
      let j := Z.to_nat (Math_floor (r * inject_Z (Z.of_nat i + 1))) in
      shuffleFrom i' (swap shuffled i j)
  end.

Definition shuffleArray {A} (array : list A) : M (list A) :=
  shuffleFrom (length array - 1)%nat array.

(** [maxCards ? shuffled.slice(0, maxCards) : shuffled], for the optional
    parameter [maxCards?: number]. *)
Definition capAt {A} (maxCards : option Z) (shuffled : list A) : list A :=
  match maxCards with
  | Some n => if truthyZ n then slice0 shuffled n else shuffled
  | None => shuffled
  end.

Definition getDueCards (maxCards : option Z) : M (list Flashcard) :=
  do allCards <- CardStorage_getDueCards;
  do shuffled <- shuffleArray allCards;
  ret (capAt maxCards shuffled).

Definition getNewCards (maxCards : option Z) : M (list Flashcard) :=
  do newCards <- CardStorage_getNewCards;
  do shuffled <- shuffleArray newCards;
  ret (capAt maxCards shuffled).

(** One turn of the loop of [getStudyQueue] at index [i]. *)
Definition interleaveStep (dueCards newCards : list Flashcard) (i : nat)
    (queue : list Flashcard) : list Flashcard :=
  let queue1 :=
    if (i <? length dueCards)%nat then
      match dueCards !! i with Some c => queue ++ [c] | None => queue end
    else queue in
  let queue2 :=
    if (i <? length dueCards)%nat && (i + 1 <? length dueCards)%nat then
      match dueCards !! (i + 1)%nat with
      | Some c => queue1 ++ [c]
      | None => queue1
      end
    else queue1 in
  if (i <? length newCards)%nat then
    match newCards !! i with Some c => queue2 ++ [c] | None => queue2 end
  else queue2.

(** [for (let i = 0; i < maxLength; i++)], with [n] turns left. *)
Fixpoint interleaveLoop (dueCards newCards : list Flashcard) (n i : nat)
    (queue : list Flashcard) : list Flashcard :=
  match n with
  | O => queue
  | S n' =>
      interleaveLoop dueCards newCards n' (S i)
        (interleaveStep dueCards newCards i queue)
  end.

Definition interleave (dueCards newCards : list Flashcard) : list Flashcard :=
  let maxLength := Nat.max (length dueCards) (length newCards) in
  interleaveLoop dueCards newCards maxLength 0 [].

(** [getStudyQueue(maxNewCards = 10, maxReviews = 50)]: an argument that is
    left out takes its default. *)
Definition getStudyQueue (maxNewCards maxReviews : option Z)
  : M (list Flashcard) :=
  let maxNewCards' := match maxNewCards with Some n => n | None => 10 end in
  let maxReviews' := match maxReviews with Some n => n | None => 50 end in
  do dueCards <- getDueCards (Some maxReviews');
  do newCards <- getNewCards (Some maxNewCards');
  ret (interleave dueCards newCards).

(** *** [StudyUtils.calculateStudyStreak] *)

(** [dailyStats.sort((a, b) => b.date.localeCompare(a.date))]: a stable
    sort by date, latest first. *)
Fixpoint insertDesc (x : DailyStats) (l : list DailyStats) : list DailyStats :=
  match l with
  | [] => [x]
  | y :: l' => if date x <? date y then y :: insertDesc x l' else x :: y :: l'
  end.

Definition sortDesc (l : list DailyStats) : list DailyStats :=
  fold_right insertDesc [] l.

(** [for (const stats of dailyStats)] with its [break]. The day to match
    is the UTC day of [currentDate] ([formatDate]); the step back,
    [currentDate.setDate(currentDate.getDate() - 1)], is a step of one day
    of local time. *)
Fixpoint streakLoop (tz : TimeZone) (stats : list DailyStats) (streak : Z)
    (currentDate : Z) : Z :=
  match stats with
  | [] => streak
  | s :: rest =>
      let dateStr := formatDate currentDate in
      if (date s =? dateStr) && (0 <? cardsStudied s) then
        streakLoop tz rest (streak + 1) (setDate_plus tz currentDate (-1))
      else streak
  end.

Definition calculateStudyStreak : M Z :=
  do tz <- localZone;
  do progress <- ProgressStorage_get;
  let sorted := sortDesc (dailyStats progress) in
  do today <- getTodayString;
  do currentDate <- newDate;
  ret (streakLoop tz sorted 0 currentDate).

End Scheduler.

(** ** More of the typed code

    The other operations of [CardStorage] and of
    [SpacedRepetitionAlgorithm] and [StudyUtils] that work on cards. *)

(** [cards.splice(index, 1)]. *)
Definition splice1 {A} (index : nat) (l : list A) : list A :=
  firstn index l ++ skipn (S index) l.

Definition CardStorage_delete (cardId : string) : M bool :=
  do cards <- CardStorage_getAll;
  match findIndex (fun card => String.eqb (id card) cardId) cards with
  | None => ret false
  | Some index =>
      run CardStorage_save (splice1 index cards);
      ret true
  end.

(** [cards.find(card => card.id === id) || null]. *)
Definition CardStorage_getById (cardId : string) : M (option Flashcard) :=
  do cards <- CardStorage_getAll;
  ret (List.find (fun card => String.eqb (id card) cardId) cards).

Definition CardStorage_getByCategory (name : string) : M (list Flashcard) :=
  do cards <- CardStorage_getAll;
  ret (List.filter
         (fun card => match category card with
                      | Some c => String.eqb c name
                      | None => false
                      end) cards).

(** [a < b] and [a > b] on numbers. *)
Definition Qltb (a b : Q) : bool := negb (Qle_bool b a).

Definition getOptimalInterval (card : Flashcard) : Z :=
  let baseInterval := interval card in
  let accuracy :=
    if 0 <? totalReviews card
    then (inject_Z (correctReviews card) / inject_Z (totalReviews card))%Q
    else 0%Q in
  if Qltb accuracy (6 # 10) then
    Z.max 1 (Math_round (inject_Z baseInterval * (5 # 10)))
  else if Qltb (9 # 10) accuracy then
    Math_round (inject_Z baseInterval * (12 # 10))
  else baseInterval.

Module QueueStats.
Record t := {
  dueCount : nat;
  newCount : nat;
  totalCards : nat;
  averageEaseFactor : Q
}.
End QueueStats.

(** [allCards.reduce((sum, card) => sum + card.easeFactor, 0)]. The sum is
    exact here; the code rounds it at every step, so of the sum of more
    than one ease factor nothing is proved. *)
Definition totalEase (cards : list Flashcard) : Q :=
  fold_left (fun sum card => (sum + easeFactor card)%Q) cards 0%Q.

Definition getQueueStats : M QueueStats.t :=
  do allCards <- CardStorage_getAll;
  do dueCards <- CardStorage_getDueCards;
  do newCards <- CardStorage_getNewCards;
  let totalEaseFactor := totalEase allCards in
  let averageEaseFactor :=
    if (0 <? length allCards)%nat
    then (totalEaseFactor / inject_Z (Z.of_nat (length allCards)))%Q
    else (25 # 10)%Q in
  ret {| QueueStats.dueCount := length dueCards;
         QueueStats.newCount := length newCards;
         QueueStats.totalCards := length allCards;
         QueueStats.averageEaseFactor := averageEaseFactor |}.

Definition suggestDifficulty (card : Flashcard) (responseTime : Q)
  : Difficulty :=
  let averageTime :=
    match averageResponseTime card with
    | Some avg => if truthyQ avg then avg else 5%Q
    | None => 5%Q
    end in
  let accuracy :=
    if 0 <? totalReviews card
    then (inject_Z (correctReviews card) / inject_Z (totalReviews card))%Q
    else 1%Q in
  if Qltb (averageTime * 2) responseTime then HARD
  else if Qltb responseTime (averageTime * (5 # 10))
          && Qltb (9 # 10) accuracy then EASY
  else GOOD.

(** *** [ProgressStorage.updateDailyStats] ([app/lib/storage.ts])

    A [Partial<DailyStats>]: each property is absent or holds a value. *)
Module DailyPatch.
Record t := {
  date : option Z;
  cardsStudied : option Z;
  correctAnswers : option Z;
  studyTime : option Q;
  newCards : option Z
}.
End DailyPatch.

(** [{...base, ...stats}]. *)
Definition spread_stats (base : DailyStats) (stats : DailyPatch.t)
  : DailyStats :=
  {| date := default (date base) (DailyPatch.date stats);
     cardsStudied := default (cardsStudied base) (DailyPatch.cardsStudied stats);
     correctAnswers :=
       default (correctAnswers base) (DailyPatch.correctAnswers stats);
     studyTime := default (studyTime base) (DailyPatch.studyTime stats);
     newCards := default (newCards base) (DailyPatch.newCards stats) |}.

(** The entry of a day nothing has been recorded for. *)
Definition emptyStats (day : Z) : DailyStats :=
  {| date := day; cardsStudied := 0; correctAnswers := 0; studyTime := 0;
     newCards := 0 |}.

Definition ProgressStorage_updateDailyStats (day : Z) (stats : DailyPatch.t)
  : M unit :=
  do progress <- ProgressStorage_get;
  let dailyStats' :=
    match findIndex (fun s => date s =? day) (dailyStats progress) with
    | Some existingIndex =>
        match dailyStats progress !! existingIndex with
        | Some existing =>
            <[existingIndex := spread_stats existing stats]>
              (dailyStats progress)
        | None => dailyStats progress
        end
    | None => dailyStats progress ++ [spread_stats (emptyStats day) stats]
    end in
  ProgressStorage_save
    {| totalCards := totalCards progress;
       cardsLearned := cardsLearned progress;
       cardsDue := cardsDue progress;
       streakDays := streakDays progress;
       totalStudyTime := totalStudyTime progress;
       lastStudyDate := lastStudyDate progress;
       dailyStats := dailyStats';
       lifetimeStats := lifetimeStats progress |}.

(** ** The storage layer as it runs: JSON text in [localStorage]

    [Storage.get] and [Storage.set] do not know the type of what they
    store: they parse and print JSON text and turn date-like strings into
    [Date] objects. The backup functions work at that level, on whatever
    the five keys hold. *)

Module Raw.

(** A JavaScript value as [JSON.parse] and [reviveDates] can produce it.
    [VObj props] is an object with the own properties [props], in the order
    [for ... in] visits them, whose prototype is [Object.prototype].
    [VProto proto props] is such an object after an assignment to its
    [__proto__] has made [proto] (an object, an array, a [Date] or [null])
    its prototype. *)
#[local] Unset Elimination Schemes.
Inductive JSValue :=
| VNull
| VBool (b : bool)
| VNum (n : Q)
| VStr (s : string)
| VDate (t : Z)
| VArr (items : list JSValue)
| VObj (props : list (string * JSValue))
| VProto (proto : JSValue) (props : list (string * JSValue)).
#[local] Set Elimination Schemes.

(** Induction on a value with its nested lists. *)
Section JSValueInduction.

Variable P : JSValue -> Prop.
Hypothesis Hnull : P VNull.
Hypothesis Hbool : forall b, P (VBool b).
Hypothesis Hnum : forall n, P (VNum n).
Hypothesis Hstr : forall s, P (VStr s).
Hypothesis Hdate : forall t, P (VDate t).
Hypothesis Harr : forall items, Forall P items -> P (VArr items).
Hypothesis Hobj :
  forall props, Forall (fun p => P (snd p)) props -> P (VObj props).
Hypothesis Hproto :
  forall proto props,
    P proto -> Forall (fun p => P (snd p)) props -> P (VProto proto props).

Fixpoint JSValue_nested_ind (v : JSValue) : P v :=
  match v with
  | VNull => Hnull
  | VBool b => Hbool b
  | VNum n => Hnum n
  | VStr s => Hstr s
  | VDate t => Hdate t
  | VArr items =>
      Harr items
        ((fix all (l : list JSValue) : Forall P l :=
            match l with
            | [] => @List.Forall_nil _ P
            | x :: l' => @List.Forall_cons _ P x l' (JSValue_nested_ind x) (all l')
            end) items)
  | VObj props =>
      Hobj props
        ((fix all (l : list (string * JSValue))
            : Forall (fun p => P (snd p)) l :=
            match l with
            | [] => @List.Forall_nil _ _
            | p :: l' =>
                @List.Forall_cons _ (fun p => P (snd p)) p l'
                  (JSValue_nested_ind (snd p)) (all l')
            end) props)
  | VProto proto props =>
      Hproto proto props (JSValue_nested_ind proto)
        ((fix all (l : list (string * JSValue))
            : Forall (fun p => P (snd p)) l :=
            match l with
            | [] => @List.Forall_nil _ _
            | p :: l' =>
                @List.Forall_cons _ (fun p => P (snd p)) p l'
                  (JSValue_nested_ind (snd p)) (all l')
            end) props)
  end.

End JSValueInduction.

(** The built-ins of the platform the code calls. [JSON_serialize gap v] is
    the text [JSON.stringify] writes, with indentation [gap], for a value
    [v] whose dates have already been replaced by their [toJSON()] and
    whose objects are plain.
    [Date_parse s] is the time value of [new Date(s)], [None] when
    [isNaN(date.getTime())]. *)
Class JSBuiltins := {
  JSON_parse : string -> option JSValue;
  JSON_serialize : nat -> JSValue -> string;
  Date_toISOString : Z -> string;
  Date_parse : string -> option Z
}.

Record Browser := {
  windowDefined : bool;
  localStorage : gmap string string;
  wallClock : nat -> Z;
  reads : nat
}.

Definition CARDS : string := "spaced-repetition-cards".
Definition USER_PROGRESS : string := "spaced-repetition-progress".
Definition STUDY_SESSIONS : string := "spaced-repetition-sessions".
Definition CATEGORIES : string := "spaced-repetition-categories".
Definition SETTINGS : string := "spaced-repetition-settings".

Definition isDigit (c : ascii) : bool :=
  let n := nat_of_ascii c in (48 <=? n)%nat && (n <=? 57)%nat.

(** One position of the pattern of [dateRegex]. *)
Inductive RegexItem := Digit | Lit (c : ascii).

Fixpoint matchPrefix (pattern : list RegexItem) (s : string) : bool :=
  match pattern, s with
  | [], _ => true
  | _ :: _, EmptyString => false
  | Digit :: pattern', String c s' => isDigit c && matchPrefix pattern' s'
  | Lit a :: pattern', String c s' => Ascii.eqb a c && matchPrefix pattern' s'
  end.

(** [/^\d{4}-\d{2}-\d{2}T\d{2}:\d{2}:\d{2}/.test(s)]. *)
Definition dateRegex_test (s : string) : bool :=
  matchPrefix
    [Digit; Digit; Digit; Digit; Lit "-"; Digit; Digit; Lit "-"; Digit; Digit;
     Lit "T"; Digit; Digit; Lit ":"; Digit; Digit; Lit ":"; Digit; Digit] s.

#[global] Arguments dateRegex_test : simpl never.

(** Truthiness, as [if (x)], [!x] and [x || y] use it. *)
Definition truthy (v : JSValue) : bool :=
  match v with
  | VNull => false
  | VBool b => b
  | VNum n => truthyQ n
  | VStr s => negb (String.eqb s "")
  | VDate _ | VArr _ | VObj _ | VProto _ _ => true
  end.

Definition orElse (v d : JSValue) : JSValue := if truthy v then v else d.

(** [data.key] on a value that is not [null]; [None] is [undefined]. None of
    the keys the code reads is a property of a built-in prototype; in an
    object whose prototype was assigned the lookup goes on there. *)
Fixpoint lookupProp (key : string) (props : list (string * JSValue))
  : option JSValue :=
  match props with
  | [] => None
  | (k, v) :: props' => if String.eqb k key then Some v else lookupProp key props'
  end.

Fixpoint getProp (data : JSValue) (key : string) : option JSValue :=
  match data with
  | VObj props => lookupProp key props
  | VProto proto props =>
      match lookupProp key props with
      | Some v => Some v
      | None => getProp proto key
      end
  | _ => None
  end.

(** The properties of an object with [f] applied to every value. *)
Definition mapValues (f : JSValue -> JSValue)
  : list (string * JSValue) -> list (string * JSValue) :=
  fix each ps :=
    match ps with
    | [] => []
    | (k, x) :: ps' => (k, f x) :: each ps'
    end.

(** [for (const key in obj) result[key] = f(obj[key])] on a fresh object
    [result], whose keys are distinct. An assignment to the key "__proto__"
    reaches the setter of [Object.prototype] and creates no own property,
    so that key is not among the own properties of the result
    ([assignValues]). The setter makes the value assigned the prototype of
    [result] when it is an object or [null], and does nothing otherwise
    ([assignedProto]). *)
Definition assignValues (f : JSValue -> JSValue)
  : list (string * JSValue) -> list (string * JSValue) :=
  fix each ps :=
    match ps with
    | [] => []
    | (k, x) :: ps' =>
        if String.eqb k "__proto__" then each ps' else (k, f x) :: each ps'
    end.

Definition isObjectOrNull (v : JSValue) : bool :=
  match v with
  | VNull | VDate _ | VArr _ | VObj _ | VProto _ _ => true
  | _ => false
  end.

Definition assignedProto (f : JSValue -> JSValue)
  : list (string * JSValue) -> option JSValue :=
  fix each ps :=
    match ps with
    | [] => None
    | (k, x) :: ps' =>
        match each ps' with
        | Some proto => Some proto
        | None =>
            if String.eqb k "__proto__" && isObjectOrNull (f x)
            then Some (f x) else None
        end
    end.

Definition hasKey (key : string) (props : list (string * JSValue)) : bool :=
  existsb (fun p => String.eqb (fst p) key) props.

(** Whether the lookup of [toJSON] that starts at the object [proto] ends
    at [Date.prototype.toJSON]: it does for a [Date], and for an object
    with neither an own property of that name nor a prototype for which
    it does not. *)
Fixpoint inheritsDateToJSON (proto : JSValue) : bool :=
  match proto with
  | VDate _ => true
  | VProto proto' props =>
      negb (hasKey "toJSON" props) && inheritsDateToJSON proto'
  | _ => false
  end.

(** Whether [JSON.stringify(v)] throws. No value here is a function, so
    an own or inherited property [toJSON] is called only when it is that
    of [Date.prototype]; called on an object that is not a [Date], it
    throws a [TypeError]. *)
Fixpoint stringifyThrows (v : JSValue) : bool :=
  match v with
  | VArr items => existsb stringifyThrows items
  | VObj props =>
      (fix each (ps : list (string * JSValue)) : bool :=
         match ps with
         | [] => false
         | (_, x) :: ps' => stringifyThrows x || each ps'
         end) props
  | VProto proto props =>
      (negb (hasKey "toJSON" props) && inheritsDateToJSON proto)
      || (fix each (ps : list (string * JSValue)) : bool :=
            match ps with
            | [] => false
            | (_, x) :: ps' => stringifyThrows x || each ps'
            end) props
  | _ => false
  end.

Section Storage.

Context {builtins : JSBuiltins}.

(** What [JSON.stringify] sees of a value: a [Date] is replaced by its
    [toJSON()], which is [toISOString()] for a valid date, and of an object
    the own properties are written, whatever its prototype. *)
Fixpoint toJSON (v : JSValue) : JSValue :=
  match v with
  | VDate t => VStr (Date_toISOString t)
  | VArr items => VArr (List.map toJSON items)
  | VObj props => VObj (mapValues toJSON props)
  | VProto _ props => VObj (mapValues toJSON props)
  | _ => v
  end.

(** [JSON.stringify(v)]; [None] when it throws. *)
Definition JSON_stringify (v : JSValue) : option string :=
  if stringifyThrows v then None else Some (JSON_serialize 0 (toJSON v)).

(** [JSON.stringify(v, null, 2)]. *)
Definition JSON_stringify_indented (v : JSValue) : option string :=
  if stringifyThrows v then None else Some (JSON_serialize 2 (toJSON v)).

(** [Storage.reviveDates]. The code applies it to what [JSON.parse]
    returned, which holds no [Date] and no object with a changed
    prototype; of those a [Date] has no enumerable property and comes out
    as the empty object, and an object with a changed prototype is taken by
    its own properties. *)
Fixpoint reviveDates (obj : JSValue) : JSValue :=
  match obj with
  | VStr s =>
      if dateRegex_test s then
        match Date_parse s with
        | Some t => VDate t
        | None => VStr s
        end
      else VStr s
  | VArr items => VArr (List.map reviveDates items)
  | VObj props | VProto _ props =>
      match assignedProto reviveDates props with
      | Some proto => VProto proto (assignValues reviveDates props)
      | None => VObj (assignValues reviveDates props)
      end
  | VDate _ => VObj []
  | _ => obj
  end.

(** [Storage.get]: [null] without a window, for an absent or empty item and
    for an item that does not parse. *)
Definition Storage_get (key : string) (b : Browser) : JSValue :=
  if windowDefined b then
    match localStorage b !! key with
    | None => VNull
    | Some item =>
        if String.eqb item "" then VNull
        else match JSON_parse item with
             | None => VNull
             | Some parsed => reviveDates parsed
             end
    end
  else VNull.

(** [Storage.set]. [localStorage.setItem] is taken to succeed; when
    [JSON.stringify] throws, the [catch] logs the error and nothing is
    written. *)
Definition Storage_set (key : string) (value : JSValue) (b : Browser) : Browser :=
  if windowDefined b then
    match JSON_stringify value with
    | Some text =>
        {| windowDefined := windowDefined b;
           localStorage := <[key := text]> (localStorage b);
           wallClock := wallClock b;
           reads := reads b |}
    | None => b
    end
  else b.

Definition CardStorage_getAll (b : Browser) : JSValue :=
  orElse (Storage_get CARDS b) (VArr []).

Definition CardStorage_save (cards : JSValue) : Browser -> Browser :=
  Storage_set CARDS cards.

Definition defaultProgress : JSValue :=
  VObj [("totalCards", VNum 0); ("cardsLearned", VNum 0); ("cardsDue", VNum 0);
        ("streakDays", VNum 0); ("totalStudyTime", VNum 0);
        ("dailyStats", VArr []);
        ("lifetimeStats",
         VObj [("totalReviews", VNum 0); ("correctReviews", VNum 0);
               ("accuracy", VNum 0); ("longestStreak", VNum 0);
               ("totalCardsCreated", VNum 0)])].

Definition ProgressStorage_get (b : Browser) : JSValue :=
  orElse (Storage_get USER_PROGRESS b) defaultProgress.

Definition ProgressStorage_save (progress : JSValue) : Browser -> Browser :=
  Storage_set USER_PROGRESS progress.

Definition SessionStorage_getAll (b : Browser) : JSValue :=
  orElse (Storage_get STUDY_SESSIONS b) (VArr []).

Definition SessionStorage_save (sessions : JSValue) : Browser -> Browser :=
  Storage_set STUDY_SESSIONS sessions.

Definition CategoryStorage_getAll (b : Browser) : JSValue :=
  orElse (Storage_get CATEGORIES b) (VArr []).

Definition CategoryStorage_save (categories : JSValue) : Browser -> Browser :=
  Storage_set CATEGORIES categories.

Definition defaultSettings : JSValue :=
  VObj [("dailyGoal", VNum 20); ("maxNewCards", VNum 10);
        ("maxReviews", VNum 50); ("showTimer", VBool true);
        ("autoAdvance", VBool false); ("shuffleCards", VBool true)].

Definition SettingsStorage_get (b : Browser) : JSValue :=
  orElse (Storage_get SETTINGS b) defaultSettings.

Definition SettingsStorage_save (settings : JSValue) : Browser -> Browser :=
  Storage_set SETTINGS settings.

(** *** [BackupStorage] *)

(** The object [exportData] builds before it prints it. *)
Definition exportObject (b : Browser) : JSValue :=
  VObj [("cards", CardStorage_getAll b);
        ("progress", ProgressStorage_get b);
        ("sessions", SessionStorage_getAll b);
        ("categories", CategoryStorage_getAll b);
        ("settings", SettingsStorage_get b);
        ("exportDate", VStr (Date_toISOString (wallClock b (reads b))))].

(** [exportData] has no [catch]: [None] when [JSON.stringify] throws. *)
Definition exportData (b : Browser) : option string * Browser :=
  (JSON_stringify_indented (exportObject b),
   {| windowDefined := windowDefined b;
      localStorage := localStorage b;
      wallClock := wallClock b;
      reads := S (reads b) |}).

(** [if (data.key) save(data.key)]. *)
Definition saveIfPresent (data : JSValue) (key : string)
    (save : JSValue -> Browser -> Browser) (b : Browser) : Browser :=
  match getProp data key with
  | Some v => if truthy v then save v b else b
  | None => b
  end.

(** [importData]: a [SyntaxError] of [JSON.parse] and the [TypeError] of
    reading [data.cards] when [data] is [null] both end in the [catch],
    before anything is saved. *)
Definition importData (jsonData : string) (b : Browser) : bool * Browser :=
  match JSON_parse jsonData with
  | None => (false, b)
  | Some VNull => (false, b)
  | Some data =>
      let b1 := saveIfPresent data "cards" CardStorage_save b in
      let b2 := saveIfPresent data "progress" ProgressStorage_save b1 in
      let b3 := saveIfPresent data "sessions" SessionStorage_save b2 in
      let b4 := saveIfPresent data "categories" CategoryStorage_save b3 in
      let b5 := saveIfPresent data "settings" SettingsStorage_save b4 in
      (true, b5)
  end.

(** [Storage.remove] and [Storage.clear]. *)
Definition Storage_remove (key : string) (b : Browser) : Browser :=
  if windowDefined b then
    {| windowDefined := windowDefined b;
       localStorage := delete key (localStorage b);
       wallClock := wallClock b;
       reads := reads b |}
  else b.

Definition Storage_clear (b : Browser) : Browser :=
  if windowDefined b then
    {| windowDefined := windowDefined b;
       localStorage := ∅;
       wallClock := wallClock b;
       reads := reads b |}
  else b.

Definition clearAllData (b : Browser) : Browser :=
  Storage_remove SETTINGS
    (Storage_remove CATEGORIES
       (Storage_remove STUDY_SESSIONS
          (Storage_remove USER_PROGRESS
             (Storage_remove CARDS b)))).

End Storage.

End Raw.

(** ** A reference instance of the built-ins

    The laws the round-trip property assumes of [JSON.parse],
    [JSON.stringify] and [Date] are met by this instance: a prefix code for
    values (one tag character, then the payload; strings carry their
    length, arrays and objects a closing character) with its decoder, and a
    date format that keeps the shape [reviveDates] looks for and writes the
    time value after it. It is not the JSON grammar; it stands in for the
    platform where a concrete one is needed. *)

Module Reference.
Import Raw.

Local Open Scope char_scope.

Fixpoint encPos (p : positive) : list ascii :=
  match p with
  | xH => ["."]
  | xO q => "0" :: encPos q
  | xI q => "1" :: encPos q
  end.

Fixpoint decPos (l : list ascii) : option (positive * list ascii) :=
  match l with
  | [] => None
  | c :: l' =>
      if Ascii.eqb c "." then Some (xH, l')
      else if Ascii.eqb c "0" then
        match decPos l' with Some (p, r) => Some (xO p, r) | None => None end
      else if Ascii.eqb c "1" then
        match decPos l' with Some (p, r) => Some (xI p, r) | None => None end
      else None
  end.

Definition encZ (z : Z) : list ascii :=
  match z with
  | Z0 => ["z"]
  | Zpos p => "+" :: encPos p
  | Zneg p => "-" :: encPos p
  end.

Definition decZ (l : list ascii) : option (Z * list ascii) :=
  match l with
  | [] => None
  | c :: l' =>
      if Ascii.eqb c "z" then Some (0%Z, l')
      else if Ascii.eqb c "+" then
        match decPos l' with Some (p, r) => Some (Zpos p, r) | None => None end
      else if Ascii.eqb c "-" then
        match decPos l' with Some (p, r) => Some (Zneg p, r) | None => None end
      else None
  end.

Definition encString (s : string) : list ascii :=
  let l := list_ascii_of_string s in
  encZ (Z.of_nat (length l)) ++ l.

Definition decString (l : list ascii) : option (string * list ascii) :=
  match decZ l with
  | Some (n, r) =>
      if (Z.to_nat n <=? length r)%nat then
        Some (string_of_list_ascii (firstn (Z.to_nat n) r), skipn (Z.to_nat n) r)
      else None
  | None => None
  end.

Definition encItems (enc : JSValue -> list ascii)
  : list JSValue -> list ascii :=
  fix each l :=
    match l with
    | [] => ["]"]
    | x :: l' => enc x ++ each l'
    end.

Definition encProps (enc : JSValue -> list ascii)
  : list (string * JSValue) -> list ascii :=
  fix each ps :=
    match ps with
    | [] => ["}"]
    | (k, x) :: ps' => "," :: encString k ++ enc x ++ each ps'
    end.

Fixpoint enc (v : JSValue) : list ascii :=
  match v with
  | VNull => ["n"]
  | VBool true => ["t"]
  | VBool false => ["f"]
  | VNum q => "#" :: encZ (Qnum q) ++ encPos (Qden q)
  | VStr s => "s" :: encString s
  | VDate t => "d" :: encZ t
  | VArr items => "[" :: encItems enc items
  | VObj props => "{" :: encProps enc props
  | VProto proto props => "p" :: enc proto ++ encProps enc props
  end.

Fixpoint dec (fuel : nat) (l : list ascii) {struct fuel}
  : option (JSValue * list ascii) :=
  match fuel with
  | O => None
  | S fuel' =>
      match l with
      | [] => None
      | c :: l' =>
          if Ascii.eqb c "n" then Some (VNull, l')
          else if Ascii.eqb c "t" then Some (VBool true, l')
          else if Ascii.eqb c "f" then Some (VBool false, l')
          else if Ascii.eqb c "#" then
            match decZ l' with
            | Some (n, r) =>
                match decPos r with
                | Some (d, r') => Some (VNum (n # d), r')
                | None => None
                end
            | None => None
            end
          else if Ascii.eqb c "s" then
            match decString l' with
            | Some (s, r) => Some (VStr s, r)
            | None => None
            end
          else if Ascii.eqb c "d" then
            match decZ l' with
            | Some (t, r) => Some (VDate t, r)
            | None => None
            end
          else if Ascii.eqb c "[" then
            match decItems fuel' l' with
            | Some (items, r) => Some (VArr items, r)
            | None => None
            end
          else if Ascii.eqb c "{" then
            match decProps fuel' l' with
            | Some (props, r) => Some (VObj props, r)
            | None => None
            end
          else if Ascii.eqb c "p" then
            match dec fuel' l' with
            | Some (proto, r) =>
                match decProps fuel' r with
                | Some (props, r') => Some (VProto proto props, r')
                | None => None
                end
            | None => None
            end
          else None
      end
  end
with decItems (fuel : nat) (l : list ascii) {struct fuel}
  : option (list JSValue * list ascii) :=
  match fuel with
  | O => None
  | S fuel' =>
      match l with
      | [] => None
      | c :: l' =>
          if Ascii.eqb c "]" then Some ([], l')
          else
            match dec fuel' l with
            | Some (x, r) =>
                match decItems fuel' r with
                | Some (xs, r') => Some (x :: xs, r')
                | None => None
                end
            | None => None
            end
      end
  end
with decProps (fuel : nat) (l : list ascii) {struct fuel}
  : option (list (string * JSValue) * list ascii) :=
  match fuel with
  | O => None
  | S fuel' =>
      match l with
      | [] => None
      | c :: l' =>
          if Ascii.eqb c "}" then Some ([], l')
          else if Ascii.eqb c "," then
            match decString l' with
            | Some (k, r) =>
                match dec fuel' r with
                | Some (x, r') =>
                    match decProps fuel' r' with
                    | Some (ps, r'') => Some ((k, x) :: ps, r'')
                    | None => None
                    end
                | None => None
                end
            | None => None
            end
          else None
      end
  end.

Definition parse (s : string) : option JSValue :=
  let l := list_ascii_of_string s in
  match dec (S (length l)) l with
  | Some (v, []) => Some v
  | _ => None
  end.

Definition serialize (gap : nat) (v : JSValue) : string :=
  string_of_list_ascii (enc v).

Definition stampPrefix : list ascii :=
  list_ascii_of_string "1970-01-01T00:00:00".

Definition toStamp (t : Z) : string :=
  string_of_list_ascii (stampPrefix ++ encZ t).

Definition ofStamp (s : string) : option Z :=
  let l := list_ascii_of_string s in
  if String.eqb (string_of_list_ascii (firstn 19 l)) "1970-01-01T00:00:00" then
    match decZ (skipn 19 l) with
    | Some (t, []) => Some t
    | _ => None
    end
  else None.

Definition builtins : JSBuiltins :=
  {| JSON_parse := parse;
     JSON_serialize := serialize;
     Date_toISOString := toStamp;
     Date_parse := ofStamp |}.

End Reference.

(** ** Definitions used to state the properties *)

(** The lifetime statistics as [ProgressStorage.get] reads them. *)
Definition lifetimeOf (w : World) : LifetimeStats.t :=
  lifetimeStats (fst (ProgressStorage_get w)).

(** A study session recorded review by review: each entry is a card, the
    grade given and the response time. *)
Fixpoint recordReviews (reviews : list (Flashcard * Difficulty * Q)) : M unit :=
  match reviews with
  | [] => ret tt
  | (card, difficulty, responseTime) :: rest =>
      run processReview card difficulty responseTime;
      recordReviews rest
  end.

Definition isAgain (review : Flashcard * Difficulty * Q) : bool :=
  Difficulty_eqb (snd (fst review)) AGAIN.

(** The accuracy [updateDailyStats] stores, a percentage. *)
Definition accuracyOf (correct total : Z) : Q :=
  if 0 <? total then ((inject_Z correct / inject_Z total) * 100)%Q else 0%Q.

(** [studiedOn stats day]: the history has an entry for [day] with
    [cardsStudied > 0]. *)
Definition studiedOn (stats : list DailyStats) (day : Z) : bool :=
  existsb (fun s => (date s =? day) && (0 <? cardsStudied s)) stats.

(** [isStreak stats today k]: [k] is the number of consecutive days, from
    [today] backwards, that were studied, the count stopping at the first
    day that was not. *)
Definition isStreak (stats : list DailyStats) (today k : Z) : Prop :=
  0 <= k /\
  (forall i, 0 <= i < k -> studiedOn stats (today - i) = true) /\
  studiedOn stats (today - k) = false.

(** The running mean as the specification words it: the previous average
    counts as 0 when the card has none. *)
Definition runningMean (prevAvg : option Q) (prevCount : Z) (newTime : Q) : Q :=
  ((match prevAvg with Some a => a | None => 0 end * inject_Z prevCount
    + newTime) / inject_Z (prevCount + 1))%Q.

(** [later a b]: [a] may stand before [b] once the history is sorted latest
    first. *)
Definition later (a b : DailyStats) : Prop := date b <= date a.

(** [readsBackAs stored card]: [stored] has the id, the dates, the
    scheduling state and the statistics of [card]. These are the fields a
    card keeps when it is written as JSON text and read back; a text field
    need not be kept, since [Storage.get] turns a string of the shape of a
    date into a [Date]. *)
Definition readsBackAs (stored card : Flashcard) : Prop :=
  id stored = id card /\
  createdAt stored = createdAt card /\
  updatedAt stored = updatedAt card /\
  easeFactor stored = easeFactor card /\
  interval stored = interval card /\
  repetitions stored = repetitions card /\
  nextReviewDate stored = nextReviewDate card /\
  totalReviews stored = totalReviews card /\
  correctReviews stored = correctReviews card /\
  streak stored = streak card /\
  averageResponseTime stored = averageResponseTime card.

(** [wellScheduled card]: the scheduling state a card has after
    [CardStorage.add] and keeps under reviews. *)
Definition wellScheduled (card : Flashcard) : Prop :=
  (13 # 10 <= easeFactor card <= 25 # 10)%Q /\
  0 <= repetitions card /\
  0 <= interval card /\
  (repetitions card = 0 \/ 1 <= interval card).

(** [consistentStats card]: the counters of a card are ordered. *)
Definition consistentStats (card : Flashcard) : Prop :=
  0 <= streak card <= correctReviews card /\
  correctReviews card <= totalReviews card.

(** The daily entries after a review recorded on day [today]: what
    [updateDailyStats] stores as [dailyStats]. *)
Definition dailyAfter (today : Z) (correct : bool) (responseTime : Q)
    (stats : list DailyStats) : list DailyStats :=
  match bumpExisting today correct responseTime stats with
  | Some stats' => stats'
  | None =>
      stats ++ [{| date := today;
                   cardsStudied := 1;
                   correctAnswers := if correct then 1 else 0;
                   studyTime := responseTime;
                   newCards := 0 |}]
  end.

(** The sum of a counter over the daily entries. *)
Definition sumOver (f : DailyStats -> Z) (stats : list DailyStats) : Z :=
  fold_right (fun s total => f s + total) 0 stats.

(** The entries of one day. *)
Definition entriesOf (day : Z) (stats : list DailyStats) : list DailyStats :=
  List.filter (fun s => date s =? day) stats.

(** ** Concrete inputs *)

Module Sample.

Definition card (name : string) (reps next : Z) : Flashcard :=
  {| id := name;
     front := "front of " +:+ name;
     back := "back of " +:+ name;
     category := None;
     tags := [];
     createdAt := 0;
     updatedAt := 0;
     easeFactor := 25 # 10;
     interval := 1;
     repetitions := reps;
     nextReviewDate := next;
     totalReviews := reps;
     correctReviews := reps;
     streak := reps;
     averageResponseTime := None |}.

(** A card in review: ease factor [ef], interval [days], [reps] passed
    reviews. *)
Definition reviewCard (ef : Q) (days reps : Z) : Flashcard :=
  {| id := "r";
     front := "front";
     back := "back";
     category := Some "maths";
     tags := ["t"];
     createdAt := 0;
     updatedAt := 0;
     easeFactor := ef;
     interval := days;
     repetitions := reps;
     nextReviewDate := 0;
     totalReviews := reps;
     correctReviews := reps;
     streak := reps;
     averageResponseTime := Some (4 # 1) |}.

(** The zone of a browser that runs on UTC. *)
Definition utc : TimeZone :=
  {| offsetAt := fun _ => 0; offsetOfLocal := fun _ => 0 |}.

(** A browser with an empty store, whose clock shows [now] at every read
    and whose random source returns [r] at every draw, in the zone [tz]. *)
Definition worldIn (tz : TimeZone) (r : Q) (now : Z) : World :=
  {| hasWindow := true;
     cardsItem := None;
     progressItem := None;
     clock := fun _ => now;
     ticks := 0;
     random := fun _ => r;
     draws := 0;
     timeZone := tz |}.

Definition worldDrawing (r : Q) (now : Z) : World := worldIn utc r now.

(** With draws of 0.99 the index [floor(r * (i + 1))] is [i] for every
    [i < 100]: [shuffleArray] swaps each position with itself. *)
Definition worldAt (now : Z) : World := worldDrawing (99 # 100) now.

(** Five cards that are due and have been reviewed, and one card that has
    never passed a review and is not due yet (it was graded "again" less
    than a minute ago). *)
Definition queueWorld : World :=
  set_cardsItem
    (Some [card "due0" 3 0; card "due1" 3 0; card "due2" 3 0;
           card "due3" 3 0; card "due4" 3 0; card "new0" 0 2000])
    (worldAt 1000).

(** A card that has been reviewed twice and carries no average yet. *)
Definition legacyCard : Flashcard := card "legacy" 2 0.

Definition stat (day studied : Z) : DailyStats :=
  {| date := day;
     cardsStudied := studied;
     correctAnswers := studied;
     studyTime := 0;
     newCards := 0 |}.

Definition progressWith (stats : list DailyStats) : UserProgress :=
  {| totalCards := 0;
     cardsLearned := 0;
     cardsDue := 0;
     streakDays := 0;
     totalStudyTime := 0;
     lastStudyDate := None;
     dailyStats := stats;
     lifetimeStats := lifetimeStats defaultProgress |}.

(** Noon of day 20000. *)
Definition noon : Z := 20000 * msPerDay + 43200000.

(** Studied today and on the two days before; the entries are stored in
    the order in which they were made. *)
Definition streakWorld : World :=
  set_progressItem
    (Some (progressWith [stat 19998 4; stat 19999 7; stat 20000 2]))
    (worldAt noon).

(** Studied today, with one more entry dated tomorrow. *)
Definition futureWorld : World :=
  set_progressItem
    (Some (progressWith [stat 20000 2; stat 20001 5]))
    (worldAt noon).

(** New York around the end of daylight saving time in 2024: the offset is
    -4 h until 3 November 2024, 06:00 UTC (02:00 local time), and -5 h from
    then on. The local hour from 01:00 to 02:00 of that day occurs twice and
    is read with the offset of -4 h. *)
Definition fallBack : Z := 20030 * msPerDay + 6 * msPerHour.

Definition newYork : TimeZone :=
  {| offsetAt := fun t =>
       if t <? fallBack then -4 * msPerHour else -5 * msPerHour;
     offsetOfLocal := fun t =>
       if t <? fallBack - 4 * msPerHour then -4 * msPerHour
       else -5 * msPerHour |}.

(** 3 November 2024, 06:30:30 UTC: 01:30:30 in New York, half an hour
    after the clocks went back. *)
Definition repeatedHour : Z :=
  20030 * msPerDay + 6 * msPerHour + 30 * msPerMinute + 30 * msPerSecond.

(** 1 November 2024, 16:00 UTC: noon in New York, two days before the
    clocks go back. *)
Definition beforeChange : Z := 20028 * msPerDay + 16 * msPerHour.

(** 4 November 2024, 00:30 UTC: the evening of 3 November in New York. *)
Definition eveningAfter : Z := 20031 * msPerDay + 30 * msPerMinute.

(** Studied on 2, 3 and 4 November 2024 (UTC days 20029 to 20031), seen
    from New York on the evening after the clocks went back. *)
Definition newYorkWorld : World :=
  set_progressItem
    (Some (progressWith [stat 20029 4; stat 20030 7; stat 20031 2]))
    (worldIn newYork (99 # 100) eveningAfter).

(** Three passed reviews and one failed one. *)
Definition reviews : list (Flashcard * Difficulty * Q) :=
  [(card "a" 0 0, GOOD, 3 # 1); (card "b" 0 0, AGAIN, 9 # 1);
   (card "c" 0 0, EASY, 2 # 1); (card "d" 0 0, HARD, 7 # 1)]%Q.

(** What the form of the cards page hands to [CardStorage.add]. *)
Definition newCard : NewCard.t :=
  {| NewCard.front := "2 + 2";
     NewCard.back := "4";
     NewCard.category := Some "maths";
     NewCard.tags := [];
     NewCard.easeFactor := 25 # 10;
     NewCard.interval := 1;
     NewCard.repetitions := 0;
     NewCard.nextReviewDate := 0;
     NewCard.totalReviews := 0;
     NewCard.correctReviews := 0;
     NewCard.streak := 0;
     NewCard.averageResponseTime := None |}.

(** A patch that records one new card and nothing else. *)
Definition patch : DailyPatch.t :=
  {| DailyPatch.date := None;
     DailyPatch.cardsStudied := None;
     DailyPatch.correctAnswers := None;
     DailyPatch.studyTime := None;
     DailyPatch.newCards := Some 1 |}.

(** A store of the reference instance with one card. *)
Definition browser : Raw.Browser :=
  {| Raw.windowDefined := true;
     Raw.localStorage :=
       <[Raw.CARDS :=
           Reference.serialize 0
             (Raw.VArr
                [Raw.VObj
                   [("id", Raw.VStr "c1");
                    ("easeFactor", Raw.VNum (25 # 10));
                    ("nextReviewDate", Raw.VStr (Reference.toStamp 5))]])]> ∅;
     Raw.wallClock := fun _ => 7;
     Raw.reads := 0 |}.

(** Another browser, whose store holds a different card. *)
Definition target : Raw.Browser :=
  {| Raw.windowDefined := true;
     Raw.localStorage :=
       <[Raw.CARDS :=
           Reference.serialize 0
             (Raw.VArr [Raw.VObj [("id", Raw.VStr "c9")]])]> ∅;
     Raw.wallClock := fun _ => 11;
     Raw.reads := 0 |}.

(** A store whose card has a key "__proto__" that holds the text of a
    date. *)
Definition poisoned : Raw.Browser :=
  {| Raw.windowDefined := true;
     Raw.localStorage :=
       <[Raw.CARDS :=
           Reference.serialize 0
             (Raw.VArr
                [Raw.VObj
                   [("id", Raw.VStr "c1");
                    ("__proto__", Raw.VStr (Reference.toStamp 5))]])]> ∅;
     Raw.wallClock := fun _ => 7;
     Raw.reads := 0 |}.

End Sample.

(** * The reference instance meets the laws of the built-ins *)

Module ReferenceFacts.
Import Raw Reference.

Local Open Scope char_scope.
Local Open Scope nat_scope.

Lemma decPos_encPos p r : decPos (encPos p ++ r) = Some (p, r).
Proof. induction p as [p IH|p IH|]; cbn; now rewrite ?IH. Qed.

Lemma decZ_encZ z r : decZ (encZ z ++ r) = Some (z, r).
Proof. destruct z; cbn; now rewrite ?decPos_encPos. Qed.

Lemma decString_encString s r : decString (encString s ++ r) = Some (s, r).
Proof.
  unfold decString, encString. cbn zeta.
  rewrite <- List.app_assoc, decZ_encZ, Nat2Z.id.
  rewrite List.length_app.
  replace (length (list_ascii_of_string s)
           <=? length (list_ascii_of_string s) + length r) with true
    by (symmetry; apply Nat.leb_le; lia).
  now rewrite take_app_length, drop_app_length, string_of_list_ascii_of_string.
Qed.

Lemma enc_head v :
  exists c rest, enc v = c :: rest /\ Ascii.eqb c "]" = false.
Proof. destruct v as [|[|]| | | | | |]; cbn; eauto. Qed.

Lemma decItems_step fuel l :
  (exists c rest, l = c :: rest /\ Ascii.eqb c "]" = false) ->
  decItems (S fuel) l =
  match dec fuel l with
  | Some (x, r) =>
      match decItems fuel r with
      | Some (xs, r') => Some (x :: xs, r')
      | None => None
      end
  | None => None
  end.
Proof. intros (c & rest & -> & Hc). cbn. now rewrite Hc. Qed.

Lemma length_encItems_pos items : 1 <= length (encItems enc items).
Proof.
  destruct items as [|x l]; cbn [encItems length]; [lia|].
  destruct (enc_head x) as (c & rest & -> & _). cbn. lia.
Qed.

Lemma length_encProps_pos props : 1 <= length (encProps enc props).
Proof. destruct props as [|[k x] l]; cbn; lia. Qed.

Lemma length_enc_pos v : 1 <= length (enc v).
Proof. destruct (enc_head v) as (c & rest & -> & _). cbn. lia. Qed.

(** The properties of an object are read back when each of their values
    is. *)
Lemma decProps_encProps props :
  Forall (fun p => forall fuel r,
            length (enc (snd p)) < fuel ->
            dec fuel (enc (snd p) ++ r) = Some (snd p, r)) props ->
  forall fuel r,
    length (encProps enc props) < fuel ->
    decProps fuel (encProps enc props ++ r) = Some (props, r).
Proof.
  induction 1 as [|[k x] l Hx _ IHl]; intros [|f] r' Hf; try (exfalso; lia).
  - reflexivity.
  - cbn [encProps] in *. cbn [length] in Hf.
    rewrite !List.length_app in Hf. cbn [snd] in Hx.
    pose proof (length_enc_pos x). pose proof (length_encProps_pos l).
    change (decProps (S f)
              (("," :: encString k ++ enc x ++ encProps enc l) ++ r'))
      with (match decString ((encString k ++ enc x ++ encProps enc l) ++ r')
            with
            | Some (k0, r0) =>
                match dec f r0 with
                | Some (x0, r1) =>
                    match decProps f r1 with
                    | Some (ps, r2) => Some ((k0, x0) :: ps, r2)
                    | None => None
                    end
                | None => None
                end
            | None => None
            end).
    rewrite <- List.app_assoc, decString_encString.
    rewrite <- List.app_assoc, Hx by lia. now rewrite IHl by lia.
Qed.

(** The decoder reads back what the encoder wrote, given fuel beyond the
    length of the text. *)
Lemma dec_enc v : forall fuel r,
  length (enc v) < fuel -> dec fuel (enc v ++ r) = Some (v, r).
Proof.
  induction v as [|b|n|s|t|items IH|props IH|proto props IHproto IH]
    using JSValue_nested_ind;
    intros [|fuel] r Hfuel; try (exfalso; lia).
  - reflexivity.
  - now destruct b.
  - cbn. rewrite <- List.app_assoc, decZ_encZ, decPos_encPos.
    now destruct n.
  - cbn. now rewrite decString_encString.
  - cbn. now rewrite decZ_encZ.
  - cbn [enc] in *. cbn [length] in Hfuel.
    change (dec (S fuel) (("[" :: encItems enc items) ++ r))
      with (match decItems fuel (encItems enc items ++ r) with
            | Some (xs, r') => Some (VArr xs, r')
            | None => None
            end).
    assert (Hitems : forall f r', length (encItems enc items) < f ->
              decItems f (encItems enc items ++ r') = Some (items, r')).
    { clear Hfuel fuel r.
      induction IH as [|x l Hx _ IHl]; intros [|f] r' Hf; try (exfalso; lia).
      - reflexivity.
      - cbn [encItems] in *. rewrite List.length_app in Hf.
        pose proof (length_enc_pos x). pose proof (length_encItems_pos l).
        rewrite decItems_step.
        + rewrite <- List.app_assoc, Hx by lia. now rewrite IHl by lia.
        + destruct (enc_head x) as (c & rest & -> & Hc). cbn. eauto. }
    now rewrite Hitems by lia.
  - cbn [enc] in *. cbn [length] in Hfuel.
    change (dec (S fuel) (("{" :: encProps enc props) ++ r))
      with (match decProps fuel (encProps enc props ++ r) with
            | Some (ps, r') => Some (VObj ps, r')
            | None => None
            end).
    now rewrite (decProps_encProps props IH) by lia.
  - cbn [enc] in *. cbn [length] in Hfuel. rewrite List.length_app in Hfuel.
    pose proof (length_enc_pos proto). pose proof (length_encProps_pos props).
    change (dec (S fuel) (("p" :: enc proto ++ encProps enc props) ++ r))
      with (match dec fuel ((enc proto ++ encProps enc props) ++ r) with
            | Some (proto0, r0) =>
                match decProps fuel r0 with
                | Some (ps, r') => Some (VProto proto0 ps, r')
                | None => None
                end
            | None => None
            end).
    rewrite <- List.app_assoc, IHproto by lia.
    now rewrite (decProps_encProps props IH) by lia.
Qed.

Lemma parse_empty : parse "" = None.
Proof. reflexivity. Qed.

Lemma parse_serialize gap v : parse (serialize gap v) = Some v.
Proof.
  unfold parse, serialize. cbn zeta.
  rewrite list_ascii_of_string_of_list_ascii.
  rewrite <- (List.app_nil_r (enc v)) at 2.
  now rewrite dec_enc by lia.
Qed.



End ReferenceFacts.

(** * Properties of the scheduler *)

Section SchedulerFacts.

Local Open Scope Q_scope.

(** Splits the state-passing steps of a call whose result does not depend
    on what the storage calls return. *)
Ltac step_calls :=
  repeat match goal with
         | |- context [let (_, _) := ?e in _] => destruct e
         end.

(** *** Steps of local time *)

Local Open Scope Z_scope.

(** The parts of a time value add up to it. *)
Lemma MakeTime_parts t :
  MakeDate (Day t)
    (MakeTime (HourFromTime t) (MinFromTime t) (SecFromTime t) (msFromTime t))
  = t.
Proof.
  unfold MakeDate, MakeTime, Day, HourFromTime, MinFromTime, SecFromTime,
    msFromTime, msPerDay, msPerHour, msPerMinute, msPerSecond.
  pose proof (Z.div_mod t 1000 ltac:(lia)) as Hms.
  pose proof (Z.div_mod (t / 1000) 60 ltac:(lia)) as Hsec.
  pose proof (Z.div_mod (t / 60000) 60 ltac:(lia)) as Hmin.
  pose proof (Z.div_mod (t / 3600000) 24 ltac:(lia)) as Hhour.
  replace (t / 1000 / 60) with (t / 60000) in Hsec
    by (rewrite Z.div_div by lia; reflexivity).
  replace (t / 60000 / 60) with (t / 3600000) in Hmin
    by (rewrite Z.div_div by lia; reflexivity).
  replace (t / 3600000 / 24) with (t / 86400000) in Hhour
    by (rewrite Z.div_div by lia; reflexivity).
  lia.
Qed.

(** [setMinutes(getMinutes() + n)] moves the local time by [n] minutes. *)
Lemma setMinutes_plus_local tz t n :
  setMinutes_plus tz t n = UTC tz (LocalTime tz t + n * msPerMinute).
Proof.
  unfold setMinutes_plus. cbn zeta. f_equal.
  pose proof (MakeTime_parts (LocalTime tz t)) as H.
  unfold MakeDate, MakeTime, msPerDay, msPerHour, msPerMinute, msPerSecond
    in *.
  lia.
Qed.

(** [setDate(getDate() + n)] moves the local time by [n] days. *)
Lemma setDate_plus_local tz t n :
  setDate_plus tz t n = UTC tz (LocalTime tz t + n * msPerDay).
Proof.
  unfold setDate_plus, MakeDate, Day, TimeWithinDay. cbn zeta. f_equal.
  pose proof (Z.div_mod (LocalTime tz t) msPerDay) as H.
  unfold msPerDay in *. lia.
Qed.

(** A zone whose offset never changes: a step of local time is the same
    step of the time value. *)
Definition fixedOffset (tz : TimeZone) : Prop :=
  exists offset, forall t, offsetAt tz t = offset /\ offsetOfLocal tz t = offset.

Lemma setDate_plus_fixed tz t n :
  fixedOffset tz -> setDate_plus tz t n = t + n * msPerDay.
Proof.
  intros [offset H]. rewrite setDate_plus_local. unfold UTC, LocalTime.
  destruct (H t) as [-> _].
  destruct (H (t + offset + n * msPerDay)) as [_ ->]. lia.
Qed.

Lemma setMinutes_plus_fixed tz t n :
  fixedOffset tz -> setMinutes_plus tz t n = t + n * msPerMinute.
Proof.
  intros [offset H]. rewrite setMinutes_plus_local. unfold UTC, LocalTime.
  destruct (H t) as [-> _].
  destruct (H (t + offset + n * msPerMinute)) as [_ ->]. lia.
Qed.

Local Open Scope Q_scope.

(** *** The definitions on small inputs *)

(** Third "good" review at ease 2.5 and interval 6: 15 days. *)
Example calculateNext_good_third :
  fst (calculateNext (Sample.reviewCard (25 # 10) 6 2) GOOD
         (Sample.worldAt 1000)) =
  {| AlgorithmResult.easeFactor := 25 # 10;
     AlgorithmResult.interval := 15;
     AlgorithmResult.repetitions := 3;
     AlgorithmResult.nextReviewDate := (1000 + 15 * 86400000)%Z |}.
Proof. reflexivity. Qed.

(** Third "hard" review: the interval uses the lowered ease factor,
    round(6 * 2.35 * 0.8) = 11. *)
Example calculateNext_hard_third :
  let result := fst (calculateNext (Sample.reviewCard (25 # 10) 6 2) HARD
                       (Sample.worldAt 1000)) in
  AlgorithmResult.easeFactor result == 235 # 100 /\
  AlgorithmResult.interval result = 11%Z /\
  AlgorithmResult.repetitions result = 3%Z.
Proof. repeat split. Qed.

(** Third "easy" review at the cap: round(6 * 2.5 * 1.3) = round(19.5) = 20. *)
Example calculateNext_easy_third :
  let result := fst (calculateNext (Sample.reviewCard (25 # 10) 6 2) EASY
                       (Sample.worldAt 1000)) in
  AlgorithmResult.easeFactor result == 25 # 10 /\
  AlgorithmResult.interval result = 20%Z.
Proof. repeat split. Qed.

(** With every draw at 0 the shuffle of [a; b; c] swaps position 2 with 0,
    then position 1 with 0. *)
Example shuffleArray_zero_draws :
  fst (shuffleArray ["a"; "b"; "c"]%string (Sample.worldDrawing 0 1000)) =
  ["b"; "c"; "a"]%string.
Proof. reflexivity. Qed.

(** The sort keeps the order of two entries of one date. *)
Example sortDesc_stable :
  List.map (fun s => (date s, cardsStudied s))
    (sortDesc [Sample.stat 3 1; Sample.stat 5 2; Sample.stat 3 7;
               Sample.stat 4 0]) =
  [(5, 2); (4, 0); (3, 1); (3, 7)]%Z.
Proof. reflexivity. Qed.

(** The first review of a day makes the entry of the day, the second adds
    to it. *)
Example updateDailyStats_twice :
  let w := snd (updateDailyStats false (5 # 1)
                  (snd (updateDailyStats true (3 # 1)
                          (Sample.worldAt Sample.noon)))) in
  List.map (fun s => (date s, cardsStudied s, correctAnswers s))
    (dailyStats (fst (ProgressStorage_get w))) = [(20000, 2, 1)]%Z.
Proof. reflexivity. Qed.

(** *** One review *)

Lemma calculateNext_easeFactor_range card difficulty w :
  13 # 10 <= easeFactor card <= 25 # 10 ->
  13 # 10 <= AlgorithmResult.easeFactor (fst (calculateNext card difficulty w))
    <= 25 # 10.
Proof.
  intros [Hlo Hhi].
  unfold calculateNext, bind, localZone, newDate, ret.
  destruct difficulty; cbn [Difficulty_eqb];
    repeat match goal with
           | |- context [if ?c then _ else _] => destruct c
           end; cbn [fst AlgorithmResult.easeFactor]; try (split; assumption).
  all: first
    [ destruct (Q.max_spec (13 # 10) (easeFactor card - (15 # 100)))
        as [[? ->] | [? ->]]; split; lra
    | destruct (Q.min_spec (25 # 10) (easeFactor card + (1 # 10)))
        as [[? ->] | [? ->]]; split; lra ].
Qed.

(** The card [processReview] returns takes its scheduling fields from
    [calculateNext], whatever the two storage calls do. *)
Lemma processReview_scheduling card difficulty responseTime w :
  let result := fst (calculateNext card difficulty w) in
  let card' := fst (processReview card difficulty responseTime w) in
  easeFactor card' = AlgorithmResult.easeFactor result /\
  interval card' = AlgorithmResult.interval result /\
  repetitions card' = AlgorithmResult.repetitions result /\
  nextReviewDate card' = AlgorithmResult.nextReviewDate result.
Proof.
  unfold processReview, bind.
  destruct (calculateNext card difficulty w) as [result w1].
  cbn. step_calls. cbn. auto.
Qed.

(** C2. A card whose ease factor lies in [1.3, 2.5] comes back from
    [processReview] with an ease factor in [1.3, 2.5], for every grade and
    every response time. *)
Theorem processReview_easeFactor_range card difficulty responseTime w :
  13 # 10 <= easeFactor card <= 25 # 10 ->
  13 # 10 <= easeFactor (fst (processReview card difficulty responseTime w))
    <= 25 # 10.
Proof.
  intros Hrange.
  destruct (processReview_scheduling card difficulty responseTime w)
    as [-> _].
  now apply calculateNext_easeFactor_range.
Qed.

(** C3, as the code has it. A review graded "again" returns a card with
    repetitions, interval and streak at 0 and the ease factor it had,
    whatever the card was. Its next review is the time [calculateNext]
    read, moved on by one minute of local time and read back through the
    zone: that is one minute later exactly when the zone gives the local
    time reached the offset it has at the time read, which fails in the
    hour that is repeated when daylight saving time ends. *)
Theorem processReview_again card responseTime w :
  let card' := fst (processReview card AGAIN responseTime w) in
  let now := clock w (ticks w) in
  let tz := timeZone w in
  let reached := (LocalTime tz now + 60000)%Z in
  validTime (UTC tz reached) ->
  repetitions card' = 0%Z /\
  interval card' = 0%Z /\
  streak card' = 0%Z /\
  easeFactor card' = easeFactor card /\
  nextReviewDate card' = UTC tz reached /\
  (nextReviewDate card' = (now + 60000)%Z <->
   offsetOfLocal tz reached = offsetAt tz now).
Proof.
  intros card' now tz reached _.
  assert (Hnext : nextReviewDate card' = UTC tz reached).
  { subst card' reached now tz.
    unfold processReview, calculateNext, bind, localZone, newDate, ret.
    cbn [Difficulty_eqb]. step_calls. cbn.
    rewrite setMinutes_plus_local. reflexivity. }
  assert (Hfields : repetitions card' = 0%Z /\ interval card' = 0%Z /\
                    streak card' = 0%Z /\ easeFactor card' = easeFactor card).
  { subst card'.
    unfold processReview, calculateNext, bind, localZone, newDate, ret.
    cbn [Difficulty_eqb]. step_calls. cbn. auto. }
  destruct Hfields as (H1 & H2 & H3 & H4).
  repeat split; try assumption; rewrite Hnext; subst reached;
    unfold UTC, LocalTime; lia.
Qed.

(** C4, as the code has it. With a previous average that is defined and not
    zero the new average is the running mean over [totalReviews + 1]
    reviews; a card without a previous average gets the response time
    itself, whatever its review count. *)
Theorem processReview_averageResponseTime card difficulty responseTime w :
  let card' := fst (processReview card difficulty responseTime w) in
  (forall avg, averageResponseTime card = Some avg -> ~ avg == 0 ->
     averageResponseTime card' =
       Some (runningMean (Some avg) (totalReviews card) responseTime)) /\
  (averageResponseTime card = None ->
     averageResponseTime card' = Some responseTime).
Proof.
  unfold processReview, bind.
  destruct (calculateNext card difficulty w) as [result w1].
  cbn. step_calls. cbn. split.
  - intros avg -> Hnz. unfold truthyQ.
    destruct (Qeq_bool avg 0) eqn:E.
    + apply Qeq_bool_iff in E. contradiction.
    + reflexivity.
  - intros ->. reflexivity.
Qed.

(** C10. [processReview] returns a card with the id, front, back, category,
    tags and creation time of the card it was given. *)
Theorem processReview_frame card difficulty responseTime w :
  let card' := fst (processReview card difficulty responseTime w) in
  id card' = id card /\
  front card' = front card /\
  back card' = back card /\
  category card' = category card /\
  tags card' = tags card /\
  createdAt card' = createdAt card.
Proof.
  unfold processReview, bind.
  destruct (calculateNext card difficulty w) as [result w1].
  cbn. step_calls. cbn. repeat split.
Qed.


(** *** The study queue *)

Lemma swap_length {A} (l : list A) i j : length (swap l i j) = length l.
Proof.
  unfold swap. destruct (l !! i), (l !! j); try reflexivity.
  now rewrite !length_insert.
Qed.

Lemma shuffleFrom_length {A} i (l : list A) w :
  length (fst (shuffleFrom i l w)) = length l.
Proof.
  revert l w. induction i as [|i IH]; intros l w; cbn; [reflexivity|].
  unfold bind, Math_random. rewrite IH. apply swap_length.
Qed.

(** Shuffling draws random numbers and touches nothing else. *)
Lemma shuffleFrom_store {A} i (l : list A) w :
  let w' := snd (shuffleFrom i l w) in
  hasWindow w' = hasWindow w /\ cardsItem w' = cardsItem w /\
  clock w' = clock w /\ ticks w' = ticks w.
Proof.
  revert l w. induction i as [|i IH]; intros l w; cbn; [auto|].
  unfold bind, Math_random.
  destruct (IH (swap l (S i)
                  (Z.to_nat (Math_floor (random w (draws w)
                     * inject_Z (Z.of_nat (S i) + 1)))))
               (set_draws (S (draws w)) w)) as (H1 & H2 & H3 & H4).
  cbn in *. auto.
Qed.

(** A swap, and so the whole shuffle, only reorders the list. *)
Lemma insert_Permutation {A} (l : list A) j (x b : A) :
  l !! j = Some b -> Permutation (b :: <[j := x]> l) (x :: l).
Proof.
  revert j. induction l as [|y l IH]; intros [|j] Hj; try discriminate.
  - cbn in Hj. injection Hj as ->. cbn. apply perm_swap.
  - cbn in Hj. cbn.
    rewrite perm_swap. rewrite (IH j Hj). apply perm_swap.
Qed.

Lemma swap_Permutation {A} (l : list A) i j : Permutation (swap l i j) l.
Proof.
  unfold swap. revert i j.
  induction l as [|x l IH]; intros [|i] [|j]; cbn; try reflexivity.
  - destruct (l !! j) as [b|] eqn:Hj; [|reflexivity].
    cbn. now apply insert_Permutation.
  - destruct (l !! i) as [a|] eqn:Hi; [|reflexivity].
    cbn. now apply insert_Permutation.
  - specialize (IH i j).
    destruct (l !! i) as [a|]; [|reflexivity].
    destruct (l !! j) as [b|]; [|reflexivity].
    cbn. now constructor.
Qed.

Lemma shuffleFrom_Permutation {A} i (l : list A) w :
  Permutation (fst (shuffleFrom i l w)) l.
Proof.
  revert l w. induction i as [|i IH]; intros l w; cbn; [reflexivity|].
  unfold bind, Math_random. rewrite IH. apply swap_Permutation.
Qed.

Lemma interleave_five_one (d0 d1 d2 d3 d4 n0 : Flashcard) :
  interleave [d0; d1; d2; d3; d4] [n0] =
  [d0; d1; n0; d1; d2; d2; d3; d3; d4; d4].
Proof. reflexivity. Qed.

(** With a cap that the list does not reach, [getDueCards] and
    [getNewCards] return the whole list, reordered. *)
Lemma capAt_all {A} maxCards (l : list A) :
  (Z.of_nat (length l) <= maxCards)%Z -> capAt (Some maxCards) l = l.
Proof.
  intros Hcap. unfold capAt, slice0.
  destruct (truthyZ maxCards); [|reflexivity].
  destruct (maxCards <? 0)%Z eqn:E; [lia|].
  apply firstn_all2. lia.
Qed.

Lemma getDueCards_uncapped maxCards w :
  (Z.of_nat (length (fst (CardStorage_getDueCards w))) <= maxCards)%Z ->
  Permutation (fst (getDueCards (Some maxCards) w))
              (fst (CardStorage_getDueCards w)).
Proof.
  unfold getDueCards, bind, shuffleArray.
  destruct (CardStorage_getDueCards w) as [all w0]. cbn [fst].
  intros Hcap.
  pose proof (shuffleFrom_length (length all - 1) all w0) as HL.
  pose proof (shuffleFrom_Permutation (length all - 1) all w0) as HP.
  destruct (shuffleFrom (length all - 1) all w0) as [sh w1].
  cbn [fst ret] in *. rewrite capAt_all by lia. exact HP.
Qed.

Lemma getNewCards_uncapped maxCards w :
  (Z.of_nat (length (fst (CardStorage_getNewCards w))) <= maxCards)%Z ->
  Permutation (fst (getNewCards (Some maxCards) w))
              (fst (CardStorage_getNewCards w)).
Proof.
  unfold getNewCards, bind, shuffleArray.
  destruct (CardStorage_getNewCards w) as [all w0]. cbn [fst].
  intros Hcap.
  pose proof (shuffleFrom_length (length all - 1) all w0) as HL.
  pose proof (shuffleFrom_Permutation (length all - 1) all w0) as HP.
  destruct (shuffleFrom (length all - 1) all w0) as [sh w1].
  cbn [fst ret] in *. rewrite capAt_all by lia. exact HP.
Qed.

(** [getDueCards] reads the clock and draws random numbers; the card
    collection is as it was. *)
Lemma getDueCards_store maxCards w :
  fst (CardStorage_getNewCards (snd (getDueCards maxCards w)))
  = fst (CardStorage_getNewCards w).
Proof.
  unfold getDueCards, bind, shuffleArray.
  unfold CardStorage_getDueCards, CardStorage_getAll, bind, newDate, ret.
  match goal with
  | |- context [shuffleFrom ?i ?l ?w0] =>
      pose proof (shuffleFrom_store i l w0) as (Hw & Hc & _);
      destruct (shuffleFrom i l w0) as [sh w1]
  end.
  cbn in Hw, Hc.
  unfold CardStorage_getNewCards, CardStorage_getAll, bind, ret. cbn.
  now rewrite Hw, Hc.
Qed.

(** C1, as the code runs. With five due cards and one new card in the
    store, [getStudyQueue(10, 10)] builds a queue of ten entries out of the
    due cards, shuffled into [d0 .. d4], and the new card [n0]: each turn
    [i] of the loop appends [due[i]] and [due[i + 1]], so every due card but
    the first is appended twice. *)
Theorem getStudyQueue_five_due_one_new w :
  length (fst (CardStorage_getDueCards w)) = 5%nat ->
  length (fst (CardStorage_getNewCards w)) = 1%nat ->
  exists d0 d1 d2 d3 d4 n0,
    Permutation [d0; d1; d2; d3; d4] (fst (CardStorage_getDueCards w)) /\
    fst (CardStorage_getNewCards w) = [n0] /\
    fst (getStudyQueue (Some 10%Z) (Some 10%Z) w) =
      [d0; d1; n0; d1; d2; d2; d3; d3; d4; d4].
Proof.
  intros Hdue Hnew.
  pose proof (getDueCards_uncapped 10 w ltac:(lia)) as Pdue.
  pose proof (getDueCards_store (Some 10%Z) w) as Hstore.
  unfold getStudyQueue, bind.
  destruct (getDueCards (Some 10%Z) w) as [due w1]. cbn [fst snd] in *.
  pose proof (getNewCards_uncapped 10 w1 ltac:(rewrite Hstore; lia)) as Pnew.
  rewrite Hstore in Pnew.
  destruct (getNewCards (Some 10%Z) w1) as [new w2]. cbn [fst snd] in *.
  pose proof (Permutation_length Pdue) as Ldue. rewrite Hdue in Ldue.
  pose proof (Permutation_length Pnew) as Lnew. rewrite Hnew in Lnew.
  destruct due as [|d0 [|d1 [|d2 [|d3 [|d4 [|]]]]]]; try discriminate Ldue.
  destruct new as [|n0 [|]]; try discriminate Lnew.
  exists d0, d1, d2, d3, d4, n0.
  split; [exact Pdue|]. split; [|apply interleave_five_one].
  now apply Permutation_length_1_inv.
Qed.

(** *** Lifetime statistics *)

Lemma updateDailyStats_lifetime correct responseTime w :
  hasWindow w = true ->
  let life := lifetimeOf w in
  let w' := snd (updateDailyStats correct responseTime w) in
  let life' := lifetimeOf w' in
  hasWindow w' = true /\
  LifetimeStats.totalReviews life' = (LifetimeStats.totalReviews life + 1)%Z /\
  LifetimeStats.correctReviews life' =
    (LifetimeStats.correctReviews life + if correct then 1 else 0)%Z /\
  LifetimeStats.accuracy life' =
    accuracyOf (LifetimeStats.correctReviews life')
               (LifetimeStats.totalReviews life').
Proof.
  intros Hw.
  unfold lifetimeOf, updateDailyStats, getTodayString, ProgressStorage_get,
    ProgressStorage_save, bind, newDate, ret, accuracyOf.
  cbn. rewrite Hw. cbn. rewrite Hw. cbn.
  repeat split.
  destruct correct; [reflexivity | lia].
Qed.

(** Neither [calculateNext] nor [CardStorage.update] touches the progress
    entry or the window. *)
Lemma CardStorage_update_progress cardId updates w :
  let w' := snd (CardStorage_update cardId updates w) in
  hasWindow w' = hasWindow w /\ progressItem w' = progressItem w.
Proof.
  unfold CardStorage_update, CardStorage_getAll, CardStorage_save, bind,
    newDate, ret.
  cbn.
  destruct (findIndex _ _) as [index|]; cbn; [|auto].
  destruct (_ !! index); cbn; [|auto].
  destruct (hasWindow w) eqn:Hw; cbn; rewrite ?Hw; auto.
Qed.

Lemma calculateNext_world card difficulty w :
  snd (calculateNext card difficulty w) = set_ticks (S (ticks w)) w.
Proof.
  unfold calculateNext, bind, localZone, newDate, ret.
  destruct difficulty; cbn [Difficulty_eqb];
    repeat match goal with
           | |- context [if ?c then _ else _] => destruct c
           end; reflexivity.
Qed.

Lemma processReview_lifetime card difficulty responseTime w :
  hasWindow w = true ->
  let life := lifetimeOf w in
  let w' := snd (processReview card difficulty responseTime w) in
  let life' := lifetimeOf w' in
  hasWindow w' = true /\
  LifetimeStats.totalReviews life' = (LifetimeStats.totalReviews life + 1)%Z /\
  LifetimeStats.correctReviews life' =
    (LifetimeStats.correctReviews life
     + if Difficulty_eqb difficulty AGAIN then 0 else 1)%Z /\
  LifetimeStats.accuracy life' =
    accuracyOf (LifetimeStats.correctReviews life')
               (LifetimeStats.totalReviews life').
Proof.
  intros Hw. unfold processReview, bind.
  pose proof (calculateNext_world card difficulty w) as Hcalc.
  destruct (calculateNext card difficulty w) as [result w0].
  cbn [snd] in Hcalc. subst w0. unfold newDate, ret. cbn iota beta zeta.
  match goal with
  | |- context [CardStorage_update ?i ?u ?w0] =>
      pose proof (CardStorage_update_progress i u w0) as [Hw1 Hp1];
      destruct (CardStorage_update i u w0) as [r w1]
  end.
  cbn in Hw1, Hp1.
  assert (Hlife : lifetimeOf w1 = lifetimeOf w).
  { unfold lifetimeOf, ProgressStorage_get. cbn. now rewrite Hw1, Hp1. }
  rewrite Hw in Hw1.
  pose proof (updateDailyStats_lifetime
                (negb (Difficulty_eqb difficulty AGAIN)) responseTime w1 Hw1)
    as (H1 & H2 & H3 & H4).
  cbn zeta in H1, H2, H3, H4.
  destruct (updateDailyStats _ responseTime w1) as [u w2].
  cbn [snd fst ret] in *.
  rewrite Hlife in H2, H3.
  repeat split; try assumption.
  rewrite H3. destruct (Difficulty_eqb difficulty AGAIN); reflexivity.
Qed.

Lemma recordReviews_lifetime reviews : forall w,
  hasWindow w = true ->
  let life := lifetimeOf w in
  let w' := snd (recordReviews reviews w) in
  let life' := lifetimeOf w' in
  hasWindow w' = true /\
  LifetimeStats.totalReviews life' =
    (LifetimeStats.totalReviews life + Z.of_nat (length reviews))%Z /\
  LifetimeStats.correctReviews life' =
    (LifetimeStats.correctReviews life
     + Z.of_nat (length (List.filter (fun r => negb (isAgain r)) reviews)))%Z /\
  (reviews <> [] ->
   LifetimeStats.accuracy life' =
     accuracyOf (LifetimeStats.correctReviews life')
                (LifetimeStats.totalReviews life')).
Proof.
  induction reviews as [|[[card difficulty] responseTime] rest IH]; intros w Hw.
  - cbn. repeat split; try lia; try assumption. congruence.
  - cbn [recordReviews]. unfold bind.
    pose proof (processReview_lifetime card difficulty responseTime w Hw)
      as (Hw1 & Ht1 & Hc1 & Ha1).
    cbn zeta in Hw1, Ht1, Hc1, Ha1.
    destruct (processReview card difficulty responseTime w) as [c w1].
    cbn [snd] in *.
    destruct (IH w1 Hw1) as (Hw2 & Ht2 & Hc2 & Ha2).
    cbn zeta in Hw2, Ht2, Hc2, Ha2.
    split; [assumption|]. split; [|split].
    + rewrite Ht2, Ht1. cbn [length]. lia.
    + rewrite Hc2, Hc1. cbn [List.filter].
      change (isAgain (card, difficulty, responseTime))
        with (Difficulty_eqb difficulty AGAIN).
      destruct (Difficulty_eqb difficulty AGAIN); cbn [negb length]; lia.
    + intros _. destruct rest as [|r rest'].
      * cbn. exact Ha1.
      * apply Ha2. discriminate.
Qed.

(** C7. Every review leaves the stored lifetime accuracy equal to
    [correctReviews / totalReviews], as a percentage, of the counters it has
    just updated (0 when the total is not positive). Starting from counters
    at 0, four reviews of which exactly one is graded "again" leave an
    accuracy of 75 percent, in whatever order they come. *)
Theorem lifetime_accuracy_recomputed :
  (forall card difficulty responseTime w,
     hasWindow w = true ->
     let life := lifetimeOf w in
     let life' := lifetimeOf (snd (processReview card difficulty responseTime w)) in
     LifetimeStats.totalReviews life' = (LifetimeStats.totalReviews life + 1)%Z /\
     LifetimeStats.correctReviews life' =
       (LifetimeStats.correctReviews life
        + if Difficulty_eqb difficulty AGAIN then 0 else 1)%Z /\
     LifetimeStats.accuracy life' =
       if (0 <? LifetimeStats.totalReviews life')%Z
       then inject_Z (LifetimeStats.correctReviews life')
            / inject_Z (LifetimeStats.totalReviews life') * 100
       else 0) /\
  (forall reviews w,
     hasWindow w = true ->
     LifetimeStats.totalReviews (lifetimeOf w) = 0%Z ->
     LifetimeStats.correctReviews (lifetimeOf w) = 0%Z ->
     length reviews = 4%nat ->
     length (List.filter isAgain reviews) = 1%nat ->
     LifetimeStats.accuracy (lifetimeOf (snd (recordReviews reviews w))) == 75).
Proof.
  split.
  - intros card difficulty responseTime w Hw.
    destruct (processReview_lifetime card difficulty responseTime w Hw)
      as (_ & Ht & Hc & Ha).
    auto.
  - intros reviews w Hw Htotal Hcorrect Hlen Hagain.
    destruct (recordReviews_lifetime reviews w Hw) as (_ & Ht & Hc & Ha).
    cbn zeta in Ht, Hc, Ha.
    assert (Hgood : length (List.filter (fun r => negb (isAgain r)) reviews)
                    = 3%nat).
    { pose proof (filter_length isAgain reviews) as Hsplit.
      cbn beta in Hsplit. lia. }
    rewrite Ha by (intros ->; discriminate).
    rewrite Ht, Hc, Htotal, Hcorrect, Hlen, Hgood.
    reflexivity.
Qed.

(** *** The study streak *)

Local Open Scope Z_scope.

Lemma formatDate_previous_day t : formatDate (t - msPerDay) = formatDate t - 1.
Proof.
  unfold formatDate.
  replace (t - msPerDay) with (t + (-1) * msPerDay) by lia.
  rewrite Z.div_add by (unfold msPerDay; lia). lia.
Qed.

Lemma studiedOn_In stats day :
  studiedOn stats day = true <->
  exists s, In s stats /\ date s = day /\ 0 < cardsStudied s.
Proof.
  unfold studiedOn. rewrite existsb_exists. split.
  - intros (s & Hin & Hs). apply andb_true_iff in Hs as [Hd Hc].
    exists s. repeat split; [assumption | lia | lia].
  - intros (s & Hin & Hd & Hc). exists s. split; [assumption|].
    apply andb_true_iff. split; lia.
Qed.

Lemma studiedOn_Permutation stats stats' day :
  Permutation stats stats' -> studiedOn stats day = studiedOn stats' day.
Proof.
  intros HP. apply eq_true_iff_eq. rewrite !studiedOn_In.
  split; intros (s & Hin & Hs); exists s; split; try assumption.
  - now apply (Permutation_in _ HP).
  - now apply (Permutation_in _ (Permutation_sym HP)).
Qed.

Lemma isStreak_unique stats today k k' :
  isStreak stats today k -> isStreak stats today k' -> k = k'.
Proof.
  intros (Hk & Hall & Hgap) (Hk' & Hall' & Hgap').
  destruct (Z.lt_trichotomy k k') as [Hlt | [Heq | Hgt]]; [|assumption|].
  - rewrite Hall' in Hgap by lia. discriminate.
  - rewrite Hall in Hgap' by lia. discriminate.
Qed.

(** The sort is a stable insertion sort: a permutation, latest first. *)
Lemma insertDesc_Permutation x l : Permutation (insertDesc x l) (x :: l).
Proof.
  induction l as [|y l IH]; cbn; [reflexivity|].
  destruct (date x <? date y); [|reflexivity].
  rewrite IH. apply perm_swap.
Qed.

Lemma sortDesc_Permutation l : Permutation (sortDesc l) l.
Proof.
  induction l as [|x l IH]; cbn; [reflexivity|].
  rewrite insertDesc_Permutation. now constructor.
Qed.

Lemma insertDesc_sorted x l :
  StronglySorted later l -> StronglySorted later (insertDesc x l).
Proof.
  induction 1 as [|y l Hsorted IH Hall]; cbn.
  - repeat constructor.
  - destruct (date x <? date y) eqn:E.
    + constructor; [assumption|].
      apply (Permutation_Forall (Permutation_sym (insertDesc_Permutation x l))).
      constructor; [unfold later; lia | assumption].
    + constructor; [now constructor|].
      constructor; [unfold later; lia|].
      eapply List.Forall_impl; [|exact Hall].
      unfold later. intros; lia.
Qed.

Lemma sortDesc_sorted l : StronglySorted later (sortDesc l).
Proof.
  induction l as [|x l IH]; cbn; [constructor | now apply insertDesc_sorted].
Qed.

(** The loop on a list that is sorted latest first, has one entry per date
    and none after the current day, in a zone where a step back of one
    local day lands on the UTC day before: it adds to the counter the
    number of consecutive studied days. *)
Lemma streakLoop_isStreak tz stats :
  (forall t, formatDate (setDate_plus tz t (-1)) = formatDate t - 1) ->
  forall streak currentDate,
  StronglySorted later stats ->
  List.NoDup (List.map date stats) ->
  Forall (fun s => date s <= formatDate currentDate) stats ->
  exists k, streakLoop tz stats streak currentDate = streak + k /\
            isStreak stats (formatDate currentDate) k.
Proof.
  intros Hstep.
  induction stats as [|s rest IH]; intros streak currentDate Hsorted Hnodup Hpast.
  - exists 0. cbn. split; [lia|]. repeat split; [lia | intros; lia].
  - apply StronglySorted_inv in Hsorted as [Hsorted Hlater].
    cbn [List.map] in Hnodup. apply List.NoDup_cons_iff in Hnodup as [Hfresh Hnodup].
    apply Forall_cons_iff in Hpast as [Hs Hpast].
    assert (Hbefore : Forall (fun s' => date s' < date s) rest).
    { rewrite List.Forall_forall in Hlater |- *. intros s' Hin.
      specialize (Hlater s' Hin). unfold later in Hlater.
      assert (date s' <> date s).
      { intros Heq. apply Hfresh. rewrite <- Heq.
        apply List.in_map_iff. exists s'. split; [reflexivity | assumption]. }
      lia. }
    cbn [streakLoop].
    destruct ((date s =? formatDate currentDate) && (0 <? cardsStudied s)) eqn:E.
    + apply andb_true_iff in E as [Hd Hc].
      apply Z.eqb_eq in Hd. apply Z.ltb_lt in Hc.
      destruct (IH (streak + 1) (setDate_plus tz currentDate (-1))
                  Hsorted Hnodup)
        as (k & Hloop & Hk & Hall & Hgap).
      { rewrite Hstep.
        eapply List.Forall_impl; [|exact Hbefore]. cbn. intros; lia. }
      rewrite Hstep in Hall, Hgap.
      exists (k + 1). split; [lia|]. split; [lia|]. split.
      * intros i Hi. destruct (Z.eq_dec i 0) as [->|Hne].
        -- apply studiedOn_In. exists s. repeat split; [now left | lia | lia].
        -- specialize (Hall (i - 1) ltac:(lia)).
           apply studiedOn_In in Hall as (s' & Hin & Hd' & Hc').
           apply studiedOn_In. exists s'.
           repeat split; [now right | lia | lia].
      * unfold studiedOn in *. cbn [existsb].
        replace (formatDate currentDate - (k + 1))
          with (formatDate currentDate - 1 - k) by lia.
        rewrite Hgap.
        replace (date s =? formatDate currentDate - 1 - k) with false
          by (symmetry; apply Z.eqb_neq; lia).
        reflexivity.
    + exists 0. split; [lia|]. split; [lia|]. split; [intros; lia|].
      rewrite Z.sub_0_r. unfold studiedOn. cbn [existsb]. rewrite E. cbn.
      apply not_true_is_false. intros Hex.
      apply existsb_exists in Hex as (s' & Hin & Hs').
      apply andb_true_iff in Hs' as [Hd' _]. apply Z.eqb_eq in Hd'.
      rewrite List.Forall_forall in Hbefore. specialize (Hbefore s' Hin). lia.
Qed.

Lemma isStreak_Permutation stats stats' today k :
  Permutation stats stats' -> isStreak stats today k -> isStreak stats' today k.
Proof.
  intros HP (Hk & Hall & Hgap). split; [assumption|]. split.
  - intros i Hi. rewrite <- (studiedOn_Permutation _ _ _ HP). now apply Hall.
  - now rewrite <- (studiedOn_Permutation _ _ _ HP).
Qed.

Lemma calculateStudyStreak_result w :
  fst (calculateStudyStreak w) =
  streakLoop (timeZone w)
    (sortDesc (dailyStats (fst (ProgressStorage_get w)))) 0
    (clock w (S (ticks w))).
Proof. reflexivity. Qed.

(** The first entry of a list that is sorted latest first, has one entry
    per date, none after [day] and a studied one on [day]: it is the
    studied entry of [day], and the others are older. *)
Lemma sorted_head s rest day :
  StronglySorted later (s :: rest) ->
  List.NoDup (List.map date (s :: rest)) ->
  Forall (fun s' => date s' <= day) (s :: rest) ->
  studiedOn (s :: rest) day = true ->
  date s = day /\ 0 < cardsStudied s /\
  Forall (fun s' => date s' < day) rest.
Proof.
  intros Hsorted Hnodup Hpast Hstudied.
  apply StronglySorted_inv in Hsorted as [_ Hlater].
  cbn [List.map] in Hnodup.
  apply List.NoDup_cons_iff in Hnodup as [Hfresh _].
  apply Forall_cons_iff in Hpast as [Hs _].
  rewrite List.Forall_forall in Hlater.
  apply studiedOn_In in Hstudied as (e & Hin & Hday & Hcount).
  assert (Hhead : e = s).
  { destruct Hin as [E | Hin]; [now symmetry|]. exfalso.
    specialize (Hlater e Hin). unfold later in Hlater.
    apply Hfresh. replace (date s) with (date e) by lia.
    apply List.in_map_iff. exists e. now split. }
  subst e. repeat split; try assumption.
  apply List.Forall_forall. intros s' Hin'.
  specialize (Hlater s' Hin'). unfold later in Hlater.
  assert (date s' <> date s).
  { intros Heq. apply Hfresh. rewrite <- Heq.
    apply List.in_map_iff. exists s'. now split. }
  lia.
Qed.

(** Where a step back of one local day lands on the UTC day before, as in
    every zone whose offset is fixed, the loop counts the consecutive days
    studied. *)
Lemma calculateStudyStreak_fixed_offset w :
  let stats := dailyStats (fst (ProgressStorage_get w)) in
  let today := formatDate (clock w (S (ticks w))) in
  fixedOffset (timeZone w) ->
  List.NoDup (List.map date stats) ->
  Forall (fun s => date s <= today) stats ->
  isStreak stats today (fst (calculateStudyStreak w)).
Proof.
  intros stats today Hfixed Hnodup Hpast.
  rewrite calculateStudyStreak_result. fold stats.
  pose proof (sortDesc_Permutation stats) as HP.
  destruct (streakLoop_isStreak (timeZone w) (sortDesc stats)) with
    (streak := 0) (currentDate := clock w (S (ticks w)))
    as (k & Hloop & Hk).
  - intros t. rewrite (setDate_plus_fixed _ _ _ Hfixed).
    replace (t + -1 * msPerDay) with (t - msPerDay) by lia.
    apply formatDate_previous_day.
  - apply sortDesc_sorted.
  - eapply Permutation_NoDup; [|exact Hnodup].
    apply Permutation_map, Permutation_sym, HP.
  - apply (Permutation_Forall (Permutation_sym HP)). exact Hpast.
  - rewrite Hloop, Z.add_0_l.
    apply (isStreak_Permutation _ _ _ _ HP). exact Hk.
Qed.

(** C6, as the code has it. The loop matches UTC days but steps back by one
    day of local time. When that step does not land on the UTC day before
    today, the streak is 1 although yesterday was studied too: the history
    has one entry per date and none after today, and today and yesterday
    each have an entry with [cardsStudied > 0]. *)
Theorem calculateStudyStreak_local_step w :
  let stats := dailyStats (fst (ProgressStorage_get w)) in
  let now := clock w (S (ticks w)) in
  let today := formatDate now in
  List.NoDup (List.map date stats) ->
  Forall (fun s => date s <= today) stats ->
  studiedOn stats today = true ->
  studiedOn stats (today - 1) = true ->
  formatDate (setDate_plus (timeZone w) now (-1)) <> today - 1 ->
  fst (calculateStudyStreak w) = 1.
Proof.
  intros stats now today Hnodup Hpast Htoday Hyesterday Hstep.
  rewrite calculateStudyStreak_result. fold stats now.
  pose proof (sortDesc_Permutation stats) as HP.
  pose proof (sortDesc_sorted stats) as Hsorted.
  assert (Hnodup' : List.NoDup (List.map date (sortDesc stats))).
  { eapply Permutation_NoDup; [|exact Hnodup].
    apply Permutation_map, Permutation_sym, HP. }
  assert (Hpast' : Forall (fun s => date s <= today) (sortDesc stats))
    by (apply (Permutation_Forall (Permutation_sym HP)); exact Hpast).
  rewrite (studiedOn_Permutation _ _ _ (Permutation_sym HP)) in Htoday.
  rewrite (studiedOn_Permutation _ _ _ (Permutation_sym HP)) in Hyesterday.
  destruct (sortDesc stats) as [|s rest]; [discriminate|].
  destruct (sorted_head s rest today Hsorted Hnodup' Hpast' Htoday)
    as (Hs & Hcount & Hbefore).
  cbn [streakLoop]. fold today.
  replace (date s =? today) with true by (symmetry; apply Z.eqb_eq; exact Hs).
  replace (0 <? cardsStudied s) with true
    by (symmetry; apply Z.ltb_lt; exact Hcount).
  cbn [andb].
  apply studiedOn_In in Hyesterday as (e & Hin & Hday & _).
  destruct Hin as [E | Hin]; [subst e; lia|].
  apply StronglySorted_inv in Hsorted as [Hsorted _].
  destruct rest as [|h rest']; [contradiction|].
  assert (Hh : date h = today - 1).
  { apply Forall_cons_iff in Hbefore as [Hlt _].
    apply StronglySorted_inv in Hsorted as [_ Hlater].
    destruct Hin as [E | Hin]; [now subst e|].
    rewrite List.Forall_forall in Hlater.
    specialize (Hlater e Hin). unfold later in Hlater. lia. }
  cbn [streakLoop].
  replace (date h =? formatDate (setDate_plus (timeZone w) now (-1)))
    with false by (symmetry; apply Z.eqb_neq; lia).
  reflexivity.
Qed.

(** *** The properties at concrete inputs *)

Lemma processReview_easeFactor_range_witness :
  ((13 # 10 <= easeFactor (Sample.card "a" 3 0) <= 25 # 10) /\
   (13 # 10
    <= easeFactor (fst (processReview (Sample.card "a" 3 0) HARD (4 # 1)
                          (Sample.worldAt 1000)))
    <= 25 # 10))%Q.
Proof.
  assert (H : (13 # 10 <= easeFactor (Sample.card "a" 3 0) <= 25 # 10)%Q)
    by (split; apply Qle_bool_imp_le; reflexivity).
  split; [exact H|].
  exact (processReview_easeFactor_range (Sample.card "a" 3 0) HARD (4 # 1)
           (Sample.worldAt 1000) H).
Defined.

(** Graded "again" at 01:30:30 New York time in the hour after the clocks
    went back: the local time reached, 01:31:30, is read with the offset
    of before the change, and the next review lies 59 minutes before the
    time read. *)
Lemma processReview_again_witness :
  let w := Sample.worldIn Sample.newYork (99 # 100) Sample.repeatedHour in
  let card' := fst (processReview (Sample.card "a" 3 0) AGAIN (4 # 1) w) in
  validTime (UTC Sample.newYork
               (LocalTime Sample.newYork Sample.repeatedHour + 60000)%Z) /\
  nextReviewDate card' = (Sample.repeatedHour - 3540000)%Z /\
  nextReviewDate card' <> (Sample.repeatedHour + 60000)%Z.
Proof.
  cbn zeta.
  assert (Hvalid :
    validTime (UTC Sample.newYork
                 (LocalTime Sample.newYork Sample.repeatedHour + 60000)%Z))
    by (split; discriminate).
  split; [exact Hvalid|].
  pose proof (processReview_again (Sample.card "a" 3 0) (4 # 1)
                (Sample.worldIn Sample.newYork (99 # 100) Sample.repeatedHour)
                Hvalid) as (_ & _ & _ & _ & Hnext & _).
  split; [exact Hnext|].
  rewrite Hnext. discriminate.
Defined.

(** C4 fails as stated: a card with two reviews and no stored average,
    reviewed in 6 seconds, gets the average 6, where the formula with a
    previous average of 0 gives 6 / 3. *)
Lemma processReview_averageResponseTime_counterexample :
  ~ (exists avg,
       averageResponseTime
         (fst (processReview Sample.legacyCard GOOD (6 # 1)
                 (Sample.worldAt 1000))) = Some avg /\
       (avg == runningMean (averageResponseTime Sample.legacyCard)
                 (totalReviews Sample.legacyCard) (6 # 1))%Q).
Proof.
  intros (avg & Havg & Hmean).
  vm_compute in Havg. injection Havg as <-.
  vm_compute in Hmean. discriminate Hmean.
Qed.

Example getStudyQueue_at_queueWorld :
  List.map id (fst (getStudyQueue (Some 10) (Some 10) Sample.queueWorld)) =
  ["due0"; "due1"; "new0"; "due1"; "due2"; "due2"; "due3"; "due3"; "due4";
   "due4"]%string.
Proof. vm_compute. reflexivity. Qed.

Lemma getStudyQueue_five_due_one_new_witness :
  length (fst (CardStorage_getDueCards Sample.queueWorld)) = 5%nat /\
  length (fst (CardStorage_getNewCards Sample.queueWorld)) = 1%nat /\
  exists d0 d1 d2 d3 d4 n0,
    Permutation [d0; d1; d2; d3; d4]
      (fst (CardStorage_getDueCards Sample.queueWorld)) /\
    fst (CardStorage_getNewCards Sample.queueWorld) = [n0] /\
    fst (getStudyQueue (Some 10) (Some 10) Sample.queueWorld) =
      [d0; d1; n0; d1; d2; d2; d3; d3; d4; d4].
Proof.
  split; [reflexivity|]. split; [reflexivity|].
  apply (getStudyQueue_five_due_one_new Sample.queueWorld); reflexivity.
Defined.

(** With an entry dated tomorrow next to today's, the loop stops at its
    first turn and returns 0, although today was studied. *)
Example calculateStudyStreak_future_entry :
  fst (calculateStudyStreak Sample.futureWorld) = 0 /\
  studiedOn (dailyStats (fst (ProgressStorage_get Sample.futureWorld)))
    (formatDate Sample.noon) = true.
Proof. split; reflexivity. Qed.

(** On UTC, three days in a row give 3. *)
Example calculateStudyStreak_at_streakWorld :
  fst (calculateStudyStreak Sample.streakWorld) = 3.
Proof. reflexivity. Qed.

(** New York, the evening after the clocks went back: 2, 3 and 4 November
    (UTC) were studied, which are three days in a row ending today. *)
Example isStreak_at_newYorkWorld :
  isStreak (dailyStats (fst (ProgressStorage_get Sample.newYorkWorld)))
    (formatDate Sample.eveningAfter) 3.
Proof.
  split; [lia|]. split; [|reflexivity].
  intros i Hi. assert (Hcase : i = 0 \/ i = 1 \/ i = 2) by lia.
  destruct Hcase as [-> | [-> | ->]]; reflexivity.
Qed.

Lemma calculateStudyStreak_local_step_witness :
  let w := Sample.newYorkWorld in
  let stats := dailyStats (fst (ProgressStorage_get w)) in
  let now := clock w (S (ticks w)) in
  let today := formatDate now in
  List.NoDup (List.map date stats) /\
  Forall (fun s => date s <= today) stats /\
  studiedOn stats today = true /\
  studiedOn stats (today - 1) = true /\
  formatDate (setDate_plus (timeZone w) now (-1)) <> today - 1 /\
  fst (calculateStudyStreak w) = 1.
Proof.
  cbn zeta.
  assert (Hnodup : List.NoDup
            (List.map date
               (dailyStats (fst (ProgressStorage_get Sample.newYorkWorld))))).
  { cbn. repeat constructor; cbn; intuition discriminate. }
  assert (Hpast : Forall
            (fun s => date s
                      <= formatDate (clock Sample.newYorkWorld
                                       (S (ticks Sample.newYorkWorld))))
            (dailyStats (fst (ProgressStorage_get Sample.newYorkWorld)))).
  { repeat constructor; discriminate. }
  assert (Htoday :
    studiedOn (dailyStats (fst (ProgressStorage_get Sample.newYorkWorld)))
      (formatDate (clock Sample.newYorkWorld (S (ticks Sample.newYorkWorld))))
    = true) by reflexivity.
  assert (Hyesterday :
    studiedOn (dailyStats (fst (ProgressStorage_get Sample.newYorkWorld)))
      (formatDate (clock Sample.newYorkWorld (S (ticks Sample.newYorkWorld)))
       - 1)
    = true) by reflexivity.
  assert (Hstep :
    formatDate (setDate_plus (timeZone Sample.newYorkWorld)
                  (clock Sample.newYorkWorld (S (ticks Sample.newYorkWorld)))
                  (-1))
    <> formatDate (clock Sample.newYorkWorld
                     (S (ticks Sample.newYorkWorld))) - 1)
    by discriminate.
  split; [exact Hnodup|]. split; [exact Hpast|]. split; [exact Htoday|].
  split; [exact Hyesterday|]. split; [exact Hstep|].
  exact (calculateStudyStreak_local_step Sample.newYorkWorld
           Hnodup Hpast Htoday Hyesterday Hstep).
Defined.

Lemma lifetime_accuracy_recomputed_witness :
  (LifetimeStats.accuracy
     (lifetimeOf (snd (recordReviews Sample.reviews (Sample.worldAt 1000))))
   == 75)%Q.
Proof.
  apply (proj2 lifetime_accuracy_recomputed Sample.reviews
           (Sample.worldAt 1000)); reflexivity.
Defined.

End SchedulerFacts.

(** * Further properties of the scheduler *)

Section SchedulerMore.

Local Open Scope Q_scope.

Ltac split_calls :=
  repeat match goal with
         | |- context [let (_, _) := ?e in _] => destruct e
         end.

Ltac split_branches :=
  repeat match goal with
         | |- context [if ?c then _ else _] => destruct c eqn:?
         end.

(** *** One review, grade by grade *)

Lemma Math_round_monotone x y : x <= y -> (Math_round x <= Math_round y)%Z.
Proof. intros H. unfold Math_round. apply Qfloor_resp_le. lra. Qed.

Lemma Math_round_at_least_one x : 1 <= x -> (1 <= Math_round x)%Z.
Proof.
  intros H. unfold Math_round.
  apply Z.le_trans with (Qfloor (inject_Z 1)); [now rewrite Qfloor_Z|].
  apply Qfloor_resp_le. unfold inject_Z. lra.
Qed.

Lemma Math_round_nonnegative x : 0 <= x -> (0 <= Math_round x)%Z.
Proof.
  intros H. unfold Math_round.
  apply Z.le_trans with (Qfloor (inject_Z 0)); [now rewrite Qfloor_Z|].
  apply Qfloor_resp_le. unfold inject_Z. lra.
Qed.

Lemma inject_Z_at_least_one z : (1 <= z)%Z -> 1 <= inject_Z z.
Proof. intros H. change 1 with (inject_Z 1). now rewrite <- Zle_Qle. Qed.

Lemma inject_Z_nonnegative z : (0 <= z)%Z -> 0 <= inject_Z z.
Proof. intros H. change 0 with (inject_Z 0). now rewrite <- Zle_Qle. Qed.

(** What [calculateNext] returns, without the state. *)
Lemma calculateNext_fields card difficulty w :
  let result := fst (calculateNext card difficulty w) in
  let now := clock w (ticks w) in
  let hard := Qmax (13 # 10) (easeFactor card - (15 # 100)) in
  let easy := Qmin (25 # 10) (easeFactor card + (1 # 10)) in
  AlgorithmResult.easeFactor result =
    match difficulty with
    | AGAIN | GOOD => easeFactor card
    | HARD => hard
    | EASY => easy
    end /\
  AlgorithmResult.interval result =
    match difficulty with
    | AGAIN => 0
    | HARD =>
        if repetitions card =? 0 then 1
        else if repetitions card =? 1 then 2
        else Z.max 1 (Math_round (inject_Z (interval card) * hard * (8 # 10)))
    | GOOD =>
        if repetitions card =? 0 then 1
        else if repetitions card =? 1 then 6
        else Math_round (inject_Z (interval card) * easeFactor card)
    | EASY =>
        if repetitions card =? 0 then 4
        else if repetitions card =? 1 then 8
        else Math_round (inject_Z (interval card) * easy * (13 # 10))
    end%Z /\
  AlgorithmResult.repetitions result =
    match difficulty with
    | AGAIN => 0
    | _ => repetitions card + 1
    end%Z /\
  AlgorithmResult.nextReviewDate result =
    match difficulty with
    | AGAIN => setMinutes_plus (timeZone w) now 1
    | _ => setDate_plus (timeZone w) now (AlgorithmResult.interval result)
    end.
Proof.
  unfold calculateNext, bind, localZone, newDate, ret.
  destruct difficulty; cbn [Difficulty_eqb];
    destruct (Z.eqb_spec (repetitions card) 0);
    destruct (Z.eqb_spec (repetitions card) 1);
    cbn; repeat split; first [reflexivity | lia].
Qed.

Lemma processReview_statistics card difficulty responseTime w :
  let card' := fst (processReview card difficulty responseTime w) in
  let passed := negb (Difficulty_eqb difficulty AGAIN) in
  totalReviews card' = (totalReviews card + 1)%Z /\
  correctReviews card' =
    (if passed then correctReviews card + 1 else correctReviews card)%Z /\
  streak card' = (if passed then streak card + 1 else 0)%Z.
Proof.
  unfold processReview, bind.
  destruct (calculateNext card difficulty w) as [result w1].
  cbn. split_calls. cbn. auto.
Qed.

(** X1. A review with any grade but "again" adds one to the repetitions,
    to the total, to the correct reviews and to the streak of the card. It
    sets the next review to the time read moved on by the new interval in
    days of local time (for a date within the range of valid dates): that
    is the time read plus the interval in days of 86400000 ms when the
    zone gives the local time reached the offset it has at the time
    read. *)
Theorem processReview_passed card difficulty responseTime w :
  difficulty <> AGAIN ->
  let card' := fst (processReview card difficulty responseTime w) in
  let now := clock w (ticks w) in
  let tz := timeZone w in
  let reached := (LocalTime tz now + interval card' * 86400000)%Z in
  validTime (UTC tz reached) ->
  repetitions card' = (repetitions card + 1)%Z /\
  nextReviewDate card' = UTC tz reached /\
  (offsetOfLocal tz reached = offsetAt tz now ->
   nextReviewDate card' = (now + interval card' * 86400000)%Z) /\
  totalReviews card' = (totalReviews card + 1)%Z /\
  correctReviews card' = (correctReviews card + 1)%Z /\
  streak card' = (streak card + 1)%Z.
Proof.
  intros Hpassed card' now tz reached _.
  destruct (processReview_scheduling card difficulty responseTime w)
    as (_ & Hi & Hr & Hn).
  destruct (calculateNext_fields card difficulty w) as (_ & _ & Hr' & Hn').
  destruct (processReview_statistics card difficulty responseTime w)
    as (Ht & Hc & Hs).
  cbn zeta in *. fold card' in Hi, Hr, Hn, Ht, Hc, Hs.
  assert (Hnext : nextReviewDate card' = UTC tz reached).
  { rewrite Hn, Hn'. subst reached. rewrite Hi.
    destruct difficulty; try contradiction; apply setDate_plus_local. }
  assert (Hsame : offsetOfLocal tz reached = offsetAt tz now ->
                  nextReviewDate card' = (now + interval card' * 86400000)%Z).
  { intros Hsame. rewrite Hnext. unfold UTC. rewrite Hsame.
    unfold reached, LocalTime. lia. }
  rewrite Hr, Ht, Hc, Hs, Hr'.
  destruct difficulty; try contradiction; cbn; repeat split; assumption.
Qed.

(** X2. For a card with an ease factor in [1.3, 2.5] and an interval of at
    least one day, the three passing grades order the new interval: "hard"
    gives at most what "good" gives, and "good" at most what "easy"
    gives. *)
Theorem processReview_grades_ordered card responseTime w :
  13 # 10 <= easeFactor card <= 25 # 10 ->
  (1 <= interval card)%Z ->
  (interval (fst (processReview card HARD responseTime w))
   <= interval (fst (processReview card GOOD responseTime w))
   <= interval (fst (processReview card EASY responseTime w)))%Z.
Proof.
  intros [Hlo Hhi] Hday.
  destruct (processReview_scheduling card HARD responseTime w)
    as (_ & -> & _).
  destruct (processReview_scheduling card GOOD responseTime w)
    as (_ & -> & _).
  destruct (processReview_scheduling card EASY responseTime w)
    as (_ & -> & _).
  destruct (calculateNext_fields card HARD w) as (_ & -> & _).
  destruct (calculateNext_fields card GOOD w) as (_ & -> & _).
  destruct (calculateNext_fields card EASY w) as (_ & -> & _).
  pose proof (inject_Z_at_least_one _ Hday) as Hi.
  set (i := inject_Z (interval card)) in *.
  set (ef := easeFactor card) in *.
  assert (Hhard : 13 # 10 <= Qmax (13 # 10) (ef - (15 # 100)) <= ef).
  { destruct (Q.max_spec (13 # 10) (ef - (15 # 100))) as [[? ->] | [? ->]];
      split; lra. }
  assert (Heasy : ef <= Qmin (25 # 10) (ef + (1 # 10))).
  { destruct (Q.min_spec (25 # 10) (ef + (1 # 10))) as [[? ->] | [? ->]];
      lra. }
  set (hard := Qmax (13 # 10) (ef - (15 # 100))) in *.
  set (easy := Qmin (25 # 10) (ef + (1 # 10))) in *.
  destruct (Z.eqb_spec (repetitions card) 0); [lia|].
  destruct (Z.eqb_spec (repetitions card) 1); [lia|].
  split.
  - apply Z.max_lub.
    + apply Math_round_at_least_one. nra.
    + apply Math_round_monotone. nra.
  - apply Math_round_monotone. nra.
Qed.

(** X3. The scheduling state of a card made by [CardStorage.add] is well
    formed (ease factor in [1.3, 2.5], repetitions and interval not
    negative, an interval of at least a day once a review was passed), every
    review keeps it so, and after a passed review the interval is at least
    one day. *)
Theorem wellScheduled_kept :
  (forall toString36 newCard w,
     wellScheduled (fst (CardStorage_add toString36 newCard w))) /\
  (forall card difficulty responseTime w,
     wellScheduled card ->
     let card' := fst (processReview card difficulty responseTime w) in
     wellScheduled card' /\ (difficulty <> AGAIN -> (1 <= interval card')%Z)).
Proof.
  split.
  - intros toString36 newCard w. unfold wellScheduled.
    unfold CardStorage_add, generateId, CardStorage_getAll, CardStorage_save,
      bind, newDate, Math_random, ret. cbn.
    repeat split; try lia; apply Qle_bool_imp_le; reflexivity.
  - intros card difficulty responseTime w ([Hlo Hhi] & Hr & Hi & Hday).
    cbn zeta. unfold wellScheduled.
    destruct (processReview_scheduling card difficulty responseTime w)
      as (-> & -> & -> & _).
    pose proof (calculateNext_easeFactor_range card difficulty w
                  (conj Hlo Hhi)) as Hrange.
    destruct (calculateNext_fields card difficulty w) as (_ & -> & -> & _).
    pose proof (inject_Z_nonnegative _ Hi) as Hi0.
    set (i := inject_Z (interval card)) in *.
    set (ef := easeFactor card) in *.
    assert (Hhard : 13 # 10 <= Qmax (13 # 10) (ef - (15 # 100))).
    { apply Q.le_max_l. }
    assert (Heasy : ef <= Qmin (25 # 10) (ef + (1 # 10))).
    { destruct (Q.min_spec (25 # 10) (ef + (1 # 10))) as [[? ->] | [? ->]];
        lra. }
    set (hard := Qmax (13 # 10) (ef - (15 # 100))) in *.
    set (easy := Qmin (25 # 10) (ef + (1 # 10))) in *.
    assert (Hlate : (repetitions card <> 0)%Z -> 1 <= i).
    { intros Hne. destruct Hday as [? | Hday]; [contradiction|].
      now apply inject_Z_at_least_one. }
    assert (Hinterval :
      difficulty <> AGAIN ->
      (1 <= match difficulty with
            | AGAIN => 0
            | HARD =>
                if repetitions card =? 0 then 1
                else if repetitions card =? 1 then 2
                else Z.max 1 (Math_round (i * hard * (8 # 10)))
            | GOOD =>
                if repetitions card =? 0 then 1
                else if repetitions card =? 1 then 6
                else Math_round (i * ef)
            | EASY =>
                if repetitions card =? 0 then 4
                else if repetitions card =? 1 then 8
                else Math_round (i * easy * (13 # 10))
            end)%Z).
    { intros Hpassed.
      destruct difficulty; try contradiction;
        destruct (Z.eqb_spec (repetitions card) 0); try lia;
        destruct (Z.eqb_spec (repetitions card) 1); try lia;
        specialize (Hlate ltac:(assumption));
        apply Math_round_at_least_one; nra. }
    split; [|exact Hinterval].
    split; [exact Hrange|].
    destruct difficulty;
      [|specialize (Hinterval ltac:(discriminate))..];
      repeat split; lia.
Qed.

(** X4. A review keeps the counters of a card ordered:
    [0 <= streak <= correctReviews <= totalReviews]. *)
Theorem consistentStats_kept card difficulty responseTime w :
  consistentStats card ->
  consistentStats (fst (processReview card difficulty responseTime w)).
Proof.
  unfold consistentStats. intros [[Hs Hsc] Hct].
  destruct (processReview_statistics card difficulty responseTime w)
    as (-> & -> & ->).
  destruct (negb (Difficulty_eqb difficulty AGAIN)); lia.
Qed.

(** X5. On a card with an ease factor in [1.3, 2.5], "easy" never lowers
    the ease factor and "hard" never raises it; "good" and "again" leave it
    as it is. *)
Theorem processReview_easeFactor_direction card difficulty responseTime w :
  13 # 10 <= easeFactor card <= 25 # 10 ->
  let ef' := easeFactor (fst (processReview card difficulty responseTime w)) in
  match difficulty with
  | EASY => easeFactor card <= ef'
  | HARD => ef' <= easeFactor card
  | GOOD | AGAIN => ef' = easeFactor card
  end.
Proof.
  intros [Hlo Hhi]. cbn zeta.
  destruct (processReview_scheduling card difficulty responseTime w)
    as (-> & _).
  destruct (calculateNext_fields card difficulty w) as (-> & _).
  destruct difficulty; try reflexivity.
  - destruct (Q.max_spec (13 # 10) (easeFactor card - (15 # 100)))
      as [[? ->] | [? ->]]; lra.
  - destruct (Q.min_spec (25 # 10) (easeFactor card + (1 # 10)))
      as [[? ->] | [? ->]]; lra.
Qed.

(** *** The card collection *)

Local Open Scope Z_scope.

Lemma findIndex_Some {A} (pred : A -> bool) l index :
  findIndex pred l = Some index ->
  exists x, l !! index = Some x /\ pred x = true /\
            List.find pred l = Some x /\
            forall j y, (j < index)%nat -> l !! j = Some y -> pred y = false.
Proof.
  revert index. induction l as [|a l IH]; intros index H; [discriminate|].
  cbn in H. destruct (pred a) eqn:Ea.
  - injection H as <-. exists a. cbn. rewrite Ea.
    repeat split. intros j y Hj. lia.
  - destruct (findIndex pred l) as [i|] eqn:Ei; [|discriminate].
    injection H as <-. destruct (IH i eq_refl) as (x & Hx & Hp & Hf & Hmin).
    exists x. cbn. rewrite Ea. repeat split; try assumption.
    intros [|j] y Hj Hy.
    + cbn in Hy. now injection Hy as <-.
    + apply (Hmin j y); [lia | exact Hy].
Qed.

Lemma findIndex_None {A} (pred : A -> bool) l :
  findIndex pred l = None <-> List.find pred l = None.
Proof.
  induction l as [|a l IH]; cbn; [tauto|].
  destruct (pred a); [split; discriminate|].
  destruct (findIndex pred l); cbn.
  - split; [discriminate|]. intros H. apply IH in H. discriminate.
  - split; [|reflexivity]. intros _. now apply IH.
Qed.

(** Replacing the first element that satisfies [pred] by one that does too
    makes it the element [find] returns. *)
Lemma find_insert_first {A} (pred : A -> bool) l index x :
  findIndex pred l = Some index -> pred x = true ->
  List.find pred (<[index := x]> l) = Some x.
Proof.
  revert index. induction l as [|a l IH]; intros index H Hx; [discriminate|].
  cbn in H. destruct (pred a) eqn:Ea.
  - injection H as <-. cbn. now rewrite Hx.
  - destruct (findIndex pred l) as [i|] eqn:Ei; [|discriminate].
    injection H as <-. cbn. rewrite Ea. now apply IH.
Qed.

(** The clock and the stores after [updateDailyStats]: one read, the card
    collection untouched. *)
Lemma updateDailyStats_cards correct responseTime w :
  let w' := snd (updateDailyStats correct responseTime w) in
  hasWindow w' = hasWindow w /\ cardsItem w' = cardsItem w /\
  clock w' = clock w.
Proof.
  unfold updateDailyStats, getTodayString, ProgressStorage_get,
    ProgressStorage_save, bind, newDate, ret.
  cbn. destruct (hasWindow w) eqn:Hw; cbn; rewrite ?Hw; auto.
Qed.

Lemma CardStorage_getAll_state w : snd (CardStorage_getAll w) = w.
Proof. reflexivity. Qed.

(** [CardStorage.update] on an id the collection does not have: [null],
    and nothing is written. *)
Lemma CardStorage_update_missing cardId updates w :
  fst (CardStorage_getById cardId w) = None ->
  CardStorage_update cardId updates w = (None, w).
Proof.
  unfold CardStorage_getById, CardStorage_update, bind, ret. cbn.
  intros H. apply findIndex_None in H. now rewrite H.
Qed.

(** [CardStorage.update] on an id the collection has: the first card with
    that id is replaced in place. *)
Lemma CardStorage_update_found cardId updates w old :
  hasWindow w = true ->
  fst (CardStorage_getById cardId w) = Some old ->
  exists index,
    fst (CardStorage_getAll w) !! index = Some old /\
    findIndex (fun card => String.eqb (id card) cardId)
      (fst (CardStorage_getAll w)) = Some index /\
    let stored := spread_update old updates (clock w (ticks w)) in
    let w' := snd (CardStorage_update cardId updates w) in
    fst (CardStorage_update cardId updates w) = Some stored /\
    fst (CardStorage_getAll w') = <[index := stored]> (fst (CardStorage_getAll w)) /\
    hasWindow w' = true /\ clock w' = clock w /\ ticks w' = S (ticks w).
Proof.
  intros Hw Hfound.
  unfold CardStorage_getById, bind, ret in Hfound. cbn in Hfound.
  unfold CardStorage_update, bind, ret. cbn.
  rewrite Hw in *.
  set (cards := match cardsItem w with Some cards => cards | None => [] end)
    in *.
  destruct (findIndex (fun card => String.eqb (id card) cardId) cards)
    as [index|] eqn:Ei.
  - destruct (findIndex_Some _ _ _ Ei) as (x & Hx & _ & Hf & _).
    rewrite Hfound in Hf. injection Hf as <-.
    exists index. rewrite Hx. cbn. rewrite Hw. cbn. rewrite Hw.
    repeat split.
  - apply findIndex_None in Ei. congruence.
Qed.

Lemma CardStorage_getAll_same w w' :
  hasWindow w' = hasWindow w -> cardsItem w' = cardsItem w ->
  fst (CardStorage_getAll w') = fst (CardStorage_getAll w).
Proof. intros Hw Hc. unfold CardStorage_getAll. cbn. now rewrite Hw, Hc. Qed.

Lemma CardStorage_getById_same cardId w w' :
  hasWindow w' = hasWindow w -> cardsItem w' = cardsItem w ->
  fst (CardStorage_getById cardId w') = fst (CardStorage_getById cardId w).
Proof.
  intros Hw Hc. unfold CardStorage_getById, bind, ret.
  pose proof (CardStorage_getAll_same w w' Hw Hc) as Hall.
  unfold CardStorage_getAll in *. cbn in *. now rewrite Hall.
Qed.

(** X7. When the store has a card with the id of the reviewed card,
    [processReview] replaces the first such card in place: the collection
    keeps its length and its other cards, and [getById] then returns a card
    with the scheduling state and the statistics of the card
    [processReview] returned, stamped with the time of the write. *)
Theorem processReview_persisted card difficulty responseTime w old :
  hasWindow w = true ->
  fst (CardStorage_getById (id card) w) = Some old ->
  let card' := fst (processReview card difficulty responseTime w) in
  let w' := snd (processReview card difficulty responseTime w) in
  exists index stored,
    fst (CardStorage_getAll w) !! index = Some old /\
    fst (CardStorage_getAll w') = <[index := stored]> (fst (CardStorage_getAll w)) /\
    fst (CardStorage_getById (id card) w') = Some stored /\
    id stored = id card /\
    easeFactor stored = easeFactor card' /\
    interval stored = interval card' /\
    repetitions stored = repetitions card' /\
    nextReviewDate stored = nextReviewDate card' /\
    totalReviews stored = totalReviews card' /\
    correctReviews stored = correctReviews card' /\
    streak stored = streak card' /\
    averageResponseTime stored = averageResponseTime card' /\
    updatedAt stored = clock w (ticks w + 2)%nat.
Proof.
  intros Hw Hfound. unfold processReview, bind.
  pose proof (calculateNext_world card difficulty w) as Hcalc.
  destruct (calculateNext card difficulty w) as [result w0].
  cbn [snd] in Hcalc. subst w0. unfold newDate, ret. cbn iota beta zeta.
  match goal with
  | |- context [CardStorage_update ?i ?u ?w0] =>
      destruct (CardStorage_update_found i u w0 old Hw Hfound)
        as (index & Hold & Hidx & Hres & Hall & Hw1 & Hc1 & Ht1);
      destruct (CardStorage_update i u w0) as [r w1]
  end.
  cbn [fst snd] in *.
  match goal with
  | |- context [updateDailyStats ?c ?t w1] =>
      pose proof (updateDailyStats_cards c t w1) as (Hw2 & Hi2 & _);
      destruct (updateDailyStats c t w1) as [u w2]
  end.
  cbn [fst snd] in *.
  eexists index, _. split; [exact Hold|].
  split.
  { rewrite (CardStorage_getAll_same w1 w2 Hw2 Hi2). exact Hall. }
  split.
  { rewrite (CardStorage_getById_same _ w1 w2 Hw2 Hi2).
    unfold CardStorage_getById, bind, ret.
    change (fst (let (a, w') := CardStorage_getAll w1 in
                 (List.find (fun c => String.eqb (id c) (id card)) a, w')))
      with (List.find (fun c => String.eqb (id c) (id card))
              (fst (CardStorage_getAll w1))).
    rewrite Hall.
    apply find_insert_first; [exact Hidx|].
    cbn. apply String.eqb_refl. }
  cbn. replace (ticks w + 2)%nat with (S (S (ticks w))) by lia.
  repeat split.
Qed.

(** X8. When the store has no card with the id of the reviewed card (it
    was deleted meanwhile), [processReview] writes no card: the collection
    reads as before, while the review is still counted in the lifetime
    statistics. *)
Theorem processReview_unknown_card card difficulty responseTime w :
  hasWindow w = true ->
  fst (CardStorage_getById (id card) w) = None ->
  let w' := snd (processReview card difficulty responseTime w) in
  fst (CardStorage_getAll w') = fst (CardStorage_getAll w) /\
  LifetimeStats.totalReviews (lifetimeOf w')
  = (LifetimeStats.totalReviews (lifetimeOf w) + 1)%Z.
Proof.
  intros Hw Hmissing. cbn zeta.
  split; [|now apply (processReview_lifetime card difficulty responseTime w)].
  unfold processReview, bind.
  pose proof (calculateNext_world card difficulty w) as Hcalc.
  destruct (calculateNext card difficulty w) as [result w0].
  cbn [snd] in Hcalc. subst w0. unfold newDate, ret. cbn iota beta zeta.
  match goal with
  | |- context [CardStorage_update ?i ?u ?w0] =>
      rewrite (CardStorage_update_missing i u w0 Hmissing)
  end.
  match goal with
  | |- context [updateDailyStats ?c ?t ?w1] =>
      pose proof (updateDailyStats_cards c t w1) as (Hw2 & Hi2 & _);
      destruct (updateDailyStats c t w1) as [u w2]
  end.
  cbn [fst snd] in *.
  now rewrite (CardStorage_getAll_same _ w2 Hw2 Hi2).
Qed.

(** *** The daily entries *)

Lemma bumpExisting_None today correct responseTime stats :
  bumpExisting today correct responseTime stats = None <->
  Forall (fun s => date s <> today) stats.
Proof.
  induction stats as [|s rest IH]; cbn.
  - split; [constructor | reflexivity].
  - destruct (Z.eqb_spec (date s) today) as [Heq|Hne].
    + split; [discriminate|]. intros H. inversion H. contradiction.
    + destruct (bumpExisting today correct responseTime rest); cbn.
      * split; [discriminate|]. intros H. inversion H as [|? ? _ Hrest].
        apply IH in Hrest. discriminate.
      * split; [|reflexivity]. intros _. constructor; [assumption|].
        now apply IH.
Qed.

Lemma sumOver_cons f s l : sumOver f (s :: l) = f s + sumOver f l.
Proof. reflexivity. Qed.

(** What the bump changes: the dates stay, the sums move by the review. *)
Lemma bumpExisting_Some today correct responseTime stats stats' :
  bumpExisting today correct responseTime stats = Some stats' ->
  List.map date stats' = List.map date stats /\
  sumOver cardsStudied stats' = sumOver cardsStudied stats + 1 /\
  sumOver correctAnswers stats' =
    sumOver correctAnswers stats + (if correct then 1 else 0) /\
  (forall day, day <> today -> entriesOf day stats' = entriesOf day stats) /\
  sumOver cardsStudied (entriesOf today stats') =
    sumOver cardsStudied (entriesOf today stats) + 1 /\
  (Forall (fun s => 0 <= cardsStudied s) stats ->
   Forall (fun s => 0 <= cardsStudied s) stats' /\
   studiedOn stats' today = true).
Proof.
  revert stats'. induction stats as [|s rest IH]; intros stats' H;
    [discriminate|].
  cbn in H. destruct (Z.eqb_spec (date s) today) as [Heq|Hne].
  - injection H as <-. cbn. repeat split; try lia.
    + destruct correct; lia.
    + intros day Hday. unfold entriesOf. cbn.
      destruct (Z.eqb_spec (date s) day); [lia | reflexivity].
    + unfold entriesOf. cbn. rewrite Heq, Z.eqb_refl. cbn. lia.
    + inversion H as [|? ? Hs Hrest]. subst. constructor; [cbn; lia|assumption].
    + inversion H as [|? ? Hs Hrest]. subst. unfold studiedOn. cbn.
      rewrite Z.eqb_refl. cbn.
      replace (0 <? cardsStudied s + 1) with true
        by (symmetry; apply Z.ltb_lt; lia).
      reflexivity.
  - destruct (bumpExisting today correct responseTime rest) as [rest'|];
      [|discriminate].
    injection H as <-.
    destruct (IH rest' eq_refl) as (Hd & Hs & Hc & Ho & Ht & Hn).
    cbn [List.map]. rewrite !sumOver_cons, Hd, Hs, Hc.
    repeat split; try lia.
    + intros day Hday. unfold entriesOf in *. cbn.
      rewrite (Ho day Hday). reflexivity.
    + unfold entriesOf in *. cbn.
      destruct (Z.eqb_spec (date s) today); [contradiction|]. exact Ht.
    + inversion H as [|? ? Hs0 Hrest]. subst.
      constructor; [assumption | now apply Hn].
    + inversion H as [|? ? Hs0 Hrest]. subst.
      destruct (Hn Hrest) as [_ Hst]. unfold studiedOn in *. cbn.
      rewrite Hst. apply orb_true_r.
Qed.

Lemma sumOver_app f l l' : sumOver f (l ++ l') = sumOver f l + sumOver f l'.
Proof.
  induction l as [|x l IH]; [reflexivity|].
  rewrite <- List.app_comm_cons, !sumOver_cons, IH. lia.
Qed.

Lemma entriesOf_none day stats :
  Forall (fun s => date s <> day) stats -> entriesOf day stats = [].
Proof.
  induction 1 as [|s rest Hs _ IH]; cbn; [reflexivity|].
  destruct (Z.eqb_spec (date s) day); [contradiction | exact IH].
Qed.

(** The entries after a review of day [today]. *)
Lemma dailyAfter_spec today correct responseTime stats :
  let stats' := dailyAfter today correct responseTime stats in
  sumOver cardsStudied stats' = sumOver cardsStudied stats + 1 /\
  sumOver correctAnswers stats' =
    sumOver correctAnswers stats + (if correct then 1 else 0) /\
  (forall day, day <> today -> entriesOf day stats' = entriesOf day stats) /\
  sumOver cardsStudied (entriesOf today stats') =
    sumOver cardsStudied (entriesOf today stats) + 1 /\
  (List.NoDup (List.map date stats) -> List.NoDup (List.map date stats')) /\
  (Forall (fun s => date s <= today) stats ->
   Forall (fun s => date s <= today) stats') /\
  (Forall (fun s => 0 <= cardsStudied s) stats ->
   Forall (fun s => 0 <= cardsStudied s) stats' /\
   studiedOn stats' today = true).
Proof.
  unfold dailyAfter.
  destruct (bumpExisting today correct responseTime stats) as [stats'|] eqn:E.
  - destruct (bumpExisting_Some _ _ _ _ _ E) as (Hd & Hs & Hc & Ho & Ht & Hn).
    cbn zeta. repeat split; try assumption; try (now apply Hn).
    + now rewrite Hd.
    + intros Hpast. rewrite List.Forall_forall in *.
      intros s Hin. apply (List.in_map date) in Hin. rewrite Hd in Hin.
      apply List.in_map_iff in Hin as (s0 & <- & Hin0). now apply Hpast.
  - apply bumpExisting_None in E. cbn zeta.
    rewrite !sumOver_app. cbn. repeat split; try lia.
    + intros day Hday. unfold entriesOf. rewrite List.filter_app. cbn.
      destruct (Z.eqb_spec today day); [lia|]. apply List.app_nil_r.
    + unfold entriesOf at 1. rewrite List.filter_app. cbn.
      rewrite Z.eqb_refl. fold (entriesOf today stats).
      rewrite (entriesOf_none today stats E). cbn. lia.
    + intros Hnodup. rewrite List.map_app. cbn.
      apply (Permutation_NoDup (Permutation_cons_append _ today)).
      constructor; [|assumption].
      intros Hin. apply List.in_map_iff in Hin as (s & Hs & Hin).
      rewrite List.Forall_forall in E. now apply (E s Hin).
    + intros Hpast. apply List.Forall_app. split; [assumption|].
      constructor; [cbn; lia | constructor].
    + apply List.Forall_app. split; [assumption|].
      constructor; [cbn; lia | constructor].
    + unfold studiedOn. rewrite List.existsb_app. cbn.
      rewrite Z.eqb_refl. cbn. apply orb_true_r.
Qed.

Lemma updateDailyStats_dailyStats correct responseTime w :
  hasWindow w = true ->
  dailyStats (fst (ProgressStorage_get
                     (snd (updateDailyStats correct responseTime w)))) =
  dailyAfter (formatDate (clock w (ticks w))) correct responseTime
    (dailyStats (fst (ProgressStorage_get w))).
Proof.
  intros Hw.
  unfold updateDailyStats, getTodayString, ProgressStorage_get,
    ProgressStorage_save, bind, newDate, ret, dailyAfter.
  cbn. rewrite Hw. cbn. now rewrite Hw.
Qed.

Lemma CardStorage_update_clock cardId updates w :
  clock (snd (CardStorage_update cardId updates w)) = clock w.
Proof.
  unfold CardStorage_update, CardStorage_getAll, CardStorage_save, bind,
    newDate, ret.
  cbn.
  destruct (findIndex _ _) as [index|]; cbn; [|reflexivity].
  destruct (_ !! index); cbn; [|reflexivity].
  destruct (hasWindow w) eqn:Hw; cbn; rewrite ?Hw; reflexivity.
Qed.

(** The daily entries after [processReview]: those of one review recorded
    on the day of one of the clock readings. *)
Lemma processReview_dailyStats card difficulty responseTime w :
  hasWindow w = true ->
  let w' := snd (processReview card difficulty responseTime w) in
  hasWindow w' = true /\ clock w' = clock w /\
  exists n,
    dailyStats (fst (ProgressStorage_get w')) =
    dailyAfter (formatDate (clock w n))
      (negb (Difficulty_eqb difficulty AGAIN)) responseTime
      (dailyStats (fst (ProgressStorage_get w))).
Proof.
  intros Hw. unfold processReview, bind.
  pose proof (calculateNext_world card difficulty w) as Hcalc.
  destruct (calculateNext card difficulty w) as [result w0].
  cbn [snd] in Hcalc. subst w0. unfold newDate, ret. cbn iota beta zeta.
  match goal with
  | |- context [CardStorage_update ?i ?u ?w0] =>
      pose proof (CardStorage_update_progress i u w0) as [Hw1 Hp1];
      pose proof (CardStorage_update_clock i u w0) as Hc1;
      destruct (CardStorage_update i u w0) as [r w1]
  end.
  cbn in Hw1, Hp1, Hc1. rewrite Hw in Hw1.
  assert (Hprogress : fst (ProgressStorage_get w1) = fst (ProgressStorage_get w)).
  { unfold ProgressStorage_get. cbn. now rewrite Hw1, Hw, Hp1. }
  pose proof (updateDailyStats_dailyStats
                (negb (Difficulty_eqb difficulty AGAIN)) responseTime w1 Hw1)
    as Hdaily.
  pose proof (updateDailyStats_cards
                (negb (Difficulty_eqb difficulty AGAIN)) responseTime w1)
    as (Hw2 & _ & Hc2).
  destruct (updateDailyStats _ responseTime w1) as [u w2].
  cbn [fst snd] in *.
  split; [congruence|]. split; [congruence|].
  exists (ticks w1). rewrite Hdaily, Hprogress, Hc1. reflexivity.
Qed.

(** X9. With the window present, a review adds one to the sum of
    [cardsStudied] over the daily entries and, when passed, one to the sum
    of [correctAnswers]: the same steps the lifetime counters take, so daily
    sums that agree with the lifetime counters before a review agree with
    them after it. *)
Theorem processReview_daily_totals card difficulty responseTime w :
  hasWindow w = true ->
  let progress := fst (ProgressStorage_get w) in
  let progress' :=
    fst (ProgressStorage_get
           (snd (processReview card difficulty responseTime w))) in
  sumOver cardsStudied (dailyStats progress')
  = sumOver cardsStudied (dailyStats progress) + 1 /\
  sumOver correctAnswers (dailyStats progress')
  = sumOver correctAnswers (dailyStats progress)
    + (if Difficulty_eqb difficulty AGAIN then 0 else 1) /\
  (sumOver cardsStudied (dailyStats progress)
   = LifetimeStats.totalReviews (lifetimeStats progress) ->
   sumOver cardsStudied (dailyStats progress')
   = LifetimeStats.totalReviews (lifetimeStats progress')) /\
  (sumOver correctAnswers (dailyStats progress)
   = LifetimeStats.correctReviews (lifetimeStats progress) ->
   sumOver correctAnswers (dailyStats progress')
   = LifetimeStats.correctReviews (lifetimeStats progress')).
Proof.
  intros Hw. cbn zeta.
  destruct (processReview_dailyStats card difficulty responseTime w Hw)
    as (_ & _ & n & Hdaily).
  destruct (processReview_lifetime card difficulty responseTime w Hw)
    as (_ & Ht & Hc & _).
  unfold lifetimeOf in Ht, Hc. cbn zeta in Ht, Hc.
  rewrite Hdaily, Ht, Hc.
  destruct (dailyAfter_spec (formatDate (clock w n))
              (negb (Difficulty_eqb difficulty AGAIN)) responseTime
              (dailyStats (fst (ProgressStorage_get w))))
    as (Hs & Hca & _).
  rewrite Hs, Hca.
  destruct (Difficulty_eqb difficulty AGAIN); cbn; repeat split; lia.
Qed.

(** X10. With the window present and every clock reading on the day
    [today], a review keeps one entry per date, leaves the entries of the
    other days as they are and adds one to the cards studied today. *)
Theorem processReview_daily_entries card difficulty responseTime w today :
  hasWindow w = true ->
  (forall n, formatDate (clock w n) = today) ->
  let stats := dailyStats (fst (ProgressStorage_get w)) in
  let stats' :=
    dailyStats (fst (ProgressStorage_get
                       (snd (processReview card difficulty responseTime w)))) in
  (List.NoDup (List.map date stats) -> List.NoDup (List.map date stats')) /\
  (forall day, day <> today -> entriesOf day stats' = entriesOf day stats) /\
  sumOver cardsStudied (entriesOf today stats')
  = sumOver cardsStudied (entriesOf today stats) + 1.
Proof.
  intros Hw Hday. cbn zeta.
  destruct (processReview_dailyStats card difficulty responseTime w Hw)
    as (_ & _ & n & ->).
  rewrite (Hday n).
  destruct (dailyAfter_spec today
              (negb (Difficulty_eqb difficulty AGAIN)) responseTime
              (dailyStats (fst (ProgressStorage_get w))))
    as (_ & _ & Ho & Ht & Hn & _).
  auto.
Qed.

(** *** The streak, once more *)

Lemma streakLoop_bounds tz stats : forall streak currentDate,
  streak <= streakLoop tz stats streak currentDate
         <= streak + Z.of_nat (length stats).
Proof.
  induction stats as [|s rest IH]; intros streak currentDate; cbn [streakLoop].
  - cbn. lia.
  - destruct ((date s =? formatDate currentDate) && (0 <? cardsStudied s)).
    + specialize (IH (streak + 1) (setDate_plus tz currentDate (-1))).
      cbn [length]. lia.
    + cbn [length]. lia.
Qed.

Lemma streakLoop_not_today tz stats streak currentDate :
  studiedOn stats (formatDate currentDate) = false ->
  streakLoop tz stats streak currentDate = streak.
Proof.
  destruct stats as [|s rest]; [reflexivity|].
  unfold studiedOn. cbn.
  destruct ((date s =? formatDate currentDate) && (0 <? cardsStudied s));
    [discriminate | reflexivity].
Qed.

(** X11. The streak is never negative and never more than the number of
    daily entries, and it is 0 whenever today has no entry with
    [cardsStudied > 0], whatever the days before were: the count starts at
    today, not at the last day studied. *)
Theorem calculateStudyStreak_bounds w :
  let stats := dailyStats (fst (ProgressStorage_get w)) in
  let today := formatDate (clock w (S (ticks w))) in
  0 <= fst (calculateStudyStreak w) <= Z.of_nat (length stats) /\
  (studiedOn stats today = false -> fst (calculateStudyStreak w) = 0).
Proof.
  cbn zeta. rewrite calculateStudyStreak_result.
  set (stats := dailyStats (fst (ProgressStorage_get w))).
  pose proof (sortDesc_Permutation stats) as HP.
  split.
  - pose proof (streakLoop_bounds (timeZone w) (sortDesc stats) 0
                  (clock w (S (ticks w)))).
    rewrite (Permutation_length HP) in *. lia.
  - intros Hnot. apply streakLoop_not_today.
    now rewrite (studiedOn_Permutation _ _ _ HP).
Qed.

(** X12. With the window present, every clock reading on the day [today],
    one entry per date, no entry dated after [today] and no negative
    [cardsStudied], the streak computed after a review is at least 1. *)
Theorem streak_after_review card difficulty responseTime w today :
  hasWindow w = true ->
  (forall n, formatDate (clock w n) = today) ->
  let stats := dailyStats (fst (ProgressStorage_get w)) in
  List.NoDup (List.map date stats) ->
  Forall (fun s => date s <= today) stats ->
  Forall (fun s => 0 <= cardsStudied s) stats ->
  1 <= fst (calculateStudyStreak
              (snd (processReview card difficulty responseTime w))).
Proof.
  intros Hw Hday stats Hnodup Hpast Hnonneg.
  destruct (processReview_dailyStats card difficulty responseTime w Hw)
    as (_ & Hclock & n & Hdaily).
  cbn zeta in Hclock, Hdaily.
  set (w' := snd (processReview card difficulty responseTime w)) in *.
  rewrite calculateStudyStreak_result, Hdaily, Hclock, (Hday n).
  destruct (dailyAfter_spec today
              (negb (Difficulty_eqb difficulty AGAIN)) responseTime stats)
    as (_ & _ & _ & _ & Hn & Hp & Hs).
  fold stats.
  set (stats' := dailyAfter today (negb (Difficulty_eqb difficulty AGAIN))
                   responseTime stats) in *.
  destruct (Hs Hnonneg) as [_ Hstudied].
  pose proof (sortDesc_Permutation stats') as HP.
  pose proof (sortDesc_sorted stats') as Hsorted.
  assert (Hnodup' : List.NoDup (List.map date (sortDesc stats'))).
  { eapply Permutation_NoDup; [|exact (Hn Hnodup)].
    apply Permutation_map, Permutation_sym, HP. }
  assert (Hpast' : Forall (fun s => date s <= today) (sortDesc stats'))
    by (apply (Permutation_Forall (Permutation_sym HP)); exact (Hp Hpast)).
  rewrite (studiedOn_Permutation _ _ _ (Permutation_sym HP)) in Hstudied.
  destruct (sortDesc stats') as [|s rest]; [discriminate|].
  destruct (sorted_head s rest today Hsorted Hnodup' Hpast' Hstudied)
    as (Hs' & Hcount & _).
  cbn [streakLoop]. rewrite (Hday _).
  replace (date s =? today) with true by (symmetry; apply Z.eqb_eq; exact Hs').
  replace (0 <? cardsStudied s) with true
    by (symmetry; apply Z.ltb_lt; exact Hcount).
  cbn [andb].
  pose proof (streakLoop_bounds (timeZone w') rest (0 + 1)
                (setDate_plus (timeZone w') (clock w (S (ticks w'))) (-1))).
  lia.
Qed.

(** *** The study queue, in general *)

Lemma In_firstn {A} n (l : list A) x : In x (firstn n l) -> In x l.
Proof.
  intros H. rewrite <- (firstn_skipn n l). apply in_or_app. now left.
Qed.

Lemma In_capAt {A} maxCards (l : list A) x : In x (capAt maxCards l) -> In x l.
Proof.
  unfold capAt, slice0. destruct maxCards as [n|]; [|auto].
  destruct (truthyZ n); [|auto].
  destruct (n <? 0)%Z; apply In_firstn.
Qed.

Lemma getDueCards_shuffled maxCards w :
  exists shuffled,
    Permutation shuffled (fst (CardStorage_getDueCards w)) /\
    fst (getDueCards maxCards w) = capAt maxCards shuffled.
Proof.
  unfold getDueCards, bind, shuffleArray.
  destruct (CardStorage_getDueCards w) as [all w0]. cbn [fst].
  pose proof (shuffleFrom_Permutation (length all - 1) all w0) as HP.
  destruct (shuffleFrom (length all - 1) all w0) as [sh w1].
  exists sh. split; [exact HP | reflexivity].
Qed.

Lemma getNewCards_shuffled maxCards w :
  exists shuffled,
    Permutation shuffled (fst (CardStorage_getNewCards w)) /\
    fst (getNewCards maxCards w) = capAt maxCards shuffled.
Proof.
  unfold getNewCards, bind, shuffleArray.
  destruct (CardStorage_getNewCards w) as [all w0]. cbn [fst].
  pose proof (shuffleFrom_Permutation (length all - 1) all w0) as HP.
  destruct (shuffleFrom (length all - 1) all w0) as [sh w1].
  exists sh. split; [exact HP | reflexivity].
Qed.

Lemma CardStorage_getDueCards_In w c :
  In c (fst (CardStorage_getDueCards w)) <->
  In c (fst (CardStorage_getAll w)) /\ nextReviewDate c <= clock w (ticks w).
Proof.
  unfold CardStorage_getDueCards, bind, newDate, ret. cbn.
  rewrite List.filter_In, Z.leb_le. reflexivity.
Qed.

Lemma CardStorage_getNewCards_In w c :
  In c (fst (CardStorage_getNewCards w)) <->
  In c (fst (CardStorage_getAll w)) /\ repetitions c = 0.
Proof.
  unfold CardStorage_getNewCards, bind, ret. cbn.
  rewrite List.filter_In, Z.eqb_eq. reflexivity.
Qed.

Lemma getDueCards_In maxCards w c :
  In c (fst (getDueCards maxCards w)) ->
  In c (fst (CardStorage_getAll w)) /\ nextReviewDate c <= clock w (ticks w).
Proof.
  destruct (getDueCards_shuffled maxCards w) as (due & Pdue & ->).
  intros Hin. apply In_capAt in Hin.
  apply CardStorage_getDueCards_In. now apply (Permutation_in _ Pdue).
Qed.

(** X13. [getDueCards] returns stored cards that are due at the time it
    reads, and [getNewCards] stored cards with no repetition; with a
    positive cap each returns as many cards as there are, up to the cap. *)
Theorem getDueCards_getNewCards_sound maxCards w :
  (forall c, In c (fst (getDueCards maxCards w)) ->
     In c (fst (CardStorage_getAll w)) /\
     nextReviewDate c <= clock w (ticks w)) /\
  (forall c, In c (fst (getNewCards maxCards w)) ->
     In c (fst (CardStorage_getAll w)) /\ repetitions c = 0) /\
  (forall n, maxCards = Some n -> 0 < n ->
     length (fst (getDueCards maxCards w)) =
       Nat.min (Z.to_nat n) (length (fst (CardStorage_getDueCards w))) /\
     length (fst (getNewCards maxCards w)) =
       Nat.min (Z.to_nat n) (length (fst (CardStorage_getNewCards w)))).
Proof.
  split; [exact (getDueCards_In maxCards w)|].
  destruct (getDueCards_shuffled maxCards w) as (due & Pdue & ->).
  destruct (getNewCards_shuffled maxCards w) as (new & Pnew & ->).
  split.
  - intros c Hin. apply In_capAt in Hin.
    apply CardStorage_getNewCards_In. now apply (Permutation_in _ Pnew).
  - intros n -> Hn. unfold capAt, slice0, truthyZ.
    destruct (Z.eqb_spec n 0); [lia|]. cbn [negb].
    destruct (Z.ltb_spec n 0); [lia|].
    rewrite !length_firstn.
    now rewrite (Permutation_length Pdue), (Permutation_length Pnew).
Qed.

(** X14. A cap of 0, like a cap left out, is no cap: [getDueCards] then
    returns all the due cards and [getNewCards] all the new cards, in some
    order. *)
Theorem getDueCards_getNewCards_uncapped maxCards w :
  maxCards = Some 0 \/ maxCards = None ->
  Permutation (fst (getDueCards maxCards w))
              (fst (CardStorage_getDueCards w)) /\
  Permutation (fst (getNewCards maxCards w))
              (fst (CardStorage_getNewCards w)).
Proof.
  intros Hcap.
  destruct (getDueCards_shuffled maxCards w) as (due & Pdue & ->).
  destruct (getNewCards_shuffled maxCards w) as (new & Pnew & ->).
  destruct Hcap as [-> | ->]; cbn; auto.
Qed.

Lemma lookup_In {A} (l : list A) i x : l !! i = Some x -> In x l.
Proof. intros H. apply list_elem_of_In. now apply list_elem_of_lookup_2 with i. Qed.

Lemma interleaveStep_In dueCards newCards i queue c :
  In c (interleaveStep dueCards newCards i queue) ->
  In c queue \/ In c dueCards \/ In c newCards.
Proof.
  unfold interleaveStep.
  destruct (i <? length dueCards)%nat; cbn [andb];
    [destruct (i + 1 <? length dueCards)%nat|];
    destruct (i <? length newCards)%nat;
    repeat match goal with
           | |- context [?l !! ?j] =>
               let E := fresh "E" in
               destruct (l !! j) eqn:E; [apply lookup_In in E|]
           end;
    rewrite ?List.in_app_iff; cbn; intuition (subst; auto).
Qed.

Lemma interleaveLoop_In dueCards newCards n : forall i queue c,
  In c (interleaveLoop dueCards newCards n i queue) ->
  In c queue \/ In c dueCards \/ In c newCards.
Proof.
  induction n as [|n IH]; intros i queue c H; cbn in H; [auto|].
  apply IH in H as [H | H]; [|auto].
  now apply interleaveStep_In in H.
Qed.

(** X15. Every entry of the study queue is a stored card that is due at
    the time read or has no repetition; with no due card and no new card
    the queue is empty. *)
Theorem getStudyQueue_sound maxNewCards maxReviews w :
  (forall c, In c (fst (getStudyQueue maxNewCards maxReviews w)) ->
     In c (fst (CardStorage_getAll w)) /\
     (nextReviewDate c <= clock w (ticks w) \/ repetitions c = 0)) /\
  (fst (CardStorage_getDueCards w) = [] ->
   fst (CardStorage_getNewCards w) = [] ->
   fst (getStudyQueue maxNewCards maxReviews w) = []).
Proof.
  unfold getStudyQueue, bind.
  set (reviews := Some match maxReviews with Some n => n | None => 50 end).
  set (news := Some match maxNewCards with Some n => n | None => 10 end).
  pose proof (getDueCards_In reviews w) as Hdue.
  pose proof (getDueCards_store reviews w) as Hstore.
  destruct (getDueCards_shuffled reviews w) as (shDue & PshDue & EDue).
  destruct (getDueCards reviews w) as [due w1]. cbn [fst snd] in *.
  destruct (getNewCards_shuffled news w1) as (shNew & PshNew & ENew).
  rewrite Hstore in PshNew.
  destruct (getNewCards news w1) as [new w2]. cbn [fst snd ret] in *.
  split.
  - intros c Hin. unfold interleave in Hin.
    apply interleaveLoop_In in Hin as [[] | [Hin | Hin]].
    + destruct (Hdue c Hin). auto.
    + rewrite ENew in Hin. apply In_capAt in Hin.
      apply (Permutation_in _ PshNew) in Hin.
      apply CardStorage_getNewCards_In in Hin as [? ?]. auto.
  - intros HnoDue HnoNew. rewrite HnoDue in PshDue. rewrite HnoNew in PshNew.
    apply Permutation_sym, Permutation_nil in PshDue.
    apply Permutation_sym, Permutation_nil in PshNew.
    subst shDue shNew.
    assert (Hd : due = []).
    { rewrite EDue. destruct (capAt reviews []) as [|x l] eqn:E;
        [reflexivity|].
      assert (Hx : In x (capAt reviews [])) by (rewrite E; now left).
      now apply In_capAt in Hx. }
    assert (Hn : new = []).
    { rewrite ENew. destruct (capAt news []) as [|x l] eqn:E;
        [reflexivity|].
      assert (Hx : In x (capAt news [])) by (rewrite E; now left).
      now apply In_capAt in Hx. }
    now rewrite Hd, Hn.
Qed.

Lemma interleaveStep_length dueCards newCards i queue :
  length (interleaveStep dueCards newCards i queue) =
  (length queue
   + (if (i <? length dueCards)%nat then 1 else 0)
   + (if (i + 1 <? length dueCards)%nat then 1 else 0)
   + (if (i <? length newCards)%nat then 1 else 0))%nat.
Proof.
  unfold interleaveStep.
  destruct (Nat.ltb_spec i (length dueCards)) as [Hd|Hd];
    destruct (Nat.ltb_spec (i + 1) (length dueCards)) as [Hd1|Hd1];
    destruct (Nat.ltb_spec i (length newCards)) as [Hn|Hn];
    cbn [andb]; try lia;
    repeat match goal with
           | H : (?j < length ?l)%nat |- context [?l !! ?j] =>
               let x := fresh "x" in
               destruct (lookup_lt_is_Some_2 l j H) as [x ->]
           end;
    rewrite ?List.length_app; cbn [length]; lia.
Qed.

Lemma interleaveLoop_length dueCards newCards n : forall i queue,
  (length (interleaveLoop dueCards newCards n i queue)
   + (Nat.min i (length dueCards) + Nat.min i (pred (length dueCards))
      + Nat.min i (length newCards)) =
   length queue
   + (Nat.min (i + n) (length dueCards)
      + Nat.min (i + n) (pred (length dueCards))
      + Nat.min (i + n) (length newCards)))%nat.
Proof.
  induction n as [|n IH]; intros i queue; cbn [interleaveLoop].
  - rewrite Nat.add_0_r. lia.
  - specialize (IH (S i) (interleaveStep dueCards newCards i queue)).
    rewrite interleaveStep_length in IH.
    replace (S i + n)%nat with (i + S n)%nat in IH by lia.
    destruct (Nat.ltb_spec i (length dueCards));
      destruct (Nat.ltb_spec (i + 1) (length dueCards));
      destruct (Nat.ltb_spec i (length newCards)); lia.
Qed.

Lemma interleaveLoop_no_due newCards n : forall i queue,
  interleaveLoop [] newCards n i queue = queue ++ firstn n (skipn i newCards).
Proof.
  induction n as [|n IH]; intros i queue; cbn [interleaveLoop].
  - cbn. now rewrite List.app_nil_r.
  - rewrite IH. unfold interleaveStep.
    change (length (@nil Flashcard)) with 0%nat.
    destruct (Nat.ltb_spec i 0); [lia|]. cbn [andb].
    destruct (Nat.ltb_spec i (length newCards)) as [Hn|Hn].
    + destruct (lookup_lt_is_Some_2 newCards i Hn) as [x Hx]. rewrite Hx.
      rewrite (drop_S newCards x i Hx). cbn. now rewrite <- List.app_assoc.
    + rewrite !drop_ge by lia. now rewrite !firstn_nil.
Qed.

(** X16. Interleaving [d] due cards with [n] new cards gives a queue of
    [d + (d - 1) + n] entries when there is a due card: each turn appends
    [due[i]] and [due[i + 1]]. With no due card the queue is the list of new
    cards as it is. *)
Theorem interleave_length dueCards newCards :
  length (interleave dueCards newCards) =
    (length dueCards + pred (length dueCards) + length newCards)%nat /\
  interleave [] newCards = newCards.
Proof.
  unfold interleave. split.
  - pose proof (interleaveLoop_length dueCards newCards
                  (Nat.max (length dueCards) (length newCards)) 0 []) as H.
    cbn [length] in H. lia.
  - rewrite interleaveLoop_no_due. cbn. apply firstn_all.
Qed.

(** *** Deleting and adding cards *)

Lemma find_all_false {A} (pred : A -> bool) l :
  (forall x, In x l -> pred x = false) -> List.find pred l = None.
Proof.
  induction l as [|a l IH]; intros H; cbn; [reflexivity|].
  rewrite (H a) by now left. apply IH. intros x Hx. apply H. now right.
Qed.

Lemma find_app_stdlib {A} (pred : A -> bool) l l' :
  List.find pred (l ++ l') =
  match List.find pred l with
  | Some x => Some x
  | None => List.find pred l'
  end.
Proof.
  induction l as [|a l IH]; cbn; [reflexivity|].
  destruct (pred a); [reflexivity | exact IH].
Qed.

(** X17. [CardStorage.delete] on an id the collection does not have
    returns [false] and writes nothing. On an id it has, with the window
    present, it returns [true] and removes the first card with that id,
    keeping the others in order; when the ids of the collection are
    distinct, [getById] no longer finds the id. *)
Theorem CardStorage_delete_spec cardId w :
  (fst (CardStorage_getById cardId w) = None ->
   CardStorage_delete cardId w = (false, w)) /\
  (forall old,
     hasWindow w = true ->
     fst (CardStorage_getById cardId w) = Some old ->
     let cards := fst (CardStorage_getAll w) in
     let w' := snd (CardStorage_delete cardId w) in
     fst (CardStorage_delete cardId w) = true /\
     exists index,
       cards !! index = Some old /\
       fst (CardStorage_getAll w') = firstn index cards ++ skipn (S index) cards /\
       S (length (fst (CardStorage_getAll w'))) = length cards /\
       (List.NoDup (List.map id cards) ->
        fst (CardStorage_getById cardId w') = None)).
Proof.
  unfold CardStorage_getById, CardStorage_delete, bind, ret. cbn. split.
  - intros H. apply findIndex_None in H. now rewrite H.
  - intros old Hw Hfound. rewrite Hw in *.
    set (cards := match cardsItem w with Some cards => cards | None => [] end)
      in *.
    destruct (findIndex (fun card => String.eqb (id card) cardId) cards)
      as [index|] eqn:Ei;
      [|apply findIndex_None in Ei; congruence].
    destruct (findIndex_Some _ _ _ Ei) as (x & Hx & Hp & Hf & _).
    rewrite Hfound in Hf. injection Hf as <-.
    cbn. rewrite Hw. cbn. rewrite Hw. split; [reflexivity|].
    exists index. split; [exact Hx|]. split; [reflexivity|].
    pose proof (take_drop_middle cards index old Hx) as Hmid.
    split.
    + unfold splice1. rewrite <- Hmid at 3.
      rewrite !List.length_app. cbn [length]. lia.
    + intros Hnodup. unfold splice1. apply find_all_false.
      intros y Hy. apply String.eqb_neq. intros Hid.
      rewrite <- Hmid, List.map_app in Hnodup. cbn [List.map] in Hnodup.
      apply List.NoDup_remove_2 in Hnodup. apply Hnodup.
      apply String.eqb_eq in Hp. rewrite Hp, <- Hid, <- List.map_app.
      now apply List.in_map.
Qed.

(** X18. With the window present, [CardStorage.add] makes the collection
    one card longer; [getById] with the id of the new card returns, when no
    older card has that id, a card with the id, the dates, the scheduling
    state and the statistics of the new card; and for every other id it
    returns what it returned before. *)
Theorem CardStorage_add_getById toString36 newCard w :
  hasWindow w = true ->
  let card' := fst (CardStorage_add toString36 newCard w) in
  let w' := snd (CardStorage_add toString36 newCard w) in
  length (fst (CardStorage_getAll w')) = S (length (fst (CardStorage_getAll w))) /\
  (fst (CardStorage_getById (id card') w) = None ->
   exists stored,
     fst (CardStorage_getById (id card') w') = Some stored /\
     readsBackAs stored card') /\
  (forall cardId, cardId <> id card' ->
     fst (CardStorage_getById cardId w') = fst (CardStorage_getById cardId w)).
Proof.
  intros Hw.
  unfold CardStorage_add, CardStorage_getById, generateId, CardStorage_getAll,
    CardStorage_save, bind, newDate, Math_random, ret.
  cbn. rewrite Hw. cbn. rewrite Hw.
  set (cards := match cardsItem w with Some cards => cards | None => [] end).
  split; [rewrite List.length_app; cbn; lia|].
  split.
  - intros Hfresh. rewrite find_app_stdlib, Hfresh. cbn.
    rewrite String.eqb_refl. eexists. split; [reflexivity|]. repeat split.
  - intros cardId Hne. rewrite find_app_stdlib.
    destruct (List.find _ cards); [reflexivity|]. cbn.
    destruct (String.eqb_spec
                (String.append
                   (toString36 (inject_Z (clock w (ticks w))))
                   (substr2 (toString36 (random w (draws w))))) cardId);
      [congruence | reflexivity].
Qed.

(** *** The analytics *)

Local Open Scope Q_scope.

(** A ratio of two counts against a fraction, in integers. *)
Lemma ratio_below (c t k : Z) (m : positive) :
  (0 < t)%Z ->
  (Qltb (inject_Z c / inject_Z t) (k # m) = true <-> (c * Zpos m < k * t)%Z).
Proof.
  intros Ht. unfold Qltb. rewrite negb_true_iff.
  rewrite <- not_true_iff_false, Qle_bool_iff.
  destruct t as [|p|p]; try lia.
  unfold Qle, Qdiv, Qmult, Qinv, inject_Z. cbn. nia.
Qed.

Lemma ratio_above (c t k : Z) (m : positive) :
  (0 < t)%Z ->
  (Qltb (k # m) (inject_Z c / inject_Z t) = true <-> (k * t < c * Zpos m)%Z).
Proof.
  intros Ht. unfold Qltb. rewrite negb_true_iff.
  rewrite <- not_true_iff_false, Qle_bool_iff.
  destruct t as [|p|p]; try lia.
  unfold Qle, Qdiv, Qmult, Qinv, inject_Z. cbn. nia.
Qed.

Lemma Math_round_upper x z : x + (1 # 2) <= inject_Z z -> (Math_round x <= z)%Z.
Proof.
  intros H. unfold Math_round. rewrite <- (Qfloor_Z z).
  now apply Qfloor_resp_le.
Qed.

Lemma Math_round_lower x z : inject_Z z <= x + (1 # 2) -> (z <= Math_round x)%Z.
Proof.
  intros H. unfold Math_round. rewrite <- (Qfloor_Z z) at 1.
  now apply Qfloor_resp_le.
Qed.

(** X19. For a card with an interval that is not negative,
    [getOptimalInterval] returns the interval itself when 60% to 90% of the
    reviews were correct; below 60%, and for a card never reviewed, it
    returns a value between 1 and the larger of 1 and the interval; above
    90% it returns at least the interval. *)
Theorem getOptimalInterval_spec card :
  (0 <= interval card)%Z ->
  let total := totalReviews card in
  let correct := correctReviews card in
  let optimal := getOptimalInterval card in
  ((total <= 0 \/ 10 * correct < 6 * total)%Z ->
   (1 <= optimal <= Z.max 1 (interval card))%Z) /\
  ((0 < total /\ 6 * total <= 10 * correct <= 9 * total)%Z ->
   optimal = interval card) /\
  ((0 < total /\ 9 * total < 10 * correct)%Z ->
   (interval card <= optimal)%Z).
Proof.
  intros Hi. cbn zeta. unfold getOptimalInterval. cbn zeta.
  pose proof (inject_Z_nonnegative _ Hi) as Hq.
  assert (Hhalf : (1 <= Z.max 1 (Math_round (inject_Z (interval card) * (5 # 10)))
                   <= Z.max 1 (interval card))%Z).
  { split; [lia|]. apply Z.max_lub; [lia|].
    destruct (Z.eq_dec (interval card) 0%Z) as [-> | Hne];
      [apply Z.leb_le; reflexivity|].
    apply Z.le_trans with (interval card); [|lia].
    apply Math_round_upper.
    pose proof (inject_Z_at_least_one (interval card) ltac:(lia)). lra. }
  assert (Hmore : (interval card
                   <= Math_round (inject_Z (interval card) * (12 # 10)))%Z).
  { apply Math_round_lower. lra. }
  destruct (Z.ltb_spec 0%Z (totalReviews card)) as [Ht|Ht].
  - pose proof (ratio_below (correctReviews card) (totalReviews card) 6 10 Ht)
      as Hlow.
    pose proof (ratio_above (correctReviews card) (totalReviews card) 9 10 Ht)
      as Hhigh.
    destruct (Qltb (inject_Z (correctReviews card)
                    / inject_Z (totalReviews card)) (6 # 10)) eqn:Elow.
    + assert (correctReviews card * 10 < 6 * totalReviews card)%Z
        by now apply Hlow.
      repeat split; try lia.
    + assert (~ (correctReviews card * 10 < 6 * totalReviews card)%Z)
        by (intros H; apply Hlow in H; discriminate).
      destruct (Qltb (9 # 10) (inject_Z (correctReviews card)
                               / inject_Z (totalReviews card))) eqn:Ehigh.
      * assert (9 * totalReviews card < correctReviews card * 10)%Z
          by now apply Hhigh.
        repeat split; try lia.
      * assert (~ (9 * totalReviews card < correctReviews card * 10)%Z)
          by (intros H'; apply Hhigh in H'; discriminate).
        repeat split; try lia.
  - change (Qltb 0 (6 # 10)) with true. cbn iota.
    repeat split; try lia.
Qed.

(** X20. [suggestDifficulty] never suggests "again"; it suggests "easy"
    only for a card never reviewed or with more than 90% of its reviews
    correct; and for a card without a stored average the limits are those of
    the default of 5 seconds: more than 10 seconds is "hard". *)
Theorem suggestDifficulty_spec card responseTime :
  let suggestion := suggestDifficulty card responseTime in
  suggestion <> AGAIN /\
  (suggestion = EASY ->
   (totalReviews card <= 0 \/ 9 * totalReviews card < 10 * correctReviews card)%Z) /\
  (averageResponseTime card = None -> 10 < responseTime -> suggestion = HARD).
Proof.
  cbn zeta. unfold suggestDifficulty. cbn zeta. split; [|split].
  - split_branches; discriminate.
  - destruct (Qltb _ responseTime); [discriminate|].
    destruct (Qltb responseTime _); cbn [andb]; [|discriminate].
    destruct (Z.ltb_spec 0%Z (totalReviews card)) as [Ht|Ht].
    + destruct (Qltb (9 # 10) _) eqn:E; [|discriminate].
      apply (ratio_above _ _ 9 10 Ht) in E. intros _. lia.
    + intros _. lia.
  - intros -> Hslow.
    replace (Qltb (5 * 2) responseTime) with true; [reflexivity|].
    symmetry. unfold Qltb. apply negb_true_iff, not_true_iff_false.
    rewrite Qle_bool_iff. lra.
Qed.

(** X21. In the statistics of [getQueueStats] the total count is the size
    of the collection, the due count and the new count are at most the
    total count, the average ease factor is 2.5 for an empty collection and
    the ease factor of the card for a collection of one card. *)
Theorem getQueueStats_spec w :
  let stats := fst (getQueueStats w) in
  let cards := fst (CardStorage_getAll w) in
  QueueStats.totalCards stats = length cards /\
  (QueueStats.dueCount stats <= QueueStats.totalCards stats)%nat /\
  (QueueStats.newCount stats <= QueueStats.totalCards stats)%nat /\
  (cards = [] -> QueueStats.averageEaseFactor stats = 25 # 10) /\
  (forall card, cards = [card] ->
     QueueStats.averageEaseFactor stats == easeFactor card).
Proof.
  unfold getQueueStats, CardStorage_getDueCards, CardStorage_getNewCards,
    CardStorage_getAll, bind, newDate, ret.
  cbn.
  set (cards := if hasWindow w
                then match cardsItem w with Some cs => cs | None => [] end
                else []).
  split; [reflexivity|].
  split; [apply List.filter_length_le|].
  split; [apply List.filter_length_le|].
  split.
  - intros ->. reflexivity.
  - intros card ->. unfold totalEase. cbn. field.
Qed.

(** *** Patching the entry of a day *)

Local Open Scope Z_scope.

(** The list around the element [findIndex] points at. *)
Lemma findIndex_split {A} (pred : A -> bool) l index x new :
  findIndex pred l = Some index ->
  l !! index = Some x ->
  exists before after,
    l = before ++ x :: after /\
    <[index := new]> l = before ++ new :: after /\
    pred x = true /\
    List.forallb (fun y => negb (pred y)) before = true.
Proof.
  revert index. induction l as [|a l IH]; intros index H Hx; [discriminate|].
  cbn in H. destruct (pred a) eqn:Ea.
  - injection H as <-. cbn in Hx. injection Hx as ->.
    exists [], l. repeat split. exact Ea.
  - destruct (findIndex pred l) as [i|] eqn:Ei; [|discriminate].
    injection H as <-. cbn in Hx.
    destruct (IH i eq_refl Hx) as (l1 & l2 & -> & Hins & Hp & Hall).
    exists (a :: l1), l2.
    change (<[S i := new]> (a :: l1 ++ x :: l2))
      with (a :: <[i := new]> (l1 ++ x :: l2)).
    rewrite Hins. cbn. rewrite Ea, Hall. repeat split. exact Hp.
Qed.

Lemma find_skip {A} (pred : A -> bool) before rest :
  List.forallb (fun y => negb (pred y)) before = true ->
  List.find pred (before ++ rest) = List.find pred rest.
Proof.
  induction before as [|a l IH]; cbn; [reflexivity|].
  destruct (pred a); cbn; [discriminate|]. exact IH.
Qed.

Lemma filter_skip {A} (pred : A -> bool) before rest :
  List.forallb (fun y => negb (pred y)) before = true ->
  List.filter pred (before ++ rest) = List.filter pred rest.
Proof.
  induction before as [|a l IH]; cbn; [reflexivity|].
  destruct (pred a); cbn; [discriminate|]. exact IH.
Qed.

Lemma find_None_filter {A} (pred : A -> bool) l :
  List.find pred l = None -> List.filter pred l = [].
Proof.
  induction l as [|a l IH]; cbn; [reflexivity|].
  destruct (pred a); [discriminate|]. exact IH.
Qed.

(** X22. With the window present and a patch that carries no date,
    [ProgressStorage.updateDailyStats(day, stats)] stores a progress in
    which the first entry of [day] is the previous first entry of that day
    (or, when the day had none, the entry with all counters 0) overridden
    by the patch; the entries of every other day are the same; the day has
    as many entries as before, and one when it had none; and every other
    part of the progress is as it was read. *)
Theorem ProgressStorage_updateDailyStats_spec day stats w :
  hasWindow w = true ->
  DailyPatch.date stats = None ->
  let before := fst (ProgressStorage_get w) in
  let after :=
    fst (ProgressStorage_get
           (snd (ProgressStorage_updateDailyStats day stats w))) in
  List.find (fun s => date s =? day) (dailyStats after)
  = Some (spread_stats
            (default (emptyStats day)
               (List.find (fun s => date s =? day) (dailyStats before)))
            stats) /\
  (forall other, other <> day ->
     entriesOf other (dailyStats after) = entriesOf other (dailyStats before)) /\
  length (entriesOf day (dailyStats after))
  = Nat.max 1 (length (entriesOf day (dailyStats before))) /\
  lifetimeStats after = lifetimeStats before /\
  (totalCards after, cardsLearned after, cardsDue after, streakDays after,
   totalStudyTime after, lastStudyDate after)
  = (totalCards before, cardsLearned before, cardsDue before,
     streakDays before, totalStudyTime before, lastStudyDate before).
Proof.
  intros Hw Hdate. cbn zeta.
  unfold ProgressStorage_updateDailyStats, bind, ProgressStorage_save,
    ProgressStorage_get.
  rewrite Hw. cbn [fst snd hasWindow set_progressItem progressItem].
  rewrite Hw.
  set (progress := match progressItem w with
                   | Some p => p
                   | None => defaultProgress
                   end).
  cbn [dailyStats lifetimeStats totalCards cardsLearned cardsDue streakDays
       totalStudyTime lastStudyDate].
  assert (Hkept : forall base, date (spread_stats base stats) = date base).
  { intros base. unfold spread_stats. cbn. now rewrite Hdate. }
  destruct (findIndex (fun s => date s =? day) (dailyStats progress))
    as [index|] eqn:Hindex.
  - destruct (findIndex_Some _ _ _ Hindex) as (x & Hx & _ & Hfind & _).
    rewrite Hx.
    destruct (findIndex_split _ _ _ _ (spread_stats x stats) Hindex Hx)
      as (l1 & l2 & Hl & Hins & Hp & Hall).
    rewrite Hins, Hfind. cbv [default from_option Datatypes.id]. rewrite Hl.
    assert (Hp' : (date (spread_stats x stats) =? day) = true)
      by now rewrite Hkept.
    repeat split.
    + rewrite find_skip by exact Hall. cbn [List.find]. now rewrite Hp'.
    + intros other Hother. unfold entriesOf.
      rewrite !List.filter_app. cbn [List.filter]. rewrite Hkept.
      destruct (Z.eqb_spec (date x) other) as [E|_]; [|reflexivity].
      apply Z.eqb_eq in Hp. congruence.
    + unfold entriesOf. rewrite !filter_skip by exact Hall.
      cbn [List.filter]. rewrite Hp', Hp. cbn [length]. lia.
  - apply findIndex_None in Hindex. rewrite Hindex.
    cbv [default from_option Datatypes.id].
    assert (Hp' : (date (spread_stats (emptyStats day) stats) =? day) = true).
    { rewrite Hkept. cbn [date emptyStats]. apply Z.eqb_refl. }
    repeat split.
    + rewrite find_app_stdlib, Hindex. cbn [List.find]. now rewrite Hp'.
    + intros other Hother. unfold entriesOf.
      rewrite List.filter_app. cbn [List.filter]. rewrite Hkept.
      cbn [date emptyStats].
      destruct (Z.eqb_spec day other) as [E|_]; [congruence|].
      apply List.app_nil_r.
    + unfold entriesOf. rewrite List.filter_app.
      rewrite (find_None_filter _ _ Hindex). cbn [List.filter app].
      now rewrite Hp'.
Qed.

(** *** The further properties at concrete inputs *)

Local Open Scope Z_scope.

(** A second "good" review at noon in New York, two days before the clocks
    go back: the interval is 6 days and the next review is at noon local
    time six days on, which is 6 days and one hour later. *)
Lemma processReview_passed_witness :
  let w := Sample.worldIn Sample.newYork (99 # 100) Sample.beforeChange in
  let card' := fst (processReview (Sample.card "a" 1 0) GOOD (4 # 1) w) in
  GOOD <> AGAIN /\
  validTime (UTC Sample.newYork
               (LocalTime Sample.newYork Sample.beforeChange
                + interval card' * 86400000)) /\
  interval card' = 6 /\
  repetitions card' = 2 /\
  nextReviewDate card' = Sample.beforeChange + 6 * 86400000 + 3600000.
Proof.
  cbn zeta.
  assert (H : GOOD <> AGAIN) by discriminate.
  assert (Hvalid :
    validTime (UTC Sample.newYork
                 (LocalTime Sample.newYork Sample.beforeChange
                  + interval
                      (fst (processReview (Sample.card "a" 1 0) GOOD (4 # 1)
                              (Sample.worldIn Sample.newYork (99 # 100)
                                 Sample.beforeChange)))
                    * 86400000)))
    by (split; discriminate).
  split; [exact H|]. split; [exact Hvalid|]. split; [reflexivity|].
  pose proof (processReview_passed (Sample.card "a" 1 0) GOOD (4 # 1)
                (Sample.worldIn Sample.newYork (99 # 100) Sample.beforeChange)
                H Hvalid) as (Hreps & Hnext & _).
  split; [exact Hreps | exact Hnext].
Defined.

Lemma processReview_grades_ordered_witness :
  let card := Sample.reviewCard (25 # 10) 10 3 in
  let w := Sample.worldAt 1000 in
  (13 # 10 <= easeFactor card <= 25 # 10)%Q /\
  1 <= interval card /\
  interval (fst (processReview card HARD (4 # 1) w))
  <= interval (fst (processReview card GOOD (4 # 1) w))
  <= interval (fst (processReview card EASY (4 # 1) w)).
Proof.
  cbn zeta.
  assert (H : (13 # 10 <= easeFactor (Sample.reviewCard (25 # 10) 10 3)
               <= 25 # 10)%Q)
    by (split; apply Qle_bool_imp_le; reflexivity).
  assert (Hdays : 1 <= interval (Sample.reviewCard (25 # 10) 10 3))
    by discriminate.
  split; [exact H|]. split; [exact Hdays|].
  exact (processReview_grades_ordered (Sample.reviewCard (25 # 10) 10 3)
           (4 # 1) (Sample.worldAt 1000) H Hdays).
Defined.

Lemma consistentStats_kept_witness :
  consistentStats (Sample.card "a" 3 0) /\
  consistentStats (fst (processReview (Sample.card "a" 3 0) AGAIN (4 # 1)
                          (Sample.worldAt 1000))).
Proof.
  assert (H : consistentStats (Sample.card "a" 3 0))
    by (unfold consistentStats; cbn; lia).
  split; [exact H|].
  exact (consistentStats_kept (Sample.card "a" 3 0) AGAIN (4 # 1)
           (Sample.worldAt 1000) H).
Defined.

Lemma processReview_easeFactor_direction_witness :
  let card := Sample.reviewCard (2 # 1) 10 3 in
  ((13 # 10 <= easeFactor card <= 25 # 10) /\
   easeFactor (fst (processReview card HARD (4 # 1) (Sample.worldAt 1000)))
   <= easeFactor card)%Q.
Proof.
  cbn zeta.
  assert (H : (13 # 10 <= easeFactor (Sample.reviewCard (2 # 1) 10 3)
               <= 25 # 10)%Q)
    by (split; apply Qle_bool_imp_le; reflexivity).
  split; [exact H|].
  exact (processReview_easeFactor_direction (Sample.reviewCard (2 # 1) 10 3)
           HARD (4 # 1) (Sample.worldAt 1000) H).
Defined.

Lemma processReview_persisted_witness :
  let card := Sample.card "due1" 3 0 in
  let w := Sample.queueWorld in
  let card' := fst (processReview card GOOD (4 # 1) w) in
  let w' := snd (processReview card GOOD (4 # 1) w) in
  hasWindow w = true /\
  fst (CardStorage_getById (id card) w) = Some card /\
  exists index stored,
    fst (CardStorage_getAll w) !! index = Some card /\
    fst (CardStorage_getAll w')
    = <[index := stored]> (fst (CardStorage_getAll w)) /\
    fst (CardStorage_getById (id card) w') = Some stored /\
    id stored = id card /\
    easeFactor stored = easeFactor card' /\
    interval stored = interval card' /\
    repetitions stored = repetitions card' /\
    nextReviewDate stored = nextReviewDate card' /\
    totalReviews stored = totalReviews card' /\
    correctReviews stored = correctReviews card' /\
    streak stored = streak card' /\
    averageResponseTime stored = averageResponseTime card' /\
    updatedAt stored = clock w (ticks w + 2)%nat.
Proof.
  cbn zeta.
  assert (Hw : hasWindow Sample.queueWorld = true) by reflexivity.
  assert (Hold : fst (CardStorage_getById (id (Sample.card "due1" 3 0))
                        Sample.queueWorld)
                 = Some (Sample.card "due1" 3 0)) by reflexivity.
  split; [exact Hw|]. split; [exact Hold|].
  exact (processReview_persisted (Sample.card "due1" 3 0) GOOD (4 # 1)
           Sample.queueWorld (Sample.card "due1" 3 0) Hw Hold).
Defined.

Lemma processReview_unknown_card_witness :
  let card := Sample.card "gone" 3 0 in
  let w := Sample.queueWorld in
  let w' := snd (processReview card GOOD (4 # 1) w) in
  hasWindow w = true /\
  fst (CardStorage_getById (id card) w) = None /\
  fst (CardStorage_getAll w') = fst (CardStorage_getAll w) /\
  LifetimeStats.totalReviews (lifetimeOf w')
  = LifetimeStats.totalReviews (lifetimeOf w) + 1.
Proof.
  cbn zeta.
  assert (Hw : hasWindow Sample.queueWorld = true) by reflexivity.
  assert (Hnone : fst (CardStorage_getById (id (Sample.card "gone" 3 0))
                         Sample.queueWorld) = None) by reflexivity.
  split; [exact Hw|]. split; [exact Hnone|].
  exact (processReview_unknown_card (Sample.card "gone" 3 0) GOOD (4 # 1)
           Sample.queueWorld Hw Hnone).
Defined.

Lemma processReview_daily_totals_witness :
  let w := Sample.streakWorld in
  let progress := fst (ProgressStorage_get w) in
  let progress' :=
    fst (ProgressStorage_get
           (snd (processReview (Sample.card "a" 3 0) GOOD (4 # 1) w))) in
  hasWindow w = true /\
  sumOver cardsStudied (dailyStats progress') = 14.
Proof.
  cbn zeta.
  assert (Hw : hasWindow Sample.streakWorld = true) by reflexivity.
  split; [exact Hw|].
  exact (proj1 (processReview_daily_totals (Sample.card "a" 3 0) GOOD (4 # 1)
                  Sample.streakWorld Hw)).
Defined.

Lemma processReview_daily_entries_witness :
  let w := Sample.streakWorld in
  let stats := dailyStats (fst (ProgressStorage_get w)) in
  let stats' :=
    dailyStats (fst (ProgressStorage_get
                       (snd (processReview (Sample.card "a" 3 0) GOOD (4 # 1)
                               w)))) in
  hasWindow w = true /\
  (forall n, formatDate (clock w n) = 20000) /\
  (List.NoDup (List.map date stats) -> List.NoDup (List.map date stats')) /\
  (forall day, day <> 20000 -> entriesOf day stats' = entriesOf day stats) /\
  sumOver cardsStudied (entriesOf 20000 stats')
  = sumOver cardsStudied (entriesOf 20000 stats) + 1.
Proof.
  cbn zeta.
  assert (Hw : hasWindow Sample.streakWorld = true) by reflexivity.
  assert (Hday : forall n, formatDate (clock Sample.streakWorld n) = 20000)
    by (intros n; reflexivity).
  split; [exact Hw|]. split; [exact Hday|].
  exact (processReview_daily_entries (Sample.card "a" 3 0) GOOD (4 # 1)
           Sample.streakWorld 20000 Hw Hday).
Defined.

Lemma streak_after_review_witness :
  let w := Sample.streakWorld in
  let stats := dailyStats (fst (ProgressStorage_get w)) in
  hasWindow w = true /\
  (forall n, formatDate (clock w n) = 20000) /\
  List.NoDup (List.map date stats) /\
  Forall (fun s => date s <= 20000) stats /\
  Forall (fun s => 0 <= cardsStudied s) stats /\
  1 <= fst (calculateStudyStreak
              (snd (processReview (Sample.card "a" 3 0) AGAIN (4 # 1) w))).
Proof.
  cbn zeta.
  assert (Hw : hasWindow Sample.streakWorld = true) by reflexivity.
  assert (Hday : forall n, formatDate (clock Sample.streakWorld n) = 20000)
    by (intros n; reflexivity).
  assert (Hnodup : List.NoDup
            (List.map date
               (dailyStats (fst (ProgressStorage_get Sample.streakWorld))))).
  { cbn. repeat constructor; cbn; intuition discriminate. }
  assert (Hpast : Forall (fun s => date s <= 20000)
            (dailyStats (fst (ProgressStorage_get Sample.streakWorld)))).
  { repeat constructor; discriminate. }
  assert (Hcounts : Forall (fun s => 0 <= cardsStudied s)
            (dailyStats (fst (ProgressStorage_get Sample.streakWorld)))).
  { repeat constructor; discriminate. }
  split; [exact Hw|]. split; [exact Hday|]. split; [exact Hnodup|].
  split; [exact Hpast|]. split; [exact Hcounts|].
  exact (streak_after_review (Sample.card "a" 3 0) AGAIN (4 # 1)
           Sample.streakWorld 20000 Hw Hday Hnodup Hpast Hcounts).
Defined.

Lemma getDueCards_getNewCards_uncapped_witness :
  (Some 0 = Some 0 \/ Some 0 = @None Z) /\
  Permutation (fst (getDueCards (Some 0) Sample.queueWorld))
              (fst (CardStorage_getDueCards Sample.queueWorld)) /\
  Permutation (fst (getNewCards (Some 0) Sample.queueWorld))
              (fst (CardStorage_getNewCards Sample.queueWorld)).
Proof.
  assert (H : Some 0 = Some 0 \/ Some 0 = @None Z) by (left; reflexivity).
  split; [exact H|].
  exact (getDueCards_getNewCards_uncapped (Some 0) Sample.queueWorld H).
Defined.

Lemma CardStorage_add_getById_witness :
  let toString36 := fun _ : Q => "k3"%string in
  let w := Sample.queueWorld in
  let card' := fst (CardStorage_add toString36 Sample.newCard w) in
  let w' := snd (CardStorage_add toString36 Sample.newCard w) in
  hasWindow w = true /\
  length (fst (CardStorage_getAll w')) = S (length (fst (CardStorage_getAll w))) /\
  (fst (CardStorage_getById (id card') w) = None ->
   exists stored,
     fst (CardStorage_getById (id card') w') = Some stored /\
     readsBackAs stored card') /\
  (forall cardId, cardId <> id card' ->
     fst (CardStorage_getById cardId w') = fst (CardStorage_getById cardId w)).
Proof.
  cbn zeta.
  assert (Hw : hasWindow Sample.queueWorld = true) by reflexivity.
  split; [exact Hw|].
  exact (CardStorage_add_getById (fun _ : Q => "k3"%string) Sample.newCard
           Sample.queueWorld Hw).
Defined.

Lemma getOptimalInterval_spec_witness :
  let card := Sample.reviewCard (25 # 10) 10 3 in
  0 <= interval card /\
  interval card <= getOptimalInterval card.
Proof.
  cbn zeta.
  assert (H : 0 <= interval (Sample.reviewCard (25 # 10) 10 3))
    by discriminate.
  split; [exact H|].
  apply (proj2 (proj2 (getOptimalInterval_spec
                         (Sample.reviewCard (25 # 10) 10 3) H))).
  split; reflexivity.
Defined.

Lemma ProgressStorage_updateDailyStats_spec_witness :
  let w := Sample.streakWorld in
  let after :=
    fst (ProgressStorage_get
           (snd (ProgressStorage_updateDailyStats 20000 Sample.patch w))) in
  hasWindow w = true /\
  DailyPatch.date Sample.patch = None /\
  List.find (fun s => date s =? 20000) (dailyStats after)
  = Some {| date := 20000; cardsStudied := 2; correctAnswers := 2;
            studyTime := 0; newCards := 1 |}.
Proof.
  cbn zeta.
  assert (Hw : hasWindow Sample.streakWorld = true) by reflexivity.
  assert (Hdate : DailyPatch.date Sample.patch = None) by reflexivity.
  split; [exact Hw|]. split; [exact Hdate|].
  exact (proj1 (ProgressStorage_updateDailyStats_spec 20000 Sample.patch
                  Sample.streakWorld Hw Hdate)).
Defined.

End SchedulerMore.

(** * Properties of the storage layer *)

Module RawFacts.
Import Raw.

Section Laws.

Context {builtins : JSBuiltins}.



(** Writing one key leaves the others as they read. *)
Lemma Storage_get_set_other key key' v b :
  key <> key' -> Storage_get key' (Storage_set key v b) = Storage_get key' b.
Proof.
  intros Hne. unfold Storage_set.
  destruct (windowDefined b) eqn:E; [|reflexivity].
  destruct (JSON_stringify v); [|reflexivity].
  unfold Storage_get. cbn. rewrite E. now rewrite lookup_insert_ne.
Qed.

(** C8. When [JSON.parse] rejects the text, [importData] returns [false]
    and the browser state, with all five collections, is what it was. *)
Theorem importData_invalid_json jsonData b :
  JSON_parse jsonData = None -> importData jsonData b = (false, b).
Proof. intros Hbad. unfold importData. now rewrite Hbad. Qed.

(** *** Prototypes *)





(** No object of the value has a changed prototype. *)
Fixpoint plain (v : JSValue) : bool :=
  match v with
  | VArr items => forallb plain items
  | VObj props =>
      (fix each (ps : list (string * JSValue)) : bool :=
         match ps with
         | [] => true
         | (_, x) :: ps' => plain x && each ps'
         end) props
  | VProto _ _ => false
  | _ => true
  end.

(** No object of the value has an own property "__proto__". *)
Fixpoint noProtoKey (v : JSValue) : bool :=
  match v with
  | VArr items => forallb noProtoKey items
  | VObj props | VProto _ props =>
      (fix each (ps : list (string * JSValue)) : bool :=
         match ps with
         | [] => true
         | (k, x) :: ps' =>
             negb (String.eqb k "__proto__") && noProtoKey x && each ps'
         end) props
  | _ => true
  end.


(** [JSON.stringify] returns on a value without a changed prototype. *)
Lemma plain_stringifies v : plain v = true -> stringifyThrows v = false.
Proof.
  induction v as [| | | | |items IH|props IH|proto props _ IH]
    using JSValue_nested_ind; intros Hplain; try reflexivity;
    try discriminate.
  - cbn in *. induction IH as [|x l Hx _ IHl]; cbn; [reflexivity|].
    cbn in Hplain. apply andb_true_iff in Hplain as [Hpx Hpl].
    now rewrite (Hx Hpx), (IHl Hpl).
  - cbn [plain stringifyThrows] in *.
    induction IH as [|[k x] l Hx _ IHl]; [reflexivity|].
    apply andb_true_iff in Hplain as [Hpx Hpl]. cbn in Hx.
    now rewrite (Hx Hpx), (IHl Hpl).
Qed.

(** What was revived prints without a key "__proto__". *)
Lemma noProtoKey_revived v : noProtoKey (toJSON (reviveDates v)) = true.
Proof.
  assert (Hprops : forall props,
            Forall (fun p => noProtoKey (toJSON (reviveDates (snd p))) = true)
              props ->
            noProtoKey
              (VObj (mapValues toJSON (assignValues reviveDates props)))
            = true).
  { intros props IH. cbn [noProtoKey].
    induction IH as [|[k x] l Hx _ IHl]; [reflexivity|].
    cbn [assignValues].
    destruct (String.eqb k "__proto__") eqn:Ek; [exact IHl|].
    cbn [mapValues]. cbn in Hx. now rewrite Ek, Hx, IHl. }
  induction v as [| | |s| |items IH|props IH|proto props _ IH]
    using JSValue_nested_ind; try reflexivity.
  - cbn. destruct (dateRegex_test s); [|reflexivity].
    now destruct (Date_parse s).
  - cbn. induction IH as [|x l Hx _ IHl]; cbn; [reflexivity|].
    now rewrite Hx, IHl.
  - cbn [reviveDates].
    destruct (assignedProto reviveDates props); apply (Hprops props IH).
  - cbn [reviveDates].
    destruct (assignedProto reviveDates props); apply (Hprops props IH).
Qed.

(** Reviving a value without a key "__proto__" changes no prototype. *)
Lemma reviveDates_plain v : noProtoKey v = true -> plain (reviveDates v) = true.
Proof.
  assert (Hprops : forall props,
            Forall (fun p => noProtoKey (snd p) = true ->
                             plain (reviveDates (snd p)) = true) props ->
            noProtoKey (VObj props) = true ->
            assignedProto reviveDates props = None /\
            plain (VObj (assignValues reviveDates props)) = true).
  { intros props IH. cbn [noProtoKey plain].
    induction IH as [|[k x] l Hx _ IHl]; intros H; [split; reflexivity|].
    apply andb_true_iff in H as [Hkx Hl].
    apply andb_true_iff in Hkx as [Hk Hnx].
    apply negb_true_iff in Hk. cbn in Hx.
    destruct (IHl Hl) as [Hnone Hplain].
    cbn [assignedProto assignValues]. rewrite Hnone, Hk. cbn [andb].
    split; [reflexivity|]. now rewrite (Hx Hnx), Hplain. }
  induction v as [| | |s| |items IH|props IH|proto props _ IH]
    using JSValue_nested_ind; intros Hno; try reflexivity.
  - cbn. destruct (dateRegex_test s); [|reflexivity].
    now destruct (Date_parse s).
  - cbn in *. induction IH as [|x l Hx _ IHl]; cbn; [reflexivity|].
    cbn in Hno. apply andb_true_iff in Hno as [Hnx Hnl].
    now rewrite (Hx Hnx), (IHl Hnl).
  - destruct (Hprops props IH Hno) as [Hnone Hplain].
    cbn [reviveDates]. now rewrite Hnone.
  - destruct (Hprops props IH Hno) as [Hnone Hplain].
    cbn [reviveDates]. now rewrite Hnone.
Qed.

(** So what was revived can be printed, read and revived again, and
    printed. *)
Lemma revived_again_stringifies v :
  stringifyThrows (reviveDates (toJSON (reviveDates v))) = false.
Proof.
  apply plain_stringifies, reviveDates_plain, noProtoKey_revived.
Qed.

(** *** Importing a document, key by key *)

(** The items after one [if (data.prop) save(data.prop)]. *)
Definition imported (data : JSValue) (prop key : string)
    (items : gmap string string) : gmap string string :=
  match getProp data prop with
  | Some v =>
      if truthy v then
        match JSON_stringify v with
        | Some text => <[key := text]> items
        | None => items
        end
      else items
  | None => items
  end.

Lemma saveIfPresent_state data prop key b :
  windowDefined b = true ->
  windowDefined (saveIfPresent data prop (Storage_set key) b) = true /\
  localStorage (saveIfPresent data prop (Storage_set key) b)
  = imported data prop key (localStorage b).
Proof.
  intros Hw. unfold saveIfPresent, imported, Storage_set.
  destruct (getProp data prop) as [v|]; [|auto].
  destruct (truthy v); [|auto].
  rewrite Hw. destruct (JSON_stringify v); cbn; auto.
Qed.

Lemma saveIfPresent_no_window data prop key b :
  windowDefined b = false ->
  saveIfPresent data prop (Storage_set key) b = b.
Proof.
  intros Hw. unfold saveIfPresent, Storage_set.
  destruct (getProp data prop) as [v|]; [|reflexivity].
  destruct (truthy v); [|reflexivity]. now rewrite Hw.
Qed.

Lemma imported_lookup_ne data prop key key' (items : gmap string string) :
  key <> key' -> imported data prop key items !! key' = items !! key'.
Proof.
  intros Hne. unfold imported.
  destruct (getProp data prop) as [v|]; [|reflexivity].
  destruct (truthy v); [|reflexivity].
  destruct (JSON_stringify v); [|reflexivity]. now apply lookup_insert_ne.
Qed.

Lemma imported_lookup_eq data prop key (items : gmap string string) :
  imported data prop key items !! key =
  match getProp data prop with
  | Some v =>
      if truthy v then
        match JSON_stringify v with
        | Some text => Some text
        | None => items !! key
        end
      else items !! key
  | None => items !! key
  end.
Proof.
  unfold imported.
  destruct (getProp data prop) as [v|]; [|reflexivity].
  destruct (truthy v); [|reflexivity].
  destruct (JSON_stringify v); [|reflexivity]. apply lookup_insert_eq.
Qed.

(** The store after an import of a document that is not [null]. *)
Lemma importData_state jsonData data b :
  JSON_parse jsonData = Some data ->
  data <> VNull ->
  fst (importData jsonData b) = true /\
  windowDefined (snd (importData jsonData b)) = windowDefined b /\
  (windowDefined b = true ->
   localStorage (snd (importData jsonData b)) =
   imported data "settings" SETTINGS
     (imported data "categories" CATEGORIES
        (imported data "sessions" STUDY_SESSIONS
           (imported data "progress" USER_PROGRESS
              (imported data "cards" CARDS (localStorage b)))))) /\
  (windowDefined b = false -> snd (importData jsonData b) = b).
Proof.
  intros Hparsed Hnull. unfold importData. rewrite Hparsed.
  unfold SettingsStorage_save, CategoryStorage_save, SessionStorage_save,
    ProgressStorage_save, CardStorage_save.
  assert (Hgoal :
    let b5 :=
      saveIfPresent data "settings" (Storage_set SETTINGS)
        (saveIfPresent data "categories" (Storage_set CATEGORIES)
           (saveIfPresent data "sessions" (Storage_set STUDY_SESSIONS)
              (saveIfPresent data "progress" (Storage_set USER_PROGRESS)
                 (saveIfPresent data "cards" (Storage_set CARDS) b)))) in
    windowDefined b5 = windowDefined b /\
    (windowDefined b = true ->
     localStorage b5 =
     imported data "settings" SETTINGS
       (imported data "categories" CATEGORIES
          (imported data "sessions" STUDY_SESSIONS
             (imported data "progress" USER_PROGRESS
                (imported data "cards" CARDS (localStorage b)))))) /\
    (windowDefined b = false -> b5 = b)).
  { cbn zeta. destruct (windowDefined b) eqn:Hw.
    - destruct (saveIfPresent_state data "cards" CARDS b Hw) as [H1 E1].
      destruct (saveIfPresent_state data "progress" USER_PROGRESS _ H1)
        as [H2 E2].
      destruct (saveIfPresent_state data "sessions" STUDY_SESSIONS _ H2)
        as [H3 E3].
      destruct (saveIfPresent_state data "categories" CATEGORIES _ H3)
        as [H4 E4].
      destruct (saveIfPresent_state data "settings" SETTINGS _ H4)
        as [H5 E5].
      split; [exact H5|]. split; [|discriminate].
      intros _. now rewrite E5, E4, E3, E2, E1.
    - rewrite (saveIfPresent_no_window data "cards" CARDS b Hw).
      rewrite (saveIfPresent_no_window data "progress" USER_PROGRESS b Hw).
      rewrite (saveIfPresent_no_window data "sessions" STUDY_SESSIONS b Hw).
      rewrite (saveIfPresent_no_window data "categories" CATEGORIES b Hw).
      rewrite (saveIfPresent_no_window data "settings" SETTINGS b Hw).
      split; [exact Hw|]. split; [discriminate | reflexivity]. }
  destruct data; try contradiction; cbn [fst snd]; split; try reflexivity;
    exact Hgoal.
Qed.

(** The five keys of the store and the property of the backup document
    each is saved from. *)
Definition storedFrom : list (string * string) :=
  [(CARDS, "cards"); (USER_PROGRESS, "progress");
   (STUDY_SESSIONS, "sessions"); (CATEGORIES, "categories");
   (SETTINGS, "settings")].

Lemma importData_lookup jsonData data b key prop :
  JSON_parse jsonData = Some data ->
  data <> VNull ->
  windowDefined b = true ->
  In (key, prop) storedFrom ->
  localStorage (snd (importData jsonData b)) !! key =
  match getProp data prop with
  | Some v =>
      if truthy v then
        match JSON_stringify v with
        | Some text => Some text
        | None => localStorage b !! key
        end
      else localStorage b !! key
  | None => localStorage b !! key
  end.
Proof.
  intros Hparsed Hnull Hw Hin.
  destruct (importData_state jsonData data b Hparsed Hnull)
    as (_ & _ & Hitems & _).
  rewrite (Hitems Hw).
  cbn in Hin.
  destruct Hin as [E | [E | [E | [E | [E | []]]]]]; injection E as <- <-;
    rewrite ?imported_lookup_ne by discriminate;
    rewrite imported_lookup_eq;
    rewrite ?imported_lookup_ne by discriminate; reflexivity.
Qed.

(** X26. An import of a document that parses and is not [null] reports
    success and, with the window present, replaces the item of each of the
    five keys whose property in the document is present and truthy by the
    text of that property; the item of a key whose property is missing,
    [null], [false], [0] or the empty string stays, as it does when
    [JSON.stringify] throws on the property; and so does every item under
    another key. *)
Theorem importData_per_key jsonData data b :
  JSON_parse jsonData = Some data ->
  data <> VNull ->
  windowDefined b = true ->
  let b' := snd (importData jsonData b) in
  fst (importData jsonData b) = true /\
  (forall key prop, In (key, prop) storedFrom ->
     localStorage b' !! key =
     match getProp data prop with
     | Some v =>
         if truthy v then
           match JSON_stringify v with
           | Some text => Some text
           | None => localStorage b !! key
           end
         else localStorage b !! key
     | None => localStorage b !! key
     end) /\
  (forall key, ~ In key (List.map fst storedFrom) ->
     localStorage b' !! key = localStorage b !! key).
Proof.
  intros Hparsed Hnull Hw. cbn zeta.
  destruct (importData_state jsonData data b Hparsed Hnull)
    as (Hok & _ & Hitems & _).
  split; [exact Hok|]. split.
  - intros key prop Hin. now apply importData_lookup.
  - intros key Hout. rewrite (Hitems Hw). cbn in Hout.
    rewrite !imported_lookup_ne; [reflexivity|..];
      intros <-; apply Hout; auto 10.
Qed.

(** *** Resetting the store *)

(** X23. After [clearAllData], and after [Storage.clear], every
    collection reads as its default: no cards, sessions or categories, the
    default progress and the default settings. [clearAllData] leaves every
    item under another key as it is. *)
Theorem clearAllData_defaults b :
  (forall b', b' = clearAllData b \/ b' = Storage_clear b ->
     CardStorage_getAll b' = VArr [] /\
     ProgressStorage_get b' = defaultProgress /\
     SessionStorage_getAll b' = VArr [] /\
     CategoryStorage_getAll b' = VArr [] /\
     SettingsStorage_get b' = defaultSettings) /\
  (forall key,
     key <> CARDS -> key <> USER_PROGRESS -> key <> STUDY_SESSIONS ->
     key <> CATEGORIES -> key <> SETTINGS ->
     localStorage (clearAllData b) !! key = localStorage b !! key).
Proof.
  split.
  - intros b' [-> | ->];
      unfold clearAllData, Storage_clear, Storage_remove, CardStorage_getAll,
        ProgressStorage_get, SessionStorage_getAll, CategoryStorage_getAll,
        SettingsStorage_get, Storage_get, orElse;
      destruct (windowDefined b) eqn:Hw; cbn; rewrite ?Hw; cbn;
      rewrite ?Hw; cbn; rewrite ?Hw; cbn; rewrite ?Hw; cbn; rewrite ?Hw; cbn;
      rewrite ?lookup_empty;
      repeat first [rewrite lookup_delete_eq
                   | rewrite lookup_delete_ne by discriminate];
      repeat split.
  - intros key H1 H2 H3 H4 H5.
    unfold clearAllData, Storage_remove.
    destruct (windowDefined b) eqn:Hw; cbn; rewrite ?Hw; cbn;
      rewrite ?Hw; cbn; rewrite ?Hw; cbn; rewrite ?Hw; cbn; rewrite ?Hw; cbn;
      [|reflexivity].
    now rewrite !lookup_delete_ne by congruence.
Qed.

(** *** The laws of the built-ins the round trips rest on *)

(** The empty text is not JSON. *)
Hypothesis parse_empty : JSON_parse "" = None.

(** [JSON.parse] reads back what [JSON.stringify] wrote. *)
Hypothesis parse_serialize :
  forall gap v, JSON_parse (JSON_serialize gap (toJSON v)) = Some (toJSON v).

(** [new Date(d.toISOString())] has the time value of [d]. The law is needed
    only where [reviveDates] would call [new Date]: for a text its pattern
    accepts. *)
Hypothesis date_roundtrip :
  forall t, dateRegex_test (Date_toISOString t) = true ->
            Date_parse (Date_toISOString t) = Some t.

Lemma serialize_nonempty gap v :
  String.eqb (JSON_serialize gap (toJSON v)) "" = false.
Proof.
  apply String.eqb_neq. intros E.
  pose proof (parse_serialize gap v) as Hp.
  rewrite E, parse_empty in Hp. discriminate.
Qed.

Lemma Storage_get_set_same key v b :
  windowDefined b = true ->
  stringifyThrows v = false ->
  Storage_get key (Storage_set key v b) = reviveDates (toJSON v).
Proof.
  intros Hw Hreturns. unfold Storage_get, Storage_set, JSON_stringify.
  rewrite Hw, Hreturns. cbn.
  rewrite lookup_insert_eq.
  now rewrite serialize_nonempty, parse_serialize.
Qed.

(** *** Writing and reading one key *)

(** A value that [reviveDates] leaves as it is: no [Date], no string of the
    shape of a date, no key "__proto__" and no changed prototype. *)
Fixpoint plainValue (v : JSValue) : bool :=
  match v with
  | VStr s => negb (dateRegex_test s)
  | VDate _ => false
  | VArr items => forallb plainValue items
  | VObj props =>
      (fix each (ps : list (string * JSValue)) : bool :=
         match ps with
         | [] => true
         | (k, x) :: ps' =>
             negb (String.eqb k "__proto__") && plainValue x && each ps'
         end) props
  | VProto _ _ => false
  | _ => true
  end.

Lemma plainValue_fixed v :
  plainValue v = true ->
  toJSON v = v /\ reviveDates v = v /\ stringifyThrows v = false.
Proof.
  induction v as [| | |s|t|items IH|props IH|proto props _ _]
    using JSValue_nested_ind;
    intros Hplain; try (repeat split; reflexivity); try discriminate.
  - cbn in *. apply negb_true_iff in Hplain. now rewrite Hplain.
  - cbn [plainValue] in Hplain.
    assert (List.map toJSON items = items /\
            List.map reviveDates items = items /\
            existsb stringifyThrows items = false)
      as (Ht & Hr & Hs).
    { induction IH as [|x l Hx _ IHl]; [repeat split; reflexivity|].
      cbn in Hplain. apply andb_true_iff in Hplain as [Hpx Hpl].
      destruct (Hx Hpx) as (Hxt & Hxr & Hxs).
      destruct (IHl Hpl) as (Hlt & Hlr & Hls).
      cbn. now rewrite Hxt, Hxr, Hxs, Hlt, Hlr, Hls. }
    cbn. now rewrite Ht, Hr, Hs.
  - cbn [plainValue] in Hplain.
    assert (mapValues toJSON props = props /\
            assignValues reviveDates props = props /\
            assignedProto reviveDates props = None /\
            stringifyThrows (VObj props) = false) as (Ht & Hr & Hp & Hs).
    { cbn [stringifyThrows].
      induction IH as [|[k x] l Hx _ IHl]; [repeat split; reflexivity|].
      apply andb_true_iff in Hplain as [Hkx Hpl].
      apply andb_true_iff in Hkx as [Hk Hpx].
      apply negb_true_iff in Hk. cbn in Hx.
      destruct (Hx Hpx) as (Hxt & Hxr & Hxs).
      destruct (IHl Hpl) as (Hlt & Hlr & Hlp & Hls).
      cbn. now rewrite Hk, Hxt, Hxr, Hxs, Hlt, Hlr, Hlp, Hls. }
    cbn [toJSON reviveDates]. now rewrite Ht, Hr, Hp, Hs.
Qed.

(** X24. With the window present, [Storage.get] after [Storage.set] of the
    same key returns the value that was set when the value has no [Date],
    no string of the shape of a date, no key "__proto__" and no object
    with a changed prototype; items under other keys read as before. *)
Theorem Storage_set_get key v b :
  windowDefined b = true ->
  plainValue v = true ->
  Storage_get key (Storage_set key v b) = v /\
  (forall key', key <> key' ->
     Storage_get key' (Storage_set key v b) = Storage_get key' b).
Proof.
  intros Hw Hplain. split.
  - destruct (plainValue_fixed v Hplain) as (Ht & Hr & Hs).
    rewrite (Storage_get_set_same _ _ _ Hw Hs). now rewrite Ht, Hr.
  - intros key' Hne. now apply Storage_get_set_other.
Qed.

(** X25. A string of the shape of a date that [new Date] accepts does not
    come back as a string: with the window present, [Storage.get] after
    [Storage.set] returns a [Date] in its place. *)
Theorem Storage_set_get_date_string key s t b :
  windowDefined b = true ->
  dateRegex_test s = true ->
  Date_parse s = Some t ->
  Storage_get key (Storage_set key (VStr s) b) = VDate t.
Proof.
  intros Hw Hshape Hdate.
  rewrite (Storage_get_set_same _ _ _ Hw) by reflexivity.
  cbn. now rewrite Hshape, Hdate.
Qed.

(** *** Export and import *)

(** [toISOString] returns a text that is not empty. *)
Hypothesis iso_nonempty : forall t, Date_toISOString t <> "".








(** [exportData] returns when no stored text has, after [JSON.parse], an
    object with a key "__proto__". *)
Lemma exportData_without_proto_keys b :
  (forall key item parsed,
     localStorage b !! key = Some item ->
     JSON_parse item = Some parsed -> noProtoKey parsed = true) ->
  exists text, fst (exportData b) = Some text.
Proof.
  intros Hkeys.
  assert (Hget : forall key d,
            stringifyThrows d = false ->
            stringifyThrows (orElse (Storage_get key b) d) = false).
  { intros key d Hd. unfold orElse, Storage_get.
    destruct (windowDefined b); [|exact Hd].
    destruct (localStorage b !! key) as [item|] eqn:Eitem; [|exact Hd].
    destruct (String.eqb item ""); [exact Hd|].
    destruct (JSON_parse item) as [parsed|] eqn:Eparsed; [|exact Hd].
    destruct (truthy (reviveDates parsed)); [|exact Hd].
    apply plain_stringifies, reviveDates_plain.
    exact (Hkeys key item parsed Eitem Eparsed). }
  unfold exportData, JSON_stringify_indented. cbn [fst].
  assert (Hreturns : stringifyThrows (exportObject b) = false).
  { cbn. unfold CardStorage_getAll, ProgressStorage_get, SessionStorage_getAll,
      CategoryStorage_getAll, SettingsStorage_get.
    now rewrite !Hget by reflexivity. }
  rewrite Hreturns. eauto.
Qed.






End Laws.

(** *** The definitions on small inputs *)

Example dateRegex_test_iso :
  dateRegex_test "2025-03-09T17:45:12.345Z" = true /\
  dateRegex_test "2025-03-09" = false /\
  dateRegex_test "on 2025-03-09T17:45:12" = false.
Proof. repeat split. Qed.

(** A key "__proto__" never becomes a property of the revived object: a
    number under it is dropped, an object or [null] becomes the
    prototype. *)
Example reviveDates_object :
  @reviveDates Reference.builtins
    (VObj [("due", VStr (Reference.toStamp 9)); ("__proto__", VNum 1);
           ("front", VStr "2025-03-09")]) =
  VObj [("due", VDate 9); ("front", VStr "2025-03-09")] /\
  @reviveDates Reference.builtins
    (VObj [("id", VStr "c1"); ("__proto__", VObj [("id", VStr "c2")])]) =
  VProto (VObj [("id", VStr "c2")]) [("id", VStr "c1")] /\
  @reviveDates Reference.builtins
    (VObj [("id", VStr "c1"); ("__proto__", VNull)]) =
  VProto VNull [("id", VStr "c1")].
Proof. repeat split; vm_compute; reflexivity. Qed.

(** With the text of a date under the key "__proto__" the revived object
    inherits from a [Date]: [JSON.stringify] throws on it, unless the
    object has a property [toJSON] of its own. *)
Example stringify_date_prototype :
  @JSON_stringify Reference.builtins
    (@reviveDates Reference.builtins
       (VObj [("id", VStr "c1");
              ("__proto__", VStr (Reference.toStamp 5))])) = None /\
  @JSON_stringify Reference.builtins
    (@reviveDates Reference.builtins
       (VObj [("toJSON", VNum 1);
              ("__proto__", VStr (Reference.toStamp 5))]))
  = Some (Reference.serialize 0 (VObj [("toJSON", VNum 1)])).
Proof. split; vm_compute; reflexivity. Qed.

(** From such a store [exportData] returns nothing; [Storage.set] of what
    [CardStorage.getAll] read writes nothing. *)
Example exportData_throws :
  fst (@exportData Reference.builtins Sample.poisoned) = None /\
  @CardStorage_save Reference.builtins
    (@CardStorage_getAll Reference.builtins Sample.poisoned) Sample.target
  = Sample.target.
Proof. split; vm_compute; reflexivity. Qed.

(** A document that is [null], or that [JSON.parse] takes for a number,
    changes nothing; the first is reported as a failure. *)
Example importData_null_and_number :
  @importData Reference.builtins (Reference.serialize 0 VNull) Sample.browser
  = (false, Sample.browser) /\
  @importData Reference.builtins (Reference.serialize 0 (VNum 5))
    Sample.browser
  = (true, Sample.browser).
Proof. split; reflexivity. Qed.

(** *** The properties at the reference instance *)

Example CardStorage_getAll_at_browser :
  @CardStorage_getAll Reference.builtins Sample.browser =
  VArr [VObj [("id", VStr "c1"); ("easeFactor", VNum (25 # 10));
              ("nextReviewDate", VDate 5)]].
Proof. vm_compute. reflexivity. Qed.

Lemma importData_invalid_json_witness :
  @JSON_parse Reference.builtins "{cards: oops" = None /\
  @importData Reference.builtins "{cards: oops" Sample.browser
  = (false, Sample.browser).
Proof.
  assert (H : @JSON_parse Reference.builtins "{cards: oops" = None)
    by reflexivity.
  split; [exact H|].
  exact (@importData_invalid_json Reference.builtins _ Sample.browser H).
Defined.


Lemma Storage_set_get_witness :
  let v := VObj [("name", VStr "maths"); ("cardCount", VNum 3)] in
  windowDefined Sample.browser = true /\
  plainValue v = true /\
  @Storage_get Reference.builtins "draft"
    (@Storage_set Reference.builtins "draft" v Sample.browser) = v.
Proof.
  cbn zeta.
  assert (Hw : windowDefined Sample.browser = true) by reflexivity.
  assert (Hplain : plainValue
                     (VObj [("name", VStr "maths"); ("cardCount", VNum 3)])
                   = true) by reflexivity.
  split; [exact Hw|]. split; [exact Hplain|].
  exact (proj1 (@Storage_set_get Reference.builtins
                  ReferenceFacts.parse_empty
                  (fun gap v => ReferenceFacts.parse_serialize gap (toJSON v))
                  "draft" _ Sample.browser Hw Hplain)).
Defined.

Lemma Storage_set_get_date_string_witness :
  windowDefined Sample.browser = true /\
  dateRegex_test (Reference.toStamp 5) = true /\
  @Date_parse Reference.builtins (Reference.toStamp 5) = Some 5 /\
  @Storage_get Reference.builtins "draft"
    (@Storage_set Reference.builtins "draft" (VStr (Reference.toStamp 5))
       Sample.browser) = VDate 5.
Proof.
  assert (Hw : windowDefined Sample.browser = true) by reflexivity.
  assert (Hshape : dateRegex_test (Reference.toStamp 5) = true)
    by (vm_compute; reflexivity).
  assert (Hdate : @Date_parse Reference.builtins (Reference.toStamp 5)
                  = Some 5) by (vm_compute; reflexivity).
  split; [exact Hw|]. split; [exact Hshape|]. split; [exact Hdate|].
  exact (@Storage_set_get_date_string Reference.builtins
           ReferenceFacts.parse_empty
           (fun gap v => ReferenceFacts.parse_serialize gap (toJSON v))
           "draft" _ 5 Sample.browser Hw Hshape Hdate).
Defined.

Lemma importData_per_key_witness :
  let data := VObj [("cards", VArr []); ("settings", VNull)] in
  let jsonData := Reference.serialize 0 data in
  let b' := snd (@importData Reference.builtins jsonData Sample.browser) in
  @JSON_parse Reference.builtins jsonData = Some data /\
  data <> VNull /\
  windowDefined Sample.browser = true /\
  fst (@importData Reference.builtins jsonData Sample.browser) = true /\
  localStorage b' !! CARDS
  = @JSON_stringify Reference.builtins (VArr []) /\
  localStorage b' !! SETTINGS = localStorage Sample.browser !! SETTINGS.
Proof.
  cbn zeta.
  assert (Hparsed :
    @JSON_parse Reference.builtins
      (Reference.serialize 0
         (VObj [("cards", VArr []); ("settings", VNull)]))
    = Some (VObj [("cards", VArr []); ("settings", VNull)]))
    by (vm_compute; reflexivity).
  assert (Hnull : VObj [("cards", VArr []); ("settings", VNull)] <> VNull)
    by discriminate.
  assert (Hw : windowDefined Sample.browser = true) by reflexivity.
  split; [exact Hparsed|]. split; [exact Hnull|]. split; [exact Hw|].
  pose proof (@importData_per_key Reference.builtins _ _ Sample.browser
                Hparsed Hnull Hw) as (Hok & Hkeys & _).
  split; [exact Hok|]. split.
  - exact (Hkeys CARDS "cards" (or_introl eq_refl)).
  - exact (Hkeys SETTINGS "settings"
             (or_intror (or_intror (or_intror (or_intror
                (or_introl eq_refl)))))).
Defined.


End RawFacts.
